(** * PyShare: the session controllers and the receiver client

    A shallow embedding of the four programs of the repository:
    - [pyshare_cli.py]  (module [Cli]):  the command-line controller;
    - [pyshare_rich.py] (module [Rich]): the Rich front end;
    - [pyshare.py]      (module [Tui]):  the Textual application;
    - [pyshare_recv.py] (module [Recv]): the receiver client.

    Python strings are Rocq strings whose characters are the code points
    below 256; an attribute that may hold [None] is an [option].  A
    method that mutates [self], spawns or terminates a process, or prints
    is a function from system state to system state; a call that may
    raise returns a [res], together with the state it leaves. *)

From Stdlib Require Import ZArith Lia List Ascii String DecimalString DecimalPos
  DecimalFacts.
From stdpp Require Import base option list gmap strings.

Local Open Scope Z_scope.

(** ** Outcomes of a Python call: a value or a raised exception *)

Inductive res (A : Type) : Type :=
  | Ret (a : A)
  | Exc (name : string).
Arguments Ret {A} a.
Arguments Exc {A} name.

Definition res_bind {A B} (r : res A) (k : A → res B) : res B :=
  match r with
  | Ret a => k a
  | Exc e => Exc e
  end.

(** ** The built-in string operations the programs use *)

Module Py.

Definition ord (a : ascii) : Z := Z.of_N (N_of_ascii a).

(** [str.isspace] on one character, for code points below 256. *)
Definition isspace (a : ascii) : bool :=
  let n := ord a in
  ((9 <=? n) && (n <=? 13)) || ((28 <=? n) && (n <=? 32))
  || (n =? 133) || (n =? 160).

Fixpoint lstrip (s : string) : string :=
  match s with
  | EmptyString => EmptyString
  | String a r => if isspace a then lstrip r else s
  end.

Fixpoint rstrip (s : string) : string :=
  match s with
  | EmptyString => EmptyString
  | String a r =>
      match rstrip r with
      | EmptyString => if isspace a then EmptyString else String a EmptyString
      | r' => String a r'
      end
  end.

(** [s.strip()] *)
Definition strip (s : string) : string := rstrip (lstrip s).

(** [s.split()]: the maximal runs of non-whitespace characters.
    [cur] is the run being read, reversed. *)
Fixpoint split_go (cur : string) (s : string) : list string :=
  match s with
  | EmptyString =>
      match cur with
      | EmptyString => []
      | _ => [String.rev cur]
      end
  | String a r =>
      if isspace a then
        match cur with
        | EmptyString => split_go EmptyString r
        | _ => String.rev cur :: split_go EmptyString r
        end
      else split_go (String a cur) r
  end.

Definition split (s : string) : list string := split_go EmptyString s.

(** [str.lower] on one character, for code points below 256. *)
Definition lower_char (a : ascii) : ascii :=
  let n := ord a in
  if ((65 <=? n) && (n <=? 90))
     || ((192 <=? n) && (n <=? 222) && negb (n =? 215))
  then ascii_of_N (Z.to_N (n + 32)) else a.

Fixpoint lower (s : string) : string :=
  match s with
  | EmptyString => EmptyString
  | String a r => String (lower_char a) (lower r)
  end.

(** [s.startswith(p)], and [s.endswith(p)]: some suffix of [s] is [p]. *)
Fixpoint startswith (p s : string) : bool :=
  match p with
  | EmptyString => true
  | String a p' =>
      match s with
      | EmptyString => false
      | String b s' => Ascii.eqb a b && startswith p' s'
      end
  end.

Fixpoint endswith (p s : string) : bool :=
  String.eqb s p
  || match s with
     | EmptyString => false
     | String _ r => endswith p r
     end.

(** Truthiness of a string: [if s:] *)
Definition truthy (s : string) : bool :=
  match s with
  | EmptyString => false
  | _ => true
  end.

(** [a or b] on strings *)
Definition or_else (a b : string) : string := if truthy a then a else b.

Definition digit (a : ascii) : option Z :=
  let n := ord a in
  if (48 <=? n) && (n <=? 57) then Some (n - 48) else None.

(** The digits of a decimal literal after its first digit; a single
    underscore may stand between two digits. *)
Fixpoint int_digits (acc : Z) (after_underscore : bool) (s : string)
  : option Z :=
  match s with
  | EmptyString => if after_underscore then None else Some acc
  | String a r =>
      match digit a with
      | Some d => int_digits (10 * acc + d) false r
      | None =>
          if (ord a =? 95) && negb after_underscore
          then int_digits acc true r
          else None
      end
  end.

Definition int_unsigned (s : string) : option Z :=
  match s with
  | EmptyString => None
  | String a r =>
      match digit a with
      | Some d => int_digits d false r
      | None => None
      end
  end.

(** The whitespace [int] skips around a literal.  It is not that of
    [str.strip]: a character below 127 is skipped when C's [isspace]
    accepts it, so the separators 28 to 31 are not; 133 and 160 are. *)
Definition int_space (a : ascii) : bool :=
  let n := ord a in
  ((9 <=? n) && (n <=? 13)) || (n =? 32) || (n =? 133) || (n =? 160).

Fixpoint int_lstrip (s : string) : string :=
  match s with
  | EmptyString => EmptyString
  | String a r => if int_space a then int_lstrip r else s
  end.

Fixpoint int_rstrip (s : string) : string :=
  match s with
  | EmptyString => EmptyString
  | String a r =>
      match int_rstrip r with
      | EmptyString => if int_space a then EmptyString else String a EmptyString
      | r' => String a r'
      end
  end.

(** The number of digits of a literal. *)
Fixpoint count_digits (s : string) : nat :=
  match s with
  | EmptyString => 0
  | String a r =>
      match digit a with
      | Some _ => S (count_digits r)
      | None => count_digits r
      end
  end.

(** [sys.get_int_max_str_digits()] as the interpreter starts with it;
    the programs do not change it. *)
Definition max_str_digits : nat := 4300.

(** [int(s)] for a string [s]: [None] stands for [ValueError].
    Whitespace around the literal is dropped, one sign is allowed, and a
    literal of more than [max_str_digits] digits is refused. *)
Definition int (s : string) : option Z :=
  match int_rstrip (int_lstrip s) with
  | String a r =>
      let signed := (ord a =? 43) || (ord a =? 45) in
      if (max_str_digits <? count_digits (if signed then r else String a r))%nat
      then None
      else if ord a =? 43 then int_unsigned r
      else if ord a =? 45 then Z.opp <$> int_unsigned r
      else int_unsigned (String a r)
  | EmptyString => None
  end.

(** [str(n)], also what an f-string writes for an integer (of at most
    [max_str_digits] digits: the integers the programs write are ports
    and positions in a list). *)
Definition str (n : Z) : string := NilZero.string_of_int (Z.to_int n).

(** What an f-string writes for a value that is [None] or an integer,
    and for one that is [None] or a string. *)
Definition format_int (x : option Z) : string :=
  match x with
  | Some n => str n
  | None => "None"
  end.

Definition format_str (x : option string) : string :=
  match x with
  | Some s => s
  | None => "None"
  end.

End Py.

(** ** The world around a controller *)

(** A server process started with [multiprocessing.Process(target=run_server,
    args=(directory, port))]: the arguments it was launched with and
    whether it is still alive.  An argument is the value of an attribute
    of the controller: a string, an integer, or Python's [None], which
    the Textual application stores when a dialog is cancelled.  A process
    id is the position in the list of the processes spawned so far. *)
Record process : Type := {
  p_dir : option string;
  p_port : option Z;
  p_alive : bool
}.

(** What [netifaces] reports: [interfaces()], and for an interface the
    [AF_INET] entry of [ifaddresses(iface)] when there is one, a list of
    links whose ['addr'] may be missing. *)
Record host : Type := {
  interfaces : res (list string);
  ifaddresses : string → res (option (list (option string)))
}.

Record world : Type := {
  w_dirs : gset string;     (* the paths [os.path.isdir] accepts *)
  w_procs : list process;
  w_probe : res string;     (* connecting a UDP socket towards 8.8.8.8 and
                               reading its own address *)
  w_host : host
}.

Definition isdir (w : world) (path : string) : bool :=
  bool_decide (path ∈ w_dirs w).

(** [p.is_alive()] *)
Definition is_alive (w : world) (pid : nat) : bool :=
  match w_procs w !! pid with
  | Some p => p_alive p
  | None => false
  end.

Definition kill (p : process) : process :=
  {| p_dir := p_dir p; p_port := p_port p; p_alive := false |}.

Definition with_procs (w : world) (ps : list process) : world :=
  {| w_dirs := w_dirs w; w_procs := ps;
     w_probe := w_probe w; w_host := w_host w |}.

(** [p = Process(...); p.start()]: a new live process, and its id. *)
Definition spawn (w : world) (dir : option string) (port : option Z)
  : world * nat :=
  (with_procs w (w_procs w ++ [{| p_dir := dir; p_port := port; p_alive := true |}]),
   length (w_procs w)).

(** [p.terminate(); p.join(...)]: the server does not handle the signal,
    so it is gone when [join] returns. *)
Definition terminate (w : world) (pid : nat) : world :=
  with_procs w (alter kill pid (w_procs w)).

(** What happens around the controller without its doing: a server
    process exits on its own (it failed to bind its port, could not enter
    its directory, or crashed), directories appear and disappear, the
    network changes. *)
Inductive env_event : Type :=
  | ProcExit (pid : nat)
  | Mkdir (path : string)
  | Rmdir (path : string)
  | NetChange (probe : res string) (h : host).

Definition env_step (e : env_event) (w : world) : world :=
  match e with
  | ProcExit pid => with_procs w (alter kill pid (w_procs w))
  | Mkdir path =>
      {| w_dirs := {[path]} ∪ w_dirs w; w_procs := w_procs w;
         w_probe := w_probe w; w_host := w_host w |}
  | Rmdir path =>
      {| w_dirs := w_dirs w ∖ {[path]}; w_procs := w_procs w;
         w_probe := w_probe w; w_host := w_host w |}
  | NetChange probe h =>
      {| w_dirs := w_dirs w; w_procs := w_procs w;
         w_probe := probe; w_host := h |}
  end.

(** What a front end writes to the terminal: a line of text, or the
    rendering of a QR code by the [qrcode] library. *)
Inductive printed : Type :=
  | Text (s : string)
  | QrAscii (url : string).

Definition valid_port (p : Z) : bool := (1024 <=? p) && (p <=? 65535).

(** ** What every front end shows of its controller *)

Definition share_url (addr : string) (port : Z) : string :=
  "http://" +:+ addr +:+ ":" +:+ Py.str port.
Arguments share_url : simpl never.

(** The same for a port attribute that may hold [None]. *)
Definition share_url_of (addr : string) (port : option Z) : string :=
  "http://" +:+ addr +:+ ":" +:+ Py.format_int port.
Arguments share_url_of : simpl never.

(** The part of a controller every front end has: the configuration, the
    process handle, the URL, and the world. *)
Record snapshot : Type := {
  v_env : world;
  v_dir : option string;
  v_port : option Z;
  v_proc : option nat;
  v_url : string
}.

Definition v_running (v : snapshot) : bool :=
  match v_proc v with
  | Some pid => is_alive (v_env v) pid
  | None => false
  end.

(** The relation between the attributes of a controller and the processes
    it has spawned; it holds all along a lifetime (see [cli_run_consistent]
    and its siblings). *)
Record consistent (v : snapshot) : Prop := {
  handle_spawned :
    ∀ pid, v_proc v = Some pid → (pid < length (w_procs (v_env v)))%nat;
  url_iff_handle : v_url v = EmptyString ↔ v_proc v = None;
  url_form :
    ∀ pid, v_proc v = Some pid →
      ∃ addr p, w_procs (v_env v) !! pid = Some p
                ∧ v_url v = share_url_of addr (p_port p);
  running_matches :
    ∀ pid p, v_proc v = Some pid → w_procs (v_env v) !! pid = Some p →
      p_alive p = true → p_dir p = v_dir v ∧ p_port p = v_port v;
  only_live : ∀ pid, is_alive (v_env v) pid = true → v_proc v = Some pid;
  port_in_range : ∀ p, v_port v = Some p → valid_port p = true
}.

(** What starting, stopping and reconfiguring do to a snapshot.  The three
    front ends are shown below to act on their snapshot in this way
    ([cli_view_start], [cli_view_stop] and their siblings), so that the
    invariant is established once. *)
Definition snap_start (addr : string) (v : snapshot) : snapshot :=
  if v_running v then v
  else {| v_env := fst (spawn (v_env v) (v_dir v) (v_port v));
          v_dir := v_dir v; v_port := v_port v;
          v_proc := Some (length (w_procs (v_env v)));
          v_url := share_url_of addr (v_port v) |}.

Definition snap_stop (v : snapshot) : snapshot :=
  {| v_env := match v_proc v with
              | Some pid =>
                  if is_alive (v_env v) pid then terminate (v_env v) pid
                  else v_env v
              | None => v_env v
              end;
     v_dir := v_dir v; v_port := v_port v;
     v_proc := None; v_url := EmptyString |}.

Definition snap_config (d : option string) (p : option Z) (v : snapshot)
  : snapshot :=
  {| v_env := v_env v; v_dir := d; v_port := p;
     v_proc := v_proc v; v_url := v_url v |}.

Definition snap_env (e : env_event) (v : snapshot) : snapshot :=
  {| v_env := env_step e (v_env v); v_dir := v_dir v; v_port := v_port v;
     v_proc := v_proc v; v_url := v_url v |}.

(** A world in which no server was started yet. *)
Definition boot (dirs : gset string) (probe : res string) (h : host) : world :=
  {| w_dirs := dirs; w_procs := []; w_probe := probe; w_host := h |}.

(** ** pyshare_cli.py *)

Module Cli.

Definition get_local_ip (w : world) : string :=
  match w_probe w with
  | Ret ip => ip
  | Exc _ => "127.0.0.1"
  end.

Definition generate_qr_ascii (url : string) : printed :=
  if Py.truthy url then QrAscii url else Text "(stopped)".

(** The attributes of a [PyShareCLI] object. *)
Record ctl : Type := {
  shared_dir : string;
  port : Z;
  proc : option nat;
  url : string
}.

Record sys : Type := {
  env : world;
  self : ctl;
  stdin : list string;      (* the lines still to be read *)
  out : list printed        (* what was printed, oldest first *)
}.

Definition print (x : printed) (s : sys) : sys :=
  {| env := env s; self := self s; stdin := stdin s; out := out s ++ [x] |}.

(** [input(prompt)]: [None] stands for [EOFError]. *)
Definition input (prompt : string) (s : sys) : option string * sys :=
  match stdin s with
  | [] => (None, print (Text prompt) s)
  | l :: rest =>
      (Some l,
       {| env := env s; self := self s; stdin := rest;
          out := out s ++ [Text prompt] |})
  end.

(** [self.proc and self.proc.is_alive()] *)
Definition running (s : sys) : bool :=
  match proc (self s) with
  | Some pid => is_alive (env s) pid
  | None => false
  end.

Definition start_server (s : sys) : sys :=
  if running s then print (Text "Server already running") s
  else
    let '(w, pid) :=
      spawn (env s) (Some (shared_dir (self s))) (Some (port (self s))) in
    let u := "http://" +:+ get_local_ip w +:+ ":" +:+ Py.str (port (self s)) in
    print (Text ("Started server at " +:+ u +:+ ", serving " +:+ shared_dir (self s)))
      {| env := w;
         self := {| shared_dir := shared_dir (self s); port := port (self s);
                    proc := Some pid; url := u |};
         stdin := stdin s; out := out s |}.

Definition stop_server (s : sys) : sys :=
  let s1 :=
    match proc (self s) with
    | Some pid =>
        if is_alive (env s) pid
        then print (Text "Server stopped")
               {| env := terminate (env s) pid; self := self s;
                  stdin := stdin s; out := out s |}
        else print (Text "Server is not running") s
    | None => print (Text "Server is not running") s
    end in
  {| env := env s1;
     self := {| shared_dir := shared_dir (self s1); port := port (self s1);
                proc := None; url := EmptyString |};
     stdin := stdin s1; out := out s1 |}.

Definition set_shared_dir (d : string) (s : sys) : sys :=
  {| env := env s;
     self := {| shared_dir := d; port := port (self s);
                proc := proc (self s); url := url (self s) |};
     stdin := stdin s; out := out s |}.

Definition set_port (p : Z) (s : sys) : sys :=
  {| env := env s;
     self := {| shared_dir := shared_dir (self s); port := p;
                proc := proc (self s); url := url (self s) |};
     stdin := stdin s; out := out s |}.

(** The body of the [dir] command once [new] is known. *)
Definition cmd_dir (new : string) (s : sys) : sys :=
  if isdir (env s) new then
    let s1 := print (Text ("Serving: " +:+ new)) (set_shared_dir new s) in
    if running s1 then start_server (stop_server s1) else s1
  else print (Text "Not a directory") s.

(** The body of the [port] command once [new] is known. *)
Definition cmd_port (new : string) (s : sys) : sys :=
  match Py.int new with
  | Some p =>
      if valid_port p then
        let s1 := print (Text ("Port set to " +:+ Py.str p)) (set_port p s) in
        if running s1 then start_server (stop_server s1) else s1
      else print (Text "Port must be 1024-65535") s
  | None => print (Text "Invalid port") s
  end.

(** How an iteration of the loop in [repl] ends. *)
Inductive flow : Type :=
  | Continue
  | Break
  | Uncaught (exc : string).

Definition repl_step (s : sys) : flow * sys :=
  match input "> " s with
  | (None, s1) => (Break, stop_server (print (Text EmptyString) s1))
  | (Some line, s1) =>
      match Py.split (Py.strip line) with
      | [] => (Continue, s1)
      | c0 :: args =>
          let c := Py.lower c0 in
          if bool_decide (c ∈ ["q"; "quit"; "exit"]) then (Break, stop_server s1)
          else if bool_decide (c = "start") then (Continue, start_server s1)
          else if bool_decide (c = "stop") then (Continue, stop_server s1)
          else if bool_decide (c = "dir") then
            match args with
            | new :: _ => (Continue, cmd_dir new s1)
            | [] =>
                match input ("Enter directory (current: "
                             +:+ shared_dir (self s1) +:+ "): ") s1 with
                | (Some new, s2) => (Continue, cmd_dir new s2)
                | (None, s2) => (Uncaught "EOFError", s2)
                end
            end
          else if bool_decide (c = "port") then
            match args with
            | new :: _ => (Continue, cmd_port new s1)
            | [] =>
                match input ("Enter port (current: "
                             +:+ Py.str (port (self s1)) +:+ "): ") s1 with
                | (Some new, s2) => (Continue, cmd_port new s2)
                | (None, s2) => (Uncaught "EOFError", s2)
                end
            end
          else if bool_decide (c = "url") then
            (Continue, print (Text (Py.or_else (url (self s1)) "(stopped)")) s1)
          else if bool_decide (c = "qr") then
            (Continue, print (generate_qr_ascii (url (self s1))) s1)
          else if bool_decide (c ∈ ["help"; "h"; "?"]) then
            (Continue,
             print (Text "Commands: start stop dir <path> port <num> url qr help quit") s1)
          else (Continue, print (Text "Unknown command") s1)
      end
  end.

Definition view (s : sys) : snapshot :=
  {| v_env := env s; v_dir := Some (shared_dir (self s));
     v_port := Some (port (self s));
     v_proc := proc (self s); v_url := url (self s) |}.

(** [PyShareCLI()]: the defaults, then [start_server]. *)
Definition init (w : world) (cwd : string) (lines : list string) : sys :=
  start_server
    {| env := w;
       self := {| shared_dir := cwd; port := 8000; proc := None; url := EmptyString |};
       stdin := lines; out := [] |}.

(** A lifetime: iterations of the loop, with the world moving in between.
    ([run] goes on after the iteration that leaves the loop; what is
    proved of all its states holds of those a controller reaches.) *)
Inductive event : Type :=
  | Iter
  | Env (e : env_event).

Definition step (s : sys) (e : event) : sys :=
  match e with
  | Iter => snd (repl_step s)
  | Env e =>
      {| env := env_step e (env s); self := self s;
         stdin := stdin s; out := out s |}
  end.

Definition run (evs : list event) (s : sys) : sys := fold_left step evs s.

End Cli.

(** ** pyshare_rich.py *)

(** What the [rich] library does with a text handed to [console.print]:
    the text is read as console markup, and [rich.markup.render] raises
    [MarkupError] when a closing tag in it matches no open tag.  Which
    texts it refuses is the library's to say. *)
Class Console : Type := {
  markup_error : string → bool
}.

Module Rich.

Definition get_local_ip (w : world) : string :=
  match w_probe w with
  | Ret ip => ip
  | Exc _ => "127.0.0.1"
  end.

Definition generate_qr_ascii (url : string) : printed :=
  if Py.truthy url then QrAscii url
  else Text "Server is stopped. Start it to see the QR code.".

(** The attributes of a [PyShareRich] object. *)
Record ctl : Type := {
  shared_dir : string;
  port : Z;
  server_proc : option nat;
  url : string
}.

Record sys : Type := {
  env : world;
  self : ctl;
  out : list printed
}.

Definition print (x : printed) (s : sys) : sys :=
  {| env := env s; self := self s; out := out s ++ [x] |}.

Definition running (s : sys) : bool :=
  match server_proc (self s) with
  | Some pid => is_alive (env s) pid
  | None => false
  end.

Definition start_server (s : sys) : sys :=
  if running s then s
  else
    let '(w, pid) :=
      spawn (env s) (Some (shared_dir (self s))) (Some (port (self s))) in
    {| env := w;
       self := {| shared_dir := shared_dir (self s); port := port (self s);
                  server_proc := Some pid;
                  url := "http://" +:+ get_local_ip w +:+ ":"
                         +:+ Py.str (port (self s)) |};
       out := out s |}.

Definition stop_server (s : sys) : sys :=
  {| env := if running s
            then match server_proc (self s) with
                 | Some pid => terminate (env s) pid
                 | None => env s
                 end
            else env s;
     self := {| shared_dir := shared_dir (self s); port := port (self s);
                server_proc := None; url := EmptyString |};
     out := out s |}.

Definition toggle_server (s : sys) : sys :=
  if running s then stop_server s else start_server s.

Definition set_shared_dir (d : string) (s : sys) : sys :=
  {| env := env s;
     self := {| shared_dir := d; port := port (self s);
                server_proc := server_proc (self s); url := url (self s) |};
     out := out s |}.

Definition set_port (p : Z) (s : sys) : sys :=
  {| env := env s;
     self := {| shared_dir := shared_dir (self s); port := p;
                server_proc := server_proc (self s); url := url (self s) |};
     out := out s |}.

(** How an iteration of the loop in [run] ends. *)
Inductive flow : Type :=
  | Continue
  | Break
  | Uncaught (exc : string).

Section WithConsole.
Context {console : Console}.

(** [console.print(markup)] *)
Definition console_print (markup : string) (s : sys) : res unit * sys :=
  if markup_error markup then (Exc "MarkupError", s)
  else (Ret tt, print (Text markup) s).

(** [typed] is the line [console.input] returned, which it does once
    [rich] has written its prompt. *)
Definition change_dir (typed : string) (s : sys) : res unit * sys :=
  let s0 := print (Text ("Enter directory (current: "
                         +:+ shared_dir (self s) +:+ "): ")) s in
  let new := Py.or_else typed (shared_dir (self s)) in
  if isdir (env s0) new then
    let s1 := set_shared_dir new s0 in
    (Ret tt, if running s1 then start_server (stop_server s1) else s1)
  else console_print ("[red]'" +:+ new +:+ "' is not a directory[/red]") s0.

Definition change_port (typed : string) (s : sys) : res unit * sys :=
  let s0 := print (Text ("Enter port (current: "
                         +:+ Py.str (port (self s)) +:+ "): ")) s in
  let new := Py.or_else typed (Py.str (port (self s))) in
  match Py.int new with
  | Some p =>
      if valid_port p then
        let s1 := set_port p s0 in
        (Ret tt, if running s1 then start_server (stop_server s1) else s1)
      else console_print "[red]Port must be 1024-65535[/red]" s0
  | None => console_print "[red]Invalid port[/red]" s0
  end.

(** The two rows of [render] that show the state. *)
Definition render_status (s : sys) : string :=
  if running s then "Running" else "Stopped".

Definition render_url (s : sys) : string :=
  Py.or_else (url (self s)) "(stopped)".

(** A call in the body of the loop: [run] catches [KeyboardInterrupt]
    and [EOFError] only, so a [MarkupError] leaves it. *)
Definition go_on (r : res unit * sys) : flow * sys :=
  match r.1 with
  | Ret _ => (Continue, r.2)
  | Exc e => (Uncaught e, r.2)
  end.

(** One iteration of the loop in [run]: [pressed] is what
    [_get_single_key] returns, [typed] the line read by a dialog. *)
Definition on_key (pressed typed : string) (s : sys) : flow * sys :=
  let key := Py.lower (Py.strip pressed) in
  if negb (Py.truthy key) then (Continue, s)
  else if bool_decide (key = "s") then (Continue, toggle_server s)
  else if bool_decide (key = "d") then go_on (change_dir typed s)
  else if bool_decide (key = "p") then go_on (change_port typed s)
  else if bool_decide (key = "q") then (Break, stop_server s)
  else go_on (console_print "Unknown command" s).

End WithConsole.

Definition view (s : sys) : snapshot :=
  {| v_env := env s; v_dir := Some (shared_dir (self s));
     v_port := Some (port (self s));
     v_proc := server_proc (self s); v_url := url (self s) |}.

(** [PyShareRich()]: the defaults, then [start_server]. *)
Definition init (w : world) (cwd : string) : sys :=
  start_server
    {| env := w;
       self := {| shared_dir := cwd; port := 8000;
                  server_proc := None; url := EmptyString |};
       out := [] |}.

(** A lifetime, as for the CLI: [run] goes on after an iteration that
    leaves the loop. *)
Inductive event : Type :=
  | Key (pressed typed : string)
  | Env (e : env_event).

Definition step {console : Console} (s : sys) (e : event) : sys :=
  match e with
  | Key pressed typed => snd (on_key pressed typed s)
  | Env e => {| env := env_step e (env s); self := self s; out := out s |}
  end.

Definition run {console : Console} (evs : list event) (s : sys) : sys :=
  fold_left step evs s.

End Rich.

(** ** pyshare.py *)

Module Tui.

Definition sentinel : string := "?.?.?.?".

(** The inner loop of [get_local_ip]: the first ['addr'] that is there,
    is not empty and does not start with ["127."]. *)
Fixpoint first_addr (links : list (option string)) : option string :=
  match links with
  | [] => None
  | link :: rest =>
      match link with
      | Some ip =>
          if Py.truthy ip && negb (Py.startswith "127." ip)
          then Some ip else first_addr rest
      | None => first_addr rest
      end
  end.

(** The outer loop: [Exc] when [ifaddresses] raises before an address
    was found. *)
Fixpoint scan (h : host) (ifaces : list string) : res (option string) :=
  match ifaces with
  | [] => Ret None
  | iface :: rest =>
      match ifaddresses h iface with
      | Exc e => Exc e
      | Ret None => scan h rest
      | Ret (Some links) =>
          match first_addr links with
          | Some ip => Ret (Some ip)
          | None => scan h rest
          end
      end
  end.

Definition get_local_ip (w : world) : string :=
  match res_bind (interfaces (w_host w)) (scan (w_host w)) with
  | Ret (Some ip) => ip
  | Ret None => sentinel
  | Exc _ => sentinel
  end.

Definition generate_qr_code (url : string) : printed :=
  if Py.truthy url then QrAscii url
  else Text "Server is stopped. Start it to see the QR code.".

(** The reactive attributes of the [PyShareApp], and the contents of
    the four widgets it updates.  [shared_dir] and [port] hold a string
    and an integer until a dialog is cancelled: its callback then stores
    [None]. *)
Record app : Type := {
  server_process : option nat;
  shared_dir : option string;
  port : option Z;
  url : string;
  status_line : string;
  url_line : string;
  dir_line : string;
  qr_box : printed
}.

Record sys : Type := {
  env : world;
  self : app
}.

Definition running (s : sys) : bool :=
  match server_process (self s) with
  | Some pid => is_alive (env s) pid
  | None => false
  end.

Definition watch_server_process (new_process : option nat) (s : sys) : sys :=
  let a := self s in
  let alive := match new_process with
               | Some pid => is_alive (env s) pid
               | None => false
               end in
  if alive then
    let u := "http://" +:+ get_local_ip (env s) +:+ ":"
             +:+ Py.format_int (port a) in
    {| env := env s;
       self := {| server_process := server_process a;
                  shared_dir := shared_dir a; port := port a;
                  url := u;
                  status_line := "Status: [b green]Running[/b green]";
                  url_line := "URL: [@click=app.open_url('" +:+ u +:+ "')]"
                              +:+ u +:+ "[/]";
                  dir_line := dir_line a;
                  qr_box := generate_qr_code u |} |}
  else
    {| env := env s;
       self := {| server_process := server_process a;
                  shared_dir := shared_dir a; port := port a;
                  url := EmptyString;
                  status_line := "Status: [b red]Stopped[/b red]";
                  url_line := "URL: (stopped)";
                  dir_line := dir_line a;
                  qr_box := generate_qr_code EmptyString |} |}.

(** Assigning a reactive attribute: the watcher runs when the value
    changed. *)
Definition set_server_process (v : option nat) (s : sys) : sys :=
  let a := self s in
  if decide (server_process a = v) then s
  else watch_server_process v
         {| env := env s;
            self := {| server_process := v;
                       shared_dir := shared_dir a; port := port a;
                       url := url a; status_line := status_line a;
                       url_line := url_line a; dir_line := dir_line a;
                       qr_box := qr_box a |} |}.

Definition action_start_server (s : sys) : sys :=
  if running s then s
  else
    let '(w, pid) := spawn (env s) (shared_dir (self s)) (port (self s)) in
    set_server_process (Some pid) {| env := w; self := self s |}.

Definition action_stop_server (s : sys) : sys :=
  match server_process (self s) with
  | Some pid =>
      if is_alive (env s) pid
      then set_server_process None
             {| env := terminate (env s) pid; self := self s |}
      else s
  | None => s
  end.

Definition watch_shared_dir (new_dir : option string) (s : sys) : sys :=
  let a := self s in
  let s1 := {| env := env s;
               self := {| server_process := server_process a;
                          shared_dir := shared_dir a; port := port a;
                          url := url a; status_line := status_line a;
                          url_line := url_line a;
                          dir_line := "Serving: " +:+ Py.format_str new_dir;
                          qr_box := qr_box a |} |} in
  if running s1 then action_start_server (action_stop_server s1) else s1.

Definition watch_port (new_port : option Z) (s : sys) : sys :=
  if running s then action_start_server (action_stop_server s) else s.

Definition set_shared_dir (v : option string) (s : sys) : sys :=
  let a := self s in
  if decide (shared_dir a = v) then s
  else watch_shared_dir v
         {| env := env s;
            self := {| server_process := server_process a;
                       shared_dir := v; port := port a;
                       url := url a; status_line := status_line a;
                       url_line := url_line a; dir_line := dir_line a;
                       qr_box := qr_box a |} |}.

Definition set_port (v : option Z) (s : sys) : sys :=
  let a := self s in
  if decide (port a = v) then s
  else watch_port v
         {| env := env s;
            self := {| server_process := server_process a;
                       shared_dir := shared_dir a; port := v;
                       url := url a; status_line := status_line a;
                       url_line := url_line a; dir_line := dir_line a;
                       qr_box := qr_box a |} |}.

(** The OK button of [DirectoryDialog] with [path] in its input, then
    the callback of [action_change_dir].  An invalid path keeps the
    dialog open and changes nothing in the application. *)
Definition directory_ok (path : string) (s : sys) : sys :=
  if isdir (env s) path then set_shared_dir (Some path) s else s.

(** The OK button of [PortDialog], then the callback of
    [action_change_port]. *)
Definition port_ok (port_str : string) (s : sys) : sys :=
  match Py.int port_str with
  | Some p => if valid_port p then set_port (Some p) s else s
  | None => s
  end.

(** The Cancel button of either dialog: [self.dismiss()] hands [None] to
    the callback, which assigns it to the attribute like any other
    value. *)
Definition directory_cancel (s : sys) : sys := set_shared_dir None s.

Definition port_cancel (s : sys) : sys := set_port None s.

Definition view (s : sys) : snapshot :=
  {| v_env := env s; v_dir := shared_dir (self s); v_port := port (self s);
     v_proc := server_process (self s); v_url := url (self s) |}.

(** The attributes as the class declares them and the widgets as
    [compose] yields them. *)
Definition compose (cwd : string) : app :=
  {| server_process := None; shared_dir := Some cwd; port := Some 8000;
     url := EmptyString;
     status_line := "Status: [b]Stopped[/b]";
     url_line := "URL: (stopped)";
     dir_line := "Serving: ...";
     qr_box := Text EmptyString |}.

Definition on_mount (s : sys) : sys :=
  let a := self s in
  {| env := env s;
     self := {| server_process := server_process a;
                shared_dir := shared_dir a; port := port a;
                url := url a; status_line := status_line a;
                url_line := url_line a;
                dir_line := "Serving: " +:+ Py.format_str (shared_dir a);
                qr_box := generate_qr_code (url a) |} |}.

(** The application once mounted: nothing is started.  While it mounts
    the application Textual calls [on_mount] and, once for every
    reactive attribute, its watcher with the initial value; the watchers
    are taken after [on_mount] here (see [tui_mount_order] for the other
    order). *)
Definition init (w : world) (cwd : string) : sys :=
  let s := on_mount {| env := w; self := compose cwd |} in
  let s := watch_server_process (server_process (self s)) s in
  let s := watch_shared_dir (shared_dir (self s)) s in
  watch_port (port (self s)) s.

(** The key bindings and the buttons of the two dialogs. *)
Inductive event : Type :=
  | StartKey
  | StopKey
  | DirectoryOk (path : string)
  | DirectoryCancel
  | PortOk (port_str : string)
  | PortCancel
  | QuitKey
  | Env (e : env_event).

Definition step (s : sys) (e : event) : sys :=
  match e with
  | StartKey => action_start_server s
  | StopKey => action_stop_server s
  | DirectoryOk path => directory_ok path s
  | DirectoryCancel => directory_cancel s
  | PortOk port_str => port_ok port_str s
  | PortCancel => port_cancel s
  | QuitKey => action_stop_server s
  | Env e => {| env := env_step e (env s); self := self s |}
  end.

Definition run (evs : list event) (s : sys) : sys := fold_left step evs s.

End Tui.

(** ** pyshare_recv.py *)

Module Recv.

(** An [<a>] element as BeautifulSoup hands it out: its text, and its
    [href] attribute when it has one. *)
Record anchor : Type := {
  a_text : string;
  a_href : option string
}.

(** An HTTP response: the body arrives in [chunks]; [cut] says that the
    connection breaks after them. *)
Record response : Type := {
  status : Z;
  chunks : list string;
  cut : bool
}.

Record sys : Type := {
  http : string → option response;  (* [None]: the request itself fails *)
  files : gmap string string;       (* the regular files, by path *)
  unwritable : gset string;         (* where [open(path, 'wb')] fails *)
  stdin : list string;
  out : list string;
  requests : list string            (* the URLs requested so far *)
}.

Definition print (line : string) (s : sys) : sys :=
  {| http := http s; files := files s; unwritable := unwritable s;
     stdin := stdin s; out := out s ++ [line]; requests := requests s |}.

Definition with_files (s : sys) (m : gmap string string) : sys :=
  {| http := http s; files := m; unwritable := unwritable s;
     stdin := stdin s; out := out s; requests := requests s |}.

Definition with_stdin (s : sys) (lines : list string) : sys :=
  {| http := http s; files := files s; unwritable := unwritable s;
     stdin := lines; out := out s; requests := requests s |}.

(** [input(prompt)]: [None] stands for [EOFError]. *)
Definition input (prompt : string) (s : sys) : option string * sys :=
  match stdin s with
  | [] => (None, print prompt s)
  | l :: rest =>
      (Some l,
       {| http := http s; files := files s; unwritable := unwritable s;
          stdin := rest; out := out s ++ [prompt]; requests := requests s |})
  end.

(** [requests.get(url, stream=...)].  Without [stream] the body is read
    before the call returns. *)
Definition get (stream : bool) (url : string) (s : sys) : res response * sys :=
  let s' := {| http := http s; files := files s; unwritable := unwritable s;
               stdin := stdin s; out := out s;
               requests := requests s ++ [url] |} in
  match http s url with
  | None => (Exc "ConnectionError", s')
  | Some r =>
      if negb stream && cut r then (Exc "ChunkedEncodingError", s')
      else (Ret r, s')
  end.

Definition raise_for_status (r : response) : res unit :=
  if (400 <=? status r) && (status r <? 600) then Exc "HTTPError" else Ret tt.

Definition text (r : response) : string :=
  fold_right String.app EmptyString (chunks r).

Fixpoint has_slash (p : string) : bool :=
  match p with
  | EmptyString => false
  | String a r => (Py.ord a =? 47) || has_slash r
  end.

(** [os.path.basename]: what follows the last slash. *)
Fixpoint basename (p : string) : string :=
  match p with
  | EmptyString => EmptyString
  | String _ r => if has_slash p then basename r else p
  end.

(** [os.path.join] with two arguments (POSIX). *)
Definition join (a b : string) : string :=
  if Py.startswith "/" b then b
  else if negb (Py.truthy a) || Py.endswith "/" a then a +:+ b
  else a +:+ "/" +:+ b.

(** The body of [with open(path, 'wb') as f], once the file is open and
    empty: every non-empty chunk is appended. *)
Fixpoint write_chunks (cs : list string) (content : string) : string :=
  match cs with
  | [] => content
  | c :: rest =>
      write_chunks rest (if Py.truthy c then content +:+ c else content)
  end.

Definition entry : Type := string * string.   (* (name, href) *)

Fixpoint keep_files (anchors : list anchor) : list entry :=
  match anchors with
  | [] => []
  | a :: rest =>
      match a_href a with
      | Some href =>
          if Py.truthy href && negb (Py.endswith "/" href)
          then (Py.strip (a_text a), href) :: keep_files rest
          else keep_files rest
      | None => keep_files rest
      end
  end.

(** The loop over [idxs] in [main]. *)
Fixpoint select (listed : list entry) (idxs : list Z) : list entry :=
  match idxs with
  | [] => []
  | i :: rest =>
      if (0 <=? i) && (i <? Z.of_nat (length listed)) then
        match listed !! Z.to_nat i with
        | Some f => f :: select listed rest
        | None => select listed rest
        end
      else select listed rest
  end.

(** The loop over [choice.split()] in [main]. *)
Fixpoint parse_idxs (parts : list string) : list Z :=
  match parts with
  | [] => []
  | part :: rest =>
      match Py.int part with
      | Some n => (n - 1) :: parse_idxs rest
      | None => parse_idxs rest
      end
  end.

Definition to_download (listed : list entry) (choice : string) : list entry :=
  if bool_decide (Py.lower choice = "all") then listed
  else select listed (parse_idxs (Py.split choice)).

(** The lines [f"{i}: {name}"] for [enumerate(files, 1)]. *)
Fixpoint print_listing (i : Z) (listed : list entry) (s : sys) : sys :=
  match listed with
  | [] => s
  | (name, _) :: rest =>
      print_listing (i + 1) rest (print (Py.str i +:+ ": " +:+ name) s)
  end.

Section Libraries.

(** [BeautifulSoup(text, "html.parser").find_all("a")], in document
    order. *)
Variable find_all_a : string → list anchor.
(** [urllib.parse.urljoin(base, href)] *)
Variable urljoin : string → string → string.
(** [urllib.parse.urlparse(url).path] *)
Variable url_path : string → string.

Definition list_files (url : string) (s : sys) : res (list entry) * sys :=
  match get false url s with
  | (Exc e, s1) => (Exc e, s1)
  | (Ret r, s1) =>
      match raise_for_status r with
      | Exc e => (Exc e, s1)
      | Ret _ => (Ret (keep_files (find_all_a (text r))), s1)
      end
  end.

Definition download_file (base href dest : string) (s : sys)
  : res string * sys :=
  let url := urljoin base href in
  let local_name := basename (url_path url) in
  match get true url s with
  | (Exc e, s1) => (Exc e, s1)
  | (Ret r, s1) =>
      match raise_for_status r with
      | Exc e => (Exc e, s1)
      | Ret _ =>
          let path := join dest local_name in
          if bool_decide (path ∈ unwritable s1) then (Exc "OSError", s1)
          else
            let s2 := with_files s1
                        (<[path := write_chunks (chunks r) EmptyString]>
                           (<[path := EmptyString]> (files s1))) in
            if cut r then (Exc "ChunkedEncodingError", s2)
            else (Ret path, s2)
      end
  end.

(** The last loop of [main]. *)
Fixpoint download_all (url : string) (sel : list entry) (s : sys) : sys :=
  match sel with
  | [] => s
  | (name, href) :: rest =>
      let s1 := print ("Downloading " +:+ name +:+ "...") s in
      match download_file url href "." s1 with
      | (Ret path, s2) =>
          download_all url rest (print ("Saved to " +:+ path) s2)
      | (Exc e, s2) =>
          download_all url rest
            (print ("Failed to download " +:+ name +:+ ": " +:+ e) s2)
      end
  end.

Definition main (s : sys) : res unit * sys :=
  let s0 := print "PyShare Receiver" s in
  match input "Sender base URL (e.g. http://1.2.3.4:8000/): " s0 with
  | (None, s1) => (Exc "EOFError", s1)
  | (Some line, s1) =>
      let url := Py.strip line in
      if negb (Py.truthy url) then (Ret tt, s1)
      else
        match list_files url s1 with
        | (Exc e, s2) => (Ret tt, print ("Failed to list files: " +:+ e) s2)
        | (Ret [], s2) => (Ret tt, print "No files found at the URL" s2)
        | (Ret listed, s2) =>
            let s3 := print_listing 1 listed (print "Files:" s2) in
            let s4 := print "Enter numbers separated by space to download, or 'all'" s3 in
            match input "> " s4 with
            | (None, s5) => (Exc "EOFError", s5)
            | (Some line2, s5) =>
                (Ret tt,
                 download_all url (to_download listed (Py.strip line2)) s5)
            end
        end
  end.

End Libraries.

End Recv.

(** ** The claims as the specification words them, and concrete runs *)

(** What the specification asks of [start()]: with an invalid directory
    or port it starts nothing and stays stopped. *)
Definition spec_start_validates (s : Cli.sys) : Prop :=
  Cli.running s = false →
  isdir (Cli.env s) (Cli.shared_dir (Cli.self s))
  && valid_port (Cli.port (Cli.self s)) = false →
  Cli.running (Cli.start_server s) = false
  ∧ w_procs (Cli.env (Cli.start_server s)) = w_procs (Cli.env s).

(** What the specification asks of the share URL. *)
Definition spec_url_iff_running (s : Cli.sys) : Prop :=
  Cli.url (Cli.self s) ≠ EmptyString ↔ Cli.running s = true.

(** What holds instead: the URL follows the stored process handle, and
    has the current port whenever the server runs. *)
Definition url_tracks_handle (v : snapshot) : Prop :=
  (v_running v = true → ∃ addr, v_url v = share_url_of addr (v_port v))
  ∧ (v_url v = EmptyString ↔ v_proc v = None).

(** Process [pid] was launched with the arguments [(d, p)], is alive, and
    no other process is. *)
Definition serving_args (w : world) (pid : nat) (d : option string)
    (p : option Z) : Prop :=
  w_procs w !! pid = Some {| p_dir := d; p_port := p; p_alive := true |}
  ∧ ∀ q, is_alive w q = true → q = pid.

(** The same for a directory and a port. *)
Definition serving (w : world) (pid : nat) (d : string) (p : Z) : Prop :=
  serving_args w pid (Some d) (Some p).

Definition lan : host :=
  {| interfaces := Ret ["lo"; "eth0"];
     ifaddresses := λ iface,
       if String.eqb iface "lo" then Ret (Some [Some "127.0.0.1"])
       else if String.eqb iface "eth0" then Ret (Some [Some "192.168.1.20"])
       else Exc "ValueError" |}.

Definition no_net : host :=
  {| interfaces := Exc "OSError"; ifaddresses := λ _, Exc "OSError" |}.

Definition home : world :=
  boot {["/home/u"; "/srv/share"]} (Ret "192.168.1.20") lan.

Definition offline : world := boot {["/home/u"]} (Exc "OSError") no_net.

(** The CLI is started in [/srv/share] and stopped; the directory is
    removed. *)
Definition cli_dir_gone : Cli.sys :=
  Cli.run [Cli.Iter; Cli.Env (Rmdir "/srv/share")]
    (Cli.init home "/srv/share" ["stop"; "start"]).

(** The CLI is started and its server process exits on its own. *)
Definition cli_server_died : Cli.sys :=
  Cli.run [Cli.Env (ProcExit 0)] (Cli.init home "/home/u" []).

Definition cli_up : Cli.sys := Cli.init home "/home/u" [].
Definition tui_up : Tui.sys := Tui.run [Tui.StartKey] (Tui.init home "/home/u").

(** The Textual application is started and its server process exits on
    its own. *)
Definition tui_server_died : Tui.sys :=
  Tui.run [Tui.StartKey; Tui.Env (ProcExit 0)] (Tui.init home "/home/u").

(** The same in the Rich front end. *)
Definition rich_server_died {console : Console} : Rich.sys :=
  Rich.run [Rich.Env (ProcExit 0)] (Rich.init home "/home/u").

(** The text of an IPv4 address. *)
Definition dotted_quad (a b c d : Z) : string :=
  Py.str a +:+ "." +:+ Py.str b +:+ "." +:+ Py.str c +:+ "." +:+ Py.str d.

Definition octet (a : Z) : Prop := 0 ≤ a < 256.

Definition concrete_address (s : string) : Prop :=
  ∃ a b c d, octet a ∧ octet b ∧ octet c ∧ octet d ∧ s = dotted_quad a b c d.

(** What the specification asks of the resolver when it cannot find out:
    a value marked as unknown, never a concrete address. *)
Definition spec_unknown_on_failure (w : world) : Prop :=
  (∃ e, w_probe w = Exc e) → ¬ concrete_address (Cli.get_local_ip w).

(** The addresses [netifaces] yields in the order of enumeration, up to
    the first call that raises. *)
Fixpoint enumerate (h : host) (ifaces : list string) : list string :=
  match ifaces with
  | [] => []
  | iface :: rest =>
      match ifaddresses h iface with
      | Exc _ => []
      | Ret None => enumerate h rest
      | Ret (Some links) => omap id links ++ enumerate h rest
      end
  end.

Definition enumerated (h : host) : list string :=
  match interfaces h with
  | Ret ifaces => enumerate h ifaces
  | Exc _ => []
  end.

Definition usable (ip : string) : bool :=
  Py.truthy ip && negb (Py.startswith "127." ip).

(** The resolver as the specification words it: the first enumerated
    address outside the loopback range, else the sentinel. *)
Definition spec_resolve (h : host) : string :=
  match filter (λ ip, usable ip = true) (enumerated h) with
  | ip :: _ => ip
  | [] => Tui.sentinel
  end.

(** [listFiles] as the specification words it: the anchors whose href
    does not end in a slash. *)
Definition spec_keep_files (anchors : list Recv.anchor) : list Recv.entry :=
  omap (λ a, match Recv.a_href a with
             | Some href =>
                 if Py.endswith "/" href then None
                 else Some (Py.strip (Recv.a_text a), href)
             | None => None
             end) anchors.

(** What the code keeps of one anchor. *)
Definition kept (a : Recv.anchor) : option Recv.entry :=
  match Recv.a_href a with
  | Some href =>
      if Py.truthy href && negb (Py.endswith "/" href)
      then Some (Py.strip (Recv.a_text a), href) else None
  | None => None
  end.

(** The entry a 1-based index stands for. *)
Definition by_index (listed : list Recv.entry) (i : Z) : option Recv.entry :=
  if (1 <=? i) && (i <=? Z.of_nat (length listed))
  then listed !! Z.to_nat (i - 1) else None.

(** [urljoin] and the path of [urlparse] where the base is
    [http://host:port/] and the href a relative file name: the only case
    the concrete runs below go through. *)
Definition simple_urljoin (base href : string) : string := base +:+ href.

Fixpoint from_slash (s : string) : string :=
  match s with
  | EmptyString => EmptyString
  | String a r => if Py.ord a =? 47 then s else from_slash r
  end.

Definition simple_url_path (url : string) : string :=
  from_slash (String.substring 7 (String.length url - 7) url).

Definition anchor_of (name : string) : Recv.anchor :=
  {| Recv.a_text := name; Recv.a_href := Some name |}.

Definition listing_page : list Recv.anchor :=
  [anchor_of "a.txt"; anchor_of "sub/"; anchor_of "b.png"; anchor_of "c.md"].

Definition page_with_empty_href : list Recv.anchor :=
  [{| Recv.a_text := "top"; Recv.a_href := Some EmptyString |};
   anchor_of "a.txt"].

Definition share_base : string := "http://192.168.1.20:8000/".

(** A share whose first file answers 404, whose second file arrives in
    two chunks and whose third file cannot be reached. *)
Definition share_http (url : string) : option Recv.response :=
  if String.eqb url share_base
  then Some {| Recv.status := 200; Recv.chunks := ["<html>"]; Recv.cut := false |}
  else if String.eqb url "http://192.168.1.20:8000/a.txt"
  then Some {| Recv.status := 404; Recv.chunks := ["Not found"]; Recv.cut := false |}
  else if String.eqb url "http://192.168.1.20:8000/b.png"
  then Some {| Recv.status := 200; Recv.chunks := ["PNG"; EmptyString; "data"]; Recv.cut := false |}
  else None.

Definition receiver (choice : string) : Recv.sys :=
  {| Recv.http := share_http;
     Recv.files := {["./b.png" := "old"]};
     Recv.unwritable := ∅;
     Recv.stdin := [share_base; choice];
     Recv.out := [];
     Recv.requests := [] |}.

Definition run_receiver (page : list Recv.anchor) (choice : string)
  : res unit * Recv.sys :=
  Recv.main (λ _, page) simple_urljoin simple_url_path (receiver choice).

(** The lines [main] prints for the listing, numbered from [i]. *)
Fixpoint listing_lines (i : Z) (listed : list Recv.entry) : list string :=
  match listed with
  | [] => []
  | (name, _) :: rest => (Py.str i +:+ ": " +:+ name) :: listing_lines (i + 1) rest
  end.

(** The receiver once the listing [listed] of [url] is printed and the
    selection is read. *)
Definition ready (s : Recv.sys) (url : string) (listed : list Recv.entry)
    (rest : list string) : Recv.sys :=
  {| Recv.http := Recv.http s; Recv.files := Recv.files s;
     Recv.unwritable := Recv.unwritable s; Recv.stdin := rest;
     Recv.out :=
       Recv.out s
       ++ ["PyShare Receiver"; "Sender base URL (e.g. http://1.2.3.4:8000/): ";
           "Files:"]
       ++ listing_lines 1 listed
       ++ ["Enter numbers separated by space to download, or 'all'"; "> "];
     Recv.requests := Recv.requests s ++ [url] |}.

(** The second file of the share is fetched where a file is already. *)
Definition fetch_b_png : res string * Recv.sys :=
  Recv.download_file simple_urljoin simple_url_path share_base "b.png" "."
    (receiver "2").

(** ** The loop of the CLI, and what the further properties speak of *)

Module CliLoop.

(** The line [repl] prints first (its dash is kept as the bytes of its
    UTF-8 encoding). *)
Definition banner : string :=
  "PyShare CLI — type 'help' for commands. Server started by default.".

(** The [while True] of [repl]: [fuel] bounds the number of iterations,
    [None] says that it was used up. *)
Fixpoint loop (fuel : nat) (s : Cli.sys) : option (Cli.flow * Cli.sys) :=
  match fuel with
  | O => None
  | S k =>
      match Cli.repl_step s with
      | (Cli.Continue, s') => loop k s'
      | ended => Some ended
      end
  end.

Definition repl (fuel : nat) (s : Cli.sys) : option (Cli.flow * Cli.sys) :=
  loop fuel (Cli.print (Text banner) s).

(** [PyShareCLI().repl()] *)
Definition program (fuel : nat) (w : world) (cwd : string) (lines : list string)
  : option (Cli.flow * Cli.sys) :=
  repl fuel (Cli.init w cwd lines).

End CliLoop.

(** No server process is alive. *)
Definition no_live (w : world) : Prop := ∀ pid, is_alive w pid = false.

(** Every live process is the one the controller holds, and it was
    launched with the stored directory and port. *)
Definition one_server (v : snapshot) : Prop :=
  ∀ pid, is_alive (v_env v) pid = true →
    v_proc v = Some pid
    ∧ w_procs (v_env v) !! pid
      = Some {| p_dir := v_dir v; p_port := v_port v; p_alive := true |}.

(** The widgets of the Textual application show its attributes. *)
Definition widgets_show (a : Tui.app) : Prop :=
  Tui.dir_line a = "Serving: " +:+ Py.format_str (Tui.shared_dir a)
  ∧ Tui.qr_box a = Tui.generate_qr_code (Tui.url a)
  ∧ (Tui.url a = EmptyString →
       Tui.url_line a = "URL: (stopped)"
       ∧ Tui.status_line a = "Status: [b red]Stopped[/b red]")
  ∧ (Tui.url a ≠ EmptyString →
       Tui.url_line a
       = "URL: [@click=app.open_url('" +:+ Tui.url a +:+ "')]" +:+ Tui.url a +:+ "[/]"
       ∧ Tui.status_line a = "Status: [b green]Running[/b green]").

(** The commands of the CLI that change the controller or end the loop. *)
Definition cli_acting : list string :=
  ["q"; "quit"; "exit"; "start"; "stop"; "dir"; "port"].

(** No character of [s] is whitespace. *)
Fixpoint no_space (s : string) : bool :=
  match s with
  | EmptyString => true
  | String a r => negb (Py.isspace a) && no_space r
  end.

(** Where [main] saves the entry [e] of the listing of [url]. *)
Definition target (urljoin : string → string → string)
    (url_path : string → string) (url : string) (e : Recv.entry) : string :=
  Recv.join "." (Recv.basename (url_path (urljoin url e.2))).

(** The CLI is given three commands and then the end of its input. *)
Definition cli_session : list string := ["port 9000"; "dir /srv/share"; "url"].

(** The CLI is stopped; a [dir] command is its next line. *)
Definition cli_stopped : Cli.sys :=
  Cli.run [Cli.Iter] (Cli.init home "/home/u" ["stop"; "dir /srv/share"]).

(** What [rich] does with the texts the runs below hand it: it refuses
    the error line for the answer [[/x]], whose closing tag matches no
    open tag, and renders the others. *)
Definition rich_console : Console :=
  {| markup_error := String.eqb "[red]'[/x]' is not a directory[/red]" |}.

(** The Rich front end is started and stopped. *)
Definition rich_down : Rich.sys :=
  Rich.run (console := rich_console) [Rich.Key "s" EmptyString]
    (Rich.init home "/home/u").


(** A share that cannot be reached. *)
Definition receiver_offline (choice : string) : Recv.sys :=
  {| Recv.http := λ _, None;
     Recv.files := {["./b.png" := "old"]};
     Recv.unwritable := ∅;
     Recv.stdin := [share_base; choice];
     Recv.out := [];
     Recv.requests := [] |}.

Definition run_offline (choice : string) : res unit * Recv.sys :=
  Recv.main (λ _, listing_page) simple_urljoin simple_url_path
    (receiver_offline choice).

(** A file of the share whose transfer breaks after the first chunk. *)
Definition broken_http (url : string) : option Recv.response :=
  if String.eqb url "http://192.168.1.20:8000/b.png"
  then Some {| Recv.status := 200; Recv.chunks := ["PNG"]; Recv.cut := true |}
  else share_http url.

Definition receiver_broken : Recv.sys :=
  {| Recv.http := broken_http;
     Recv.files := {["./b.png" := "old"]};
     Recv.unwritable := ∅;
     Recv.stdin := [];
     Recv.out := [];
     Recv.requests := [] |}.

(** * Proofs *)

(** *** The process table *)

Lemma is_alive_Some w pid :
  is_alive w pid = true ↔ ∃ p, w_procs w !! pid = Some p ∧ p_alive p = true.
Proof.
  unfold is_alive. destruct (w_procs w !! pid) as [p|]; split.
  - intros H. by exists p.
  - by intros (? & [= <-] & ?).
  - discriminate.
  - by intros (? & ? & ?).
Qed.

Lemma is_alive_spawn w d p pid :
  is_alive (fst (spawn w d p)) pid
  = is_alive w pid || bool_decide (pid = length (w_procs w)).
Proof.
  unfold is_alive, spawn; simpl.
  destruct (decide (pid < length (w_procs w))%nat) as [Hlt|Hge].
  - rewrite lookup_app_l by done.
    rewrite bool_decide_eq_false_2 by lia. by rewrite orb_false_r.
  - rewrite lookup_app_r by lia.
    rewrite (lookup_ge_None_2 (w_procs w) pid) by lia. simpl.
    case_bool_decide as Heq.
    + by replace (pid - length (w_procs w))%nat with 0%nat by lia.
    + destruct (pid - length (w_procs w))%nat eqn:E; [lia | done].
Qed.

Lemma is_alive_kill w q pid :
  is_alive (with_procs w (alter kill q (w_procs w))) pid
  = is_alive w pid && negb (bool_decide (pid = q)).
Proof.
  unfold is_alive; simpl. case_bool_decide as Heq.
  - subst. rewrite list_lookup_alter_eq.
    destruct (w_procs w !! q); simpl; by rewrite ?andb_false_r.
  - rewrite list_lookup_alter_ne by done. simpl. by rewrite andb_true_r.
Qed.

Lemma is_alive_env e w pid :
  is_alive (env_step e w) pid = true → is_alive w pid = true.
Proof.
  destruct e; simpl; try done.
  rewrite is_alive_kill. by intros [? _]%andb_true_iff.
Qed.

Lemma not_running_no_live v :
  consistent v → v_running v = false → ∀ pid, is_alive (v_env v) pid = false.
Proof.
  intros Hc Hr pid. destruct (is_alive (v_env v) pid) eqn:E; [|done].
  apply (only_live v Hc) in E as Hp. unfold v_running in Hr.
  rewrite Hp in Hr. congruence.
Qed.

Lemma consistent_start addr v : consistent v → consistent (snap_start addr v).
Proof.
  intros Hc. unfold snap_start. destruct (v_running v) eqn:Hr; [done|].
  pose proof (not_running_no_live v Hc Hr) as Hdead.
  split; simpl.
  - intros pid [= <-]. rewrite length_app. simpl. lia.
  - split; [discriminate | discriminate].
  - intros pid [= <-]. eexists addr, _. split.
    + rewrite lookup_app_r by lia. by rewrite Nat.sub_diag.
    + reflexivity.
  - intros pid p [= <-]. rewrite lookup_app_r by lia. rewrite Nat.sub_diag.
    by intros [= <-] _.
  - intros pid Hp. change (with_procs _ _) with (fst (spawn (v_env v) (v_dir v) (v_port v))) in Hp.
    rewrite is_alive_spawn, Hdead in Hp. simpl in Hp.
    by apply bool_decide_eq_true in Hp as ->.
  - apply (port_in_range v Hc).
Qed.

Lemma consistent_stop d p v :
  consistent v → (∀ q, p = Some q → valid_port q = true) →
  consistent (snap_stop (snap_config d p v)).
Proof.
  intros Hc Hp. split; simpl; try done.
  intros pid Hl. exfalso.
  destruct (v_proc v) as [q|] eqn:Hq.
  - destruct (is_alive (v_env v) q) eqn:Hq'.
    + unfold terminate in Hl. rewrite is_alive_kill in Hl.
      apply andb_true_iff in Hl as [Hl Hne].
      apply (only_live v Hc) in Hl. rewrite Hq in Hl. injection Hl as ->.
      by rewrite bool_decide_eq_true_2 in Hne.
    + apply (only_live v Hc) in Hl as Hl'. rewrite Hq in Hl'.
      injection Hl' as ->. congruence.
  - apply (only_live v Hc) in Hl. congruence.
Qed.

Lemma consistent_config d p v :
  consistent v → v_running v = false →
  (∀ q, p = Some q → valid_port q = true) →
  consistent (snap_config d p v).
Proof.
  intros Hc Hr Hp. split; simpl; try apply Hc; try done.
  intros pid q Hpid Hq Hal. exfalso.
  unfold v_running in Hr. rewrite Hpid in Hr. unfold is_alive in Hr.
  rewrite Hq in Hr. congruence.
Qed.

Lemma env_step_lookup e w pid q :
  w_procs (env_step e w) !! pid = Some q →
  ∃ q0, w_procs w !! pid = Some q0 ∧ p_dir q = p_dir q0
        ∧ p_port q = p_port q0 ∧ (p_alive q = true → p_alive q0 = true).
Proof.
  destruct e; simpl; eauto.
  rewrite list_lookup_alter. case_decide as Heq; [subst|eauto].
  destruct (w_procs w !! pid) as [q0|]; simpl; [|done].
  intros [= <-]. exists q0. by simpl.
Qed.

Lemma env_step_length e w :
  length (w_procs (env_step e w)) = length (w_procs w).
Proof. destruct e; simpl; try done. apply length_alter. Qed.

Lemma env_step_lookup_port e w pid q0 :
  w_procs w !! pid = Some q0 →
  ∃ q, w_procs (env_step e w) !! pid = Some q ∧ p_port q = p_port q0.
Proof.
  intros H. destruct e; simpl; eauto.
  rewrite list_lookup_alter. case_decide; [subst|eauto].
  rewrite H. simpl. eauto.
Qed.

Lemma consistent_env e v : consistent v → consistent (snap_env e v).
Proof.
  intros Hc. split; simpl.
  - intros pid Hp. rewrite env_step_length. by apply Hc.
  - apply Hc.
  - intros pid Hp. destruct (url_form v Hc pid Hp) as (addr & q0 & Hq0 & Hu).
    destruct (env_step_lookup_port e _ _ _ Hq0) as (q & Hq & Hport).
    exists addr, q. by rewrite Hport.
  - intros pid q Hp Hq Hal.
    destruct (env_step_lookup e _ _ _ Hq) as (q0 & Hq0 & -> & -> & Hal0).
    apply (running_matches v Hc pid q0); auto.
  - intros pid Hl. apply (only_live v Hc). by eapply is_alive_env.
  - apply Hc.
Qed.

Create HintDb lifecycle.
#[local] Hint Resolve consistent_start consistent_env : lifecycle.

(** *** The CLI keeps its controller consistent *)

Lemma cli_running_view s : Cli.running s = v_running (Cli.view s).
Proof. reflexivity. Qed.

Lemma cli_view_print x s : Cli.view (Cli.print x s) = Cli.view s.
Proof. reflexivity. Qed.

Lemma cli_view_start s :
  Cli.view (Cli.start_server s)
  = snap_start (Cli.get_local_ip (Cli.env s)) (Cli.view s).
Proof.
  unfold Cli.start_server, snap_start. rewrite <- cli_running_view.
  by destruct (Cli.running s).
Qed.

Lemma cli_view_stop s : Cli.view (Cli.stop_server s) = snap_stop (Cli.view s).
Proof.
  unfold Cli.stop_server, snap_stop, Cli.view; simpl.
  destruct (Cli.proc (Cli.self s)) as [pid|]; [|done].
  by destruct (is_alive (Cli.env s) pid).
Qed.

Lemma snap_config_id v : snap_config (v_dir v) (v_port v) v = v.
Proof. by destruct v. Qed.

Lemma valid_some p :
  valid_port p = true → ∀ q, Some p = Some q → valid_port q = true.
Proof. by intros Hp q [= <-]. Qed.

Lemma cli_stop_consistent s :
  consistent (Cli.view s) → consistent (Cli.view (Cli.stop_server s)).
Proof.
  intros Hc. rewrite cli_view_stop, <- (snap_config_id (Cli.view s)).
  apply consistent_stop; [done | apply Hc].
Qed.

Lemma cli_start_consistent s :
  consistent (Cli.view s) → consistent (Cli.view (Cli.start_server s)).
Proof. intros Hc. rewrite cli_view_start. by apply consistent_start. Qed.

Lemma cli_cmd_dir_consistent new s :
  consistent (Cli.view s) → consistent (Cli.view (Cli.cmd_dir new s)).
Proof.
  intros Hc. unfold Cli.cmd_dir. destruct (isdir (Cli.env s) new); [|done].
  destruct (Cli.running _) eqn:Hr.
  - rewrite cli_view_start. apply consistent_start.
    rewrite cli_view_stop.
    apply (consistent_stop (Some new) (Some (Cli.port (Cli.self s)))
             (Cli.view s) Hc), Hc.
  - apply (consistent_config (Some new) (Some (Cli.port (Cli.self s)))
             (Cli.view s) Hc Hr), Hc.
Qed.

Lemma cli_cmd_port_consistent new s :
  consistent (Cli.view s) → consistent (Cli.view (Cli.cmd_port new s)).
Proof.
  intros Hc. unfold Cli.cmd_port. destruct (Py.int new) as [p|]; [|done].
  destruct (valid_port p) eqn:Hp; [|done].
  destruct (Cli.running _) eqn:Hr.
  - rewrite cli_view_start. apply consistent_start.
    rewrite cli_view_stop.
    by apply (consistent_stop (Some (Cli.shared_dir (Cli.self s))) (Some p)
                (Cli.view s) Hc), valid_some.
  - by apply (consistent_config (Some (Cli.shared_dir (Cli.self s))) (Some p)
                (Cli.view s) Hc Hr), valid_some.
Qed.

#[local] Hint Resolve cli_stop_consistent cli_start_consistent
  cli_cmd_dir_consistent cli_cmd_port_consistent : lifecycle.

Lemma cli_view_input prompt s :
  Cli.view (snd (Cli.input prompt s)) = Cli.view s.
Proof. unfold Cli.input. by destruct (Cli.stdin s). Qed.

Lemma cli_repl_step_consistent s :
  consistent (Cli.view s) → consistent (Cli.view (snd (Cli.repl_step s))).
Proof.
  intros Hc. unfold Cli.repl_step.
  pose proof (cli_view_input "> " s) as Hin.
  destruct (Cli.input "> " s) as [[line|] s1]; simpl in Hin.
  2:{ simpl. apply cli_stop_consistent. by rewrite cli_view_print, Hin. }
  rewrite <- Hin in Hc. clear Hin.
  destruct (Py.split (Py.strip line)) as [|c0 args]; [done|].
  repeat case_bool_decide; simpl; auto with lifecycle.
  - destruct args as [|new ?]; simpl; [|by apply cli_cmd_dir_consistent].
    match goal with |- context [Cli.input ?p s1] =>
      pose proof (cli_view_input p s1) as Hin;
      destruct (Cli.input p s1) as [[new|] s2] end; simpl in *.
    + apply cli_cmd_dir_consistent. by rewrite Hin.
    + by rewrite Hin.
  - destruct args as [|new ?]; simpl; [|by apply cli_cmd_port_consistent].
    match goal with |- context [Cli.input ?p s1] =>
      pose proof (cli_view_input p s1) as Hin;
      destruct (Cli.input p s1) as [[new|] s2] end; simpl in *.
    + apply cli_cmd_port_consistent. by rewrite Hin.
    + by rewrite Hin.
Qed.

Lemma boot_consistent dirs probe h cwd :
  consistent {| v_env := boot dirs probe h; v_dir := Some cwd;
                v_port := Some 8000;
                v_proc := None; v_url := EmptyString |}.
Proof.
  split; simpl; try done. by intros p [= <-].
Qed.

Lemma cli_init_consistent dirs probe h cwd lines :
  consistent (Cli.view (Cli.init (boot dirs probe h) cwd lines)).
Proof. apply cli_start_consistent, boot_consistent. Qed.

Lemma cli_step_consistent s e :
  consistent (Cli.view s) → consistent (Cli.view (Cli.step s e)).
Proof.
  intros Hc. destruct e as [|e]; simpl.
  - by apply cli_repl_step_consistent.
  - by apply (consistent_env e (Cli.view s)).
Qed.

Lemma cli_run_consistent evs s :
  consistent (Cli.view s) → consistent (Cli.view (Cli.run evs s)).
Proof.
  revert s. induction evs as [|e evs IH]; intros s Hc; [done|].
  simpl. by apply IH, cli_step_consistent.
Qed.

(** *** The Rich front end keeps its controller consistent *)

Lemma rich_view_start s :
  Rich.view (Rich.start_server s)
  = snap_start (Rich.get_local_ip (Rich.env s)) (Rich.view s).
Proof.
  unfold Rich.start_server, snap_start.
  change (v_running (Rich.view s)) with (Rich.running s).
  by destruct (Rich.running s).
Qed.

Lemma rich_view_stop s : Rich.view (Rich.stop_server s) = snap_stop (Rich.view s).
Proof.
  unfold Rich.stop_server, snap_stop, Rich.view, Rich.running; simpl.
  destruct (Rich.server_proc (Rich.self s)) as [pid|]; [|done].
  by destruct (is_alive (Rich.env s) pid).
Qed.

Lemma rich_stop_consistent s :
  consistent (Rich.view s) → consistent (Rich.view (Rich.stop_server s)).
Proof.
  intros Hc. rewrite rich_view_stop, <- (snap_config_id (Rich.view s)).
  apply consistent_stop; [done | apply Hc].
Qed.

Lemma rich_start_consistent s :
  consistent (Rich.view s) → consistent (Rich.view (Rich.start_server s)).
Proof. intros Hc. rewrite rich_view_start. by apply consistent_start. Qed.

Lemma rich_view_console_print {console : Console} markup s :
  Rich.view (Rich.console_print markup s).2 = Rich.view s.
Proof. unfold Rich.console_print. by destruct (markup_error markup). Qed.

Lemma rich_view_go_on {console : Console} r : (Rich.go_on r).2 = r.2.
Proof. unfold Rich.go_on. by destruct r.1. Qed.

Lemma rich_change_dir_consistent {console : Console} typed s :
  consistent (Rich.view s) → consistent (Rich.view (Rich.change_dir typed s).2).
Proof.
  intros Hc. unfold Rich.change_dir.
  set (new := Py.or_else typed _). set (s0 := Rich.print _ s).
  destruct (isdir (Rich.env s0) new); [|by rewrite rich_view_console_print].
  cbn [snd]. destruct (Rich.running _) eqn:Hr.
  - rewrite rich_view_start. apply consistent_start. rewrite rich_view_stop.
    apply (consistent_stop (Some new) (Some (Rich.port (Rich.self s)))
             (Rich.view s) Hc), Hc.
  - apply (consistent_config (Some new) (Some (Rich.port (Rich.self s)))
             (Rich.view s) Hc Hr), Hc.
Qed.

Lemma rich_change_port_consistent {console : Console} typed s :
  consistent (Rich.view s) → consistent (Rich.view (Rich.change_port typed s).2).
Proof.
  intros Hc. unfold Rich.change_port.
  set (new := Py.or_else typed _). set (s0 := Rich.print _ s).
  destruct (Py.int new) as [p|]; [|by rewrite rich_view_console_print].
  destruct (valid_port p) eqn:Hp; [|by rewrite rich_view_console_print].
  cbn [snd]. destruct (Rich.running _) eqn:Hr.
  - rewrite rich_view_start. apply consistent_start. rewrite rich_view_stop.
    by apply (consistent_stop (Some (Rich.shared_dir (Rich.self s))) (Some p)
                (Rich.view s) Hc), valid_some.
  - by apply (consistent_config (Some (Rich.shared_dir (Rich.self s))) (Some p)
                (Rich.view s) Hc Hr), valid_some.
Qed.

#[local] Hint Resolve rich_stop_consistent rich_start_consistent
  rich_change_dir_consistent rich_change_port_consistent : lifecycle.

Lemma rich_step_consistent {console : Console} s e :
  consistent (Rich.view s) → consistent (Rich.view (Rich.step s e)).
Proof.
  intros Hc. destruct e as [pressed typed|e]; simpl.
  - unfold Rich.on_key, Rich.toggle_server.
    destruct (negb _); [done|].
    repeat case_bool_decide; rewrite ?rich_view_go_on; simpl;
      auto with lifecycle.
    + destruct (Rich.running s); auto with lifecycle.
    + by rewrite rich_view_console_print.
  - by apply (consistent_env e (Rich.view s)).
Qed.

Lemma rich_run_consistent {console : Console} evs s :
  consistent (Rich.view s) → consistent (Rich.view (Rich.run evs s)).
Proof.
  revert s. induction evs as [|e evs IH]; intros s Hc; [done|].
  simpl. by apply IH, rich_step_consistent.
Qed.

Lemma rich_init_consistent dirs probe h cwd :
  consistent (Rich.view (Rich.init (boot dirs probe h) cwd)).
Proof. apply rich_start_consistent, boot_consistent. Qed.

(** *** The Textual application keeps its controller consistent *)

Lemma tui_view_start s :
  consistent (Tui.view s) →
  Tui.view (Tui.action_start_server s)
  = snap_start (Tui.get_local_ip (Tui.env s)) (Tui.view s).
Proof.
  intros Hc. unfold Tui.action_start_server, snap_start.
  change (v_running (Tui.view s)) with (Tui.running s).
  destruct (Tui.running s) eqn:Hr; [done|].
  unfold spawn, Tui.set_server_process. cbn [Tui.self Tui.env].
  destruct (decide _) as [Heq|Hne].
  - apply (handle_spawned _ Hc) in Heq. simpl in Heq. lia.
  - unfold Tui.watch_server_process. cbn [Tui.self Tui.env].
    change (with_procs _ _) with
      (fst (spawn (Tui.env s) (Tui.shared_dir (Tui.self s)) (Tui.port (Tui.self s)))).
    rewrite is_alive_spawn, (bool_decide_eq_true_2 _ eq_refl), orb_true_r.
    reflexivity.
Qed.

Lemma tui_view_stop s :
  Tui.view (Tui.action_stop_server s)
  = if Tui.running s then snap_stop (Tui.view s) else Tui.view s.
Proof.
  unfold Tui.action_stop_server, Tui.running, snap_stop.
  cbn [Tui.view v_proc v_env].
  destruct (Tui.server_process (Tui.self s)) as [pid|] eqn:Hp; [|reflexivity].
  destruct (is_alive (Tui.env s) pid) eqn:Hal; [|reflexivity].
  unfold Tui.set_server_process. cbn [Tui.self Tui.env]. rewrite Hp.
  destruct (decide _); [done|]. reflexivity.
Qed.

Lemma tui_start_consistent s :
  consistent (Tui.view s) → consistent (Tui.view (Tui.action_start_server s)).
Proof. intros Hc. rewrite tui_view_start by done. by apply consistent_start. Qed.

Lemma tui_stop_consistent s :
  consistent (Tui.view s) → consistent (Tui.view (Tui.action_stop_server s)).
Proof.
  intros Hc. rewrite tui_view_stop. destruct (Tui.running s); [|done].
  rewrite <- (snap_config_id (Tui.view s)).
  apply consistent_stop; [done | apply Hc].
Qed.

Lemma tui_restart_consistent d p s :
  consistent (Tui.view s) → (∀ q, p = Some q → valid_port q = true) →
  ∀ s1, Tui.view s1 = snap_config d p (Tui.view s) →
  consistent (Tui.view
    (if Tui.running s1 then Tui.action_start_server (Tui.action_stop_server s1)
     else s1)).
Proof.
  intros Hc Hp s1 Hv.
  destruct (Tui.running s1) eqn:Hr.
  - apply tui_start_consistent. rewrite tui_view_stop, Hr, Hv.
    by apply consistent_stop.
  - rewrite Hv. apply consistent_config; [done | | done].
    change (v_running (Tui.view s)) with (v_running (snap_config d p (Tui.view s))).
    by rewrite <- Hv.
Qed.

Lemma tui_set_shared_dir_consistent v s :
  consistent (Tui.view s) → consistent (Tui.view (Tui.set_shared_dir v s)).
Proof.
  intros Hc. unfold Tui.set_shared_dir. destruct (decide _); [done|].
  unfold Tui.watch_shared_dir.
  apply (tui_restart_consistent v (Tui.port (Tui.self s)) s Hc);
    [apply Hc | reflexivity].
Qed.

Lemma tui_set_port_consistent p s :
  consistent (Tui.view s) → (∀ q, p = Some q → valid_port q = true) →
  consistent (Tui.view (Tui.set_port p s)).
Proof.
  intros Hc Hp. unfold Tui.set_port. destruct (decide _); [done|].
  unfold Tui.watch_port.
  apply (tui_restart_consistent (Tui.shared_dir (Tui.self s)) p s Hc);
    [done | reflexivity].
Qed.

#[local] Hint Resolve tui_start_consistent tui_stop_consistent
  tui_set_shared_dir_consistent tui_set_port_consistent : lifecycle.

Lemma tui_step_consistent s e :
  consistent (Tui.view s) → consistent (Tui.view (Tui.step s e)).
Proof.
  intros Hc. destruct e as [| |path| |port_str| | |e]; simpl;
    auto with lifecycle.
  - unfold Tui.directory_ok. destruct (isdir _ _); [|done].
    by apply tui_set_shared_dir_consistent.
  - by apply tui_set_shared_dir_consistent.
  - unfold Tui.port_ok. destruct (Py.int port_str) as [p|]; [|done].
    destruct (valid_port p) eqn:Hp; [|done].
    by apply tui_set_port_consistent, valid_some.
  - by apply tui_set_port_consistent.
  - by apply (consistent_env e (Tui.view s)).
Qed.

Lemma tui_run_consistent evs s :
  consistent (Tui.view s) → consistent (Tui.view (Tui.run evs s)).
Proof.
  revert s. induction evs as [|e evs IH]; intros s Hc; [done|].
  simpl. by apply IH, tui_step_consistent.
Qed.

Lemma tui_init_consistent dirs probe h cwd :
  consistent (Tui.view (Tui.init (boot dirs probe h) cwd)).
Proof. apply boot_consistent. Qed.

(** *** Starting *)

Lemma snap_start_launches addr v :
  v_running v = false →
  w_procs (v_env (snap_start addr v))
  = w_procs (v_env v)
    ++ [{| p_dir := v_dir v; p_port := v_port v; p_alive := true |}]
  ∧ v_proc (snap_start addr v) = Some (length (w_procs (v_env v)))
  ∧ v_url (snap_start addr v) = share_url_of addr (v_port v)
  ∧ v_running (snap_start addr v) = true.
Proof.
  intros Hr. unfold snap_start. rewrite Hr. repeat split.
  unfold v_running. cbn [v_proc v_env].
  by rewrite is_alive_spawn, (bool_decide_eq_true_2 _ eq_refl), orb_true_r.
Qed.

Lemma tui_start_launches s :
  Tui.running s = false →
  w_procs (Tui.env (Tui.action_start_server s))
  = w_procs (Tui.env s)
    ++ [{| p_dir := Tui.shared_dir (Tui.self s);
           p_port := Tui.port (Tui.self s); p_alive := true |}]
  ∧ Tui.server_process (Tui.self (Tui.action_start_server s))
    = Some (length (w_procs (Tui.env s)))
  ∧ Tui.running (Tui.action_start_server s) = true.
Proof.
  intros Hr. unfold Tui.action_start_server. rewrite Hr.
  unfold spawn, Tui.set_server_process. cbn [Tui.self Tui.env].
  assert (Hal : is_alive
            (with_procs (Tui.env s)
               (w_procs (Tui.env s)
                ++ [{| p_dir := Tui.shared_dir (Tui.self s);
                       p_port := Tui.port (Tui.self s); p_alive := true |}]))
            (length (w_procs (Tui.env s))) = true).
  { change (with_procs _ _) with
      (fst (spawn (Tui.env s) (Tui.shared_dir (Tui.self s)) (Tui.port (Tui.self s)))).
    by rewrite is_alive_spawn, (bool_decide_eq_true_2 _ eq_refl), orb_true_r. }
  destruct (decide _) as [Heq|Hne].
  - repeat split; [done|]. unfold Tui.running. cbn [Tui.self Tui.env].
    by rewrite Heq.
  - unfold Tui.watch_server_process. cbn [Tui.self Tui.env]. rewrite Hal.
    repeat split. unfold Tui.running. cbn [Tui.self Tui.env Tui.server_process].
    done.
Qed.

(** C1 (as amended): [start_server] checks neither the directory nor the
    port.  From a stopped controller it always launches a process with
    the stored directory and port and the controller is running
    afterwards, in the three front ends alike; the CLI prints the line
    "Started server at ...", the Rich front end prints nothing.  The
    checks are made where a directory or a port is entered: along every
    lifetime a stored port that is an integer lies in [1024, 65535], and
    a path that is not a directory at that moment is not stored. *)
Theorem C1_start_launches_without_validation :
  (∀ s, Cli.running s = false →
     w_procs (Cli.env (Cli.start_server s))
     = w_procs (Cli.env s)
       ++ [{| p_dir := Some (Cli.shared_dir (Cli.self s));
              p_port := Some (Cli.port (Cli.self s)); p_alive := true |}]
     ∧ Cli.proc (Cli.self (Cli.start_server s))
       = Some (length (w_procs (Cli.env s)))
     ∧ Cli.running (Cli.start_server s) = true
     ∧ Cli.out (Cli.start_server s)
       = Cli.out s
         ++ [Text ("Started server at "
                   +:+ share_url (Cli.get_local_ip (Cli.env s)) (Cli.port (Cli.self s))
                   +:+ ", serving " +:+ Cli.shared_dir (Cli.self s))])
  ∧ (∀ s, Rich.running s = false →
     w_procs (Rich.env (Rich.start_server s))
     = w_procs (Rich.env s)
       ++ [{| p_dir := Some (Rich.shared_dir (Rich.self s));
              p_port := Some (Rich.port (Rich.self s)); p_alive := true |}]
     ∧ Rich.server_proc (Rich.self (Rich.start_server s))
       = Some (length (w_procs (Rich.env s)))
     ∧ Rich.running (Rich.start_server s) = true
     ∧ Rich.out (Rich.start_server s) = Rich.out s)
  ∧ (∀ s, Tui.running s = false →
     w_procs (Tui.env (Tui.action_start_server s))
     = w_procs (Tui.env s)
       ++ [{| p_dir := Tui.shared_dir (Tui.self s);
              p_port := Tui.port (Tui.self s); p_alive := true |}]
     ∧ Tui.server_process (Tui.self (Tui.action_start_server s))
       = Some (length (w_procs (Tui.env s)))
     ∧ Tui.running (Tui.action_start_server s) = true)
  ∧ (∀ dirs probe h cwd lines evs,
       valid_port (Cli.port (Cli.self
         (Cli.run evs (Cli.init (boot dirs probe h) cwd lines)))) = true)
  ∧ (∀ (console : Console) dirs probe h cwd evs,
       valid_port (Rich.port (Rich.self
         (Rich.run evs (Rich.init (boot dirs probe h) cwd)))) = true)
  ∧ (∀ dirs probe h cwd evs p,
       Tui.port (Tui.self (Tui.run evs (Tui.init (boot dirs probe h) cwd)))
       = Some p →
       valid_port p = true)
  ∧ (∀ new s, isdir (Cli.env s) new = false →
       Cli.shared_dir (Cli.self (Cli.cmd_dir new s)) = Cli.shared_dir (Cli.self s))
  ∧ (∀ (console : Console) typed s,
       isdir (Rich.env s) (Py.or_else typed (Rich.shared_dir (Rich.self s))) = false →
       Rich.shared_dir (Rich.self (Rich.change_dir typed s).2)
       = Rich.shared_dir (Rich.self s))
  ∧ (∀ path s, isdir (Tui.env s) path = false → Tui.directory_ok path s = s).
Proof.
  repeat apply conj.
  - intros s Hr.
    destruct (snap_start_launches (Cli.get_local_ip (Cli.env s)) (Cli.view s) Hr)
      as (H1 & H2 & _ & H4).
    rewrite <- cli_view_start in H1, H2, H4. repeat split; try done.
    unfold Cli.start_server. by rewrite Hr.
  - intros s Hr.
    destruct (snap_start_launches (Rich.get_local_ip (Rich.env s)) (Rich.view s) Hr)
      as (H1 & H2 & _ & H4).
    rewrite <- rich_view_start in H1, H2, H4. repeat split; try done.
    unfold Rich.start_server. by rewrite Hr.
  - apply tui_start_launches.
  - intros dirs probe h cwd lines evs.
    by apply (port_in_range (Cli.view _)
                (cli_run_consistent evs _
                   (cli_init_consistent dirs probe h cwd lines))).
  - intros console dirs probe h cwd evs.
    by apply (port_in_range (Rich.view _)
                (rich_run_consistent evs _
                   (rich_init_consistent dirs probe h cwd))).
  - intros dirs probe h cwd evs p Hp.
    apply (port_in_range (Tui.view _)
             (tui_run_consistent evs _ (tui_init_consistent dirs probe h cwd))),
      Hp.
  - intros new s Hd. unfold Cli.cmd_dir. by rewrite Hd.
  - intros console typed s Hd. unfold Rich.change_dir.
    change (isdir (Rich.env (Rich.print _ s)) ?x) with (isdir (Rich.env s) x).
    rewrite Hd. unfold Rich.console_print. by destruct (markup_error _).
  - intros path s Hd. unfold Tui.directory_ok. by rewrite Hd.
Qed.

Lemma C1_witness :
  Cli.running cli_dir_gone = false
  ∧ Cli.proc (Cli.self (Cli.start_server cli_dir_gone)) = Some 1%nat
  ∧ Cli.running (Cli.start_server cli_dir_gone) = true.
Proof.
  split; [vm_compute; reflexivity|].
  destruct C1_start_launches_without_validation as (Hcli & _).
  destruct (Hcli cli_dir_gone) as (_ & Hp & Hr & _); [vm_compute; reflexivity|].
  split; [exact Hp | exact Hr].
Defined.

Lemma C1_counterexample : ¬ spec_start_validates cli_dir_gone.
Proof.
  intros H. destruct H as [H _]; [vm_compute; reflexivity ..|].
  vm_compute in H. discriminate.
Qed.

(** *** The share URL *)

Lemma consistent_url_tracks v : consistent v → url_tracks_handle v.
Proof.
  intros Hc. split; [|apply Hc].
  unfold v_running. destruct (v_proc v) as [pid|] eqn:Hp; [|done].
  intros (q & Hq & Hal)%is_alive_Some.
  destruct (url_form v Hc pid Hp) as (addr & q' & Hq' & Hu).
  assert (q' = q) as -> by congruence.
  destruct (running_matches v Hc pid q Hp Hq Hal) as [_ <-]. eauto.
Qed.

(** C2 (as amended): along every lifetime of each front end, a running
    controller has a URL of the form http://<address>:<port> for its
    stored port, and the URL is empty exactly when no process handle is
    stored; starting from a stopped controller sets it.  [stop_server]
    of the CLI and of the Rich front end clears the URL whenever it is
    called; [action_stop_server] of the Textual application clears it
    when the server process is alive and does nothing otherwise.  (A
    server process that exits on its own leaves the URL in place: see
    the counterexample.) *)
Theorem C2_url_tracks_handle :
  (∀ dirs probe h cwd lines evs,
     url_tracks_handle
       (Cli.view (Cli.run evs (Cli.init (boot dirs probe h) cwd lines))))
  ∧ (∀ (console : Console) dirs probe h cwd evs,
     url_tracks_handle
       (Rich.view (Rich.run evs (Rich.init (boot dirs probe h) cwd))))
  ∧ (∀ dirs probe h cwd evs,
     url_tracks_handle
       (Tui.view (Tui.run evs (Tui.init (boot dirs probe h) cwd))))
  ∧ (∀ s, Cli.url (Cli.self (Cli.stop_server s)) = EmptyString
          ∧ Cli.running (Cli.stop_server s) = false)
  ∧ (∀ s, Rich.url (Rich.self (Rich.stop_server s)) = EmptyString
          ∧ Rich.running (Rich.stop_server s) = false)
  ∧ (∀ s, Tui.running s = true →
          Tui.url (Tui.self (Tui.action_stop_server s)) = EmptyString
          ∧ Tui.running (Tui.action_stop_server s) = false)
  ∧ (∀ s, Tui.running s = false → Tui.action_stop_server s = s)
  ∧ (∀ s, Cli.running s = false →
          Cli.url (Cli.self (Cli.start_server s))
          = share_url (Cli.get_local_ip (Cli.env s)) (Cli.port (Cli.self s))
          ∧ Cli.running (Cli.start_server s) = true)
  ∧ (∀ s, Rich.running s = false →
          Rich.url (Rich.self (Rich.start_server s))
          = share_url (Rich.get_local_ip (Rich.env s)) (Rich.port (Rich.self s))
          ∧ Rich.running (Rich.start_server s) = true)
  ∧ (∀ dirs probe h cwd evs,
       let s := Tui.run evs (Tui.init (boot dirs probe h) cwd) in
       Tui.running s = false →
       Tui.url (Tui.self (Tui.action_start_server s))
       = share_url_of (Tui.get_local_ip (Tui.env s)) (Tui.port (Tui.self s))
       ∧ Tui.running (Tui.action_start_server s) = true).
Proof.
  repeat apply conj.
  - intros. apply consistent_url_tracks, cli_run_consistent, cli_init_consistent.
  - intros. apply consistent_url_tracks, rich_run_consistent, rich_init_consistent.
  - intros. apply consistent_url_tracks, tui_run_consistent, tui_init_consistent.
  - intros s. change (v_url (Cli.view (Cli.stop_server s)) = EmptyString
                      ∧ v_running (Cli.view (Cli.stop_server s)) = false).
    by rewrite cli_view_stop.
  - intros s. change (v_url (Rich.view (Rich.stop_server s)) = EmptyString
                      ∧ v_running (Rich.view (Rich.stop_server s)) = false).
    by rewrite rich_view_stop.
  - intros s Hr. change (v_url (Tui.view (Tui.action_stop_server s)) = EmptyString
                      ∧ v_running (Tui.view (Tui.action_stop_server s)) = false).
    by rewrite tui_view_stop, Hr.
  - intros s Hr. unfold Tui.action_stop_server. unfold Tui.running in Hr.
    destruct (Tui.server_process (Tui.self s)) as [pid|]; [|done].
    by rewrite Hr.
  - intros s Hr.
    destruct (snap_start_launches (Cli.get_local_ip (Cli.env s)) (Cli.view s) Hr)
      as (_ & _ & H3 & H4).
    rewrite <- cli_view_start in H3, H4. auto.
  - intros s Hr.
    destruct (snap_start_launches (Rich.get_local_ip (Rich.env s)) (Rich.view s) Hr)
      as (_ & _ & H3 & H4).
    rewrite <- rich_view_start in H3, H4. auto.
  - intros dirs probe h cwd evs s Hr.
    assert (Hc : consistent (Tui.view s))
      by apply tui_run_consistent, tui_init_consistent.
    destruct (snap_start_launches (Tui.get_local_ip (Tui.env s)) (Tui.view s) Hr)
      as (_ & _ & H3 & H4).
    rewrite <- tui_view_start in H3, H4 by done. auto.
Qed.

Lemma C2_witness :
  url_tracks_handle (Cli.view cli_server_died)
  ∧ Cli.running cli_dir_gone = false
  ∧ Cli.url (Cli.self (Cli.start_server cli_dir_gone)) = "http://192.168.1.20:8000"
  ∧ Tui.running tui_up = true
  ∧ Tui.url (Tui.self (Tui.action_stop_server tui_up)) = EmptyString
  ∧ Tui.running (Tui.action_stop_server tui_up) = false
  ∧ Tui.running tui_server_died = false
  ∧ Tui.action_stop_server tui_server_died = tui_server_died.
Proof.
  destruct C2_url_tracks_handle
    as (Hcli & _ & _ & _ & _ & Hstop & Hidle & Hstart & _).
  split; [exact (Hcli _ _ _ "/home/u" [] [Cli.Env (ProcExit 0)])|].
  split; [vm_compute; reflexivity|].
  split.
  { destruct (Hstart cli_dir_gone) as [Hu _]; [vm_compute; reflexivity|].
    rewrite Hu. vm_compute. reflexivity. }
  split; [vm_compute; reflexivity|].
  destruct (Hstop tui_up) as [H1 H2]; [vm_compute; reflexivity|].
  split; [exact H1|]. split; [exact H2|].
  split; [vm_compute; reflexivity|].
  apply Hidle. vm_compute; reflexivity.
Defined.

(** What the Rich front end then shows: stopped, with a URL; and the
    Textual application keeps its URL and its green status line through
    every later stop. *)
Example rich_stopped_with_url :
  Rich.render_status (rich_server_died (console := rich_console)) = "Stopped"
  ∧ Rich.render_url (rich_server_died (console := rich_console))
    = "http://192.168.1.20:8000".
Proof. split; vm_compute; reflexivity. Qed.

Example tui_stopped_with_url :
  let s := Tui.run [Tui.StopKey; Tui.StopKey] tui_server_died in
  Tui.running s = false
  ∧ Tui.url (Tui.self s) = "http://192.168.1.20:8000"
  ∧ Tui.status_line (Tui.self s) = "Status: [b green]Running[/b green]".
Proof. repeat split; vm_compute; reflexivity. Qed.

Lemma C2_counterexample : ¬ spec_url_iff_running cli_server_died.
Proof.
  intros [H _]. assert (Hr : Cli.running cli_server_died = true).
  { apply H. vm_compute. discriminate. }
  vm_compute in Hr. discriminate.
Qed.

(** *** Reconfiguring a running controller *)



Lemma restart_serving addr d p v :
  consistent v → (∀ q, p = Some q → valid_port q = true) →
  let v' := snap_start addr (snap_stop (snap_config d p v)) in
  v_running v' = true ∧ v_dir v' = d ∧ v_port v' = p
  ∧ v_url v' = share_url_of addr p
  ∧ ∃ pid, v_proc v' = Some pid ∧ serving_args (v_env v') pid d p.
Proof.
  intros Hc Hp v'.
  pose proof (consistent_stop d p v Hc Hp) as Hc1.
  pose proof (consistent_start addr _ Hc1) as Hc2. fold v' in Hc2.
  assert (Hr : v_running (snap_stop (snap_config d p v)) = false) by done.
  destruct (snap_start_launches addr _ Hr) as (H1 & H2 & H3 & H4).
  fold v' in H1, H2, H3, H4.
  assert (Hd : v_dir v' = d ∧ v_port v' = p).
  { unfold v', snap_start. by rewrite Hr. }
  destruct Hd as [Hd Hpo]. repeat split; try done.
  eexists. split; [exact H2|]. split.
  - rewrite H1. rewrite lookup_app_r by done. by rewrite Nat.sub_diag.
  - intros q Hq. apply (only_live v' Hc2) in Hq. congruence.
Qed.



(** *** An invalid directory *)


(** The same through the loop: the line "dir /nowhere" leaves the
    controller as it was, the line "dir /srv/share" restarts it there. *)
Example cli_dir_lines :
  let s0 := Cli.init home "/home/u" ["dir /nowhere"; "dir /srv/share"] in
  let s1 := Cli.run [Cli.Iter] s0 in
  let s2 := Cli.run [Cli.Iter; Cli.Iter] s0 in
  Cli.self s1 = Cli.self s0 ∧ Cli.env s1 = Cli.env s0
  ∧ last (Cli.out s1) = Some (Text "Not a directory")
  ∧ Cli.shared_dir (Cli.self s2) = "/srv/share"
  ∧ w_procs (Cli.env s2)
    = [{| p_dir := Some "/home/u"; p_port := Some 8000; p_alive := false |};
       {| p_dir := Some "/srv/share"; p_port := Some 8000; p_alive := true |}].
Proof. repeat split; vm_compute; reflexivity. Qed.


(** *** Starting twice *)

Lemma cli_start_running s : Cli.running (Cli.start_server s) = true.
Proof.
  destruct (Cli.running s) eqn:Hr.
  - unfold Cli.start_server. by rewrite Hr.
  - destruct (snap_start_launches (Cli.get_local_ip (Cli.env s)) (Cli.view s) Hr)
      as (_ & _ & _ & H).
    by rewrite <- cli_view_start in H.
Qed.

Lemma rich_start_running s : Rich.running (Rich.start_server s) = true.
Proof.
  destruct (Rich.running s) eqn:Hr.
  - unfold Rich.start_server. by rewrite Hr.
  - destruct (snap_start_launches (Rich.get_local_ip (Rich.env s)) (Rich.view s) Hr)
      as (_ & _ & _ & H).
    by rewrite <- rich_view_start in H.
Qed.

Lemma tui_start_running s : Tui.running (Tui.action_start_server s) = true.
Proof.
  destruct (Tui.running s) eqn:Hr.
  - unfold Tui.action_start_server. by rewrite Hr.
  - by apply tui_start_launches.
Qed.

(** C8: on a running controller [start_server] launches nothing and
    changes neither the controller nor the processes; the CLI says
    "Server already running", the other two front ends return silently.
    Hence starting twice is starting once: the second call keeps the
    process, the handle and the URL of the first. *)
Theorem C8_start_while_running_is_noop :
  (∀ s, Cli.running s = true →
     Cli.start_server s = Cli.print (Text "Server already running") s
     ∧ Cli.self (Cli.start_server s) = Cli.self s
     ∧ Cli.env (Cli.start_server s) = Cli.env s)
  ∧ (∀ s, Rich.running s = true → Rich.start_server s = s)
  ∧ (∀ s, Tui.running s = true → Tui.action_start_server s = s)
  ∧ (∀ s, Cli.view (Cli.start_server (Cli.start_server s))
          = Cli.view (Cli.start_server s))
  ∧ (∀ s, Rich.start_server (Rich.start_server s) = Rich.start_server s)
  ∧ (∀ s, Tui.action_start_server (Tui.action_start_server s)
          = Tui.action_start_server s).
Proof.
  repeat apply conj.
  - intros s Hr. unfold Cli.start_server. by rewrite Hr.
  - intros s Hr. unfold Rich.start_server. by rewrite Hr.
  - intros s Hr. unfold Tui.action_start_server. by rewrite Hr.
  - intros s. unfold Cli.start_server at 1. by rewrite cli_start_running.
  - intros s. unfold Rich.start_server at 1. by rewrite rich_start_running.
  - intros s. unfold Tui.action_start_server at 1. by rewrite tui_start_running.
Qed.

Lemma C8_witness :
  Cli.running cli_up = true
  ∧ Cli.self (Cli.start_server cli_up) = Cli.self cli_up
  ∧ Cli.env (Cli.start_server cli_up) = Cli.env cli_up.
Proof.
  split; [vm_compute; reflexivity|].
  destruct C8_start_while_running_is_noop as (Hcli & _).
  destruct (Hcli cli_up) as (_ & Hs & He); [vm_compute; reflexivity|].
  split; [exact Hs | exact He].
Defined.

(** *** The address resolver *)

Lemma first_addr_head links :
  Tui.first_addr links = head (filter (λ ip, usable ip = true) (omap id links)).
Proof.
  induction links as [|link links IH]; [done|].
  destruct link as [ip|]; [|exact IH].
  change (omap id (Some ip :: links)) with (ip :: omap id links).
  rewrite filter_cons.
  change (Tui.first_addr (Some ip :: links))
    with (if usable ip then Some ip else Tui.first_addr links).
  case_decide as Hu.
  - by rewrite Hu.
  - by apply not_true_is_false in Hu as ->.
Qed.

Lemma head_app_filter {A} (P : A → Prop) `{∀ x, Decision (P x)} (l1 l2 : list A) :
  head (filter P (l1 ++ l2))
  = match head (filter P l1) with
    | Some x => Some x
    | None => head (filter P l2)
    end.
Proof. rewrite filter_app. by destruct (filter P l1). Qed.

Lemma scan_head h ifaces :
  head (filter (λ ip, usable ip = true) (enumerate h ifaces))
  = match Tui.scan h ifaces with
    | Ret found => found
    | Exc _ => None
    end.
Proof.
  induction ifaces as [|iface rest IH]; simpl; [done|].
  destruct (ifaddresses h iface) as [[links|]|e]; [|done..].
  rewrite head_app_filter, <- first_addr_head.
  by destruct (Tui.first_addr links).
Qed.

Lemma get_local_ip_head w :
  Tui.get_local_ip w
  = default Tui.sentinel
      (head (filter (λ ip, usable ip = true) (enumerated (w_host w)))).
Proof.
  unfold Tui.get_local_ip, enumerated.
  destruct (interfaces (w_host w)) as [ifaces|e]; simpl; [|done].
  rewrite scan_head. by destruct (Tui.scan (w_host w) ifaces) as [[ip|]|].
Qed.

Lemma octet_cases (P : Z → Prop) :
  (∀ n : nat, (n < 256)%nat → P (Z.of_nat n)) → ∀ a, octet a → P a.
Proof.
  intros H a [Ha1 Ha2]. rewrite <- (Z2Nat.id a) by done. apply H. lia.
Qed.

Lemma startswith_127_octet a rest :
  octet a →
  Py.startswith "127." (Py.str a +:+ "." +:+ rest) = (a =? 127).
Proof.
  revert a. apply octet_cases. intros n Hn.
  do 256 (destruct n as [|n]; [reflexivity|]). lia.
Qed.

Lemma str_octet_head a :
  octet a → ∃ c r, Py.str a = String c r ∧ Py.digit c ≠ None.
Proof.
  revert a. apply octet_cases. intros n Hn.
  do 256 (destruct n as [|n]; [by eexists _, _|]). lia.
Qed.

Lemma sentinel_not_address : ¬ concrete_address Tui.sentinel.
Proof.
  intros (a & b & c & d & Ha & _ & _ & _ & Heq).
  destruct (str_octet_head a Ha) as (ch & r & Hs & Hd).
  unfold dotted_quad in Heq. rewrite Hs in Heq. injection Heq as <- _.
  by apply Hd.
Qed.

(** C4 (as amended): the resolver of the Textual front end returns the
    first enumerated address that is not empty and does not start with
    "127." (for the text of an IPv4 address: whose first octet is not
    127); when there is none, or when the enumeration raises before one is
    found, it returns "?.?.?.?", which is not the text of an address.  The
    resolver of the CLI and of the Rich front end enumerates nothing: it
    returns the address of a probing socket, and "127.0.0.1" when the
    probe fails.  All three are total. *)
Theorem C4_resolver :
  (∀ w, Tui.get_local_ip w = spec_resolve (w_host w))
  ∧ (∀ w, Tui.get_local_ip w = Tui.sentinel
          ∨ (Tui.get_local_ip w ∈ enumerated (w_host w)
             ∧ Tui.get_local_ip w ≠ EmptyString
             ∧ Py.startswith "127." (Tui.get_local_ip w) = false))
  ∧ (∀ a b c d, octet a →
       Py.startswith "127." (dotted_quad a b c d) = (a =? 127))
  ∧ ¬ concrete_address Tui.sentinel
  ∧ (∀ w, Cli.get_local_ip w
          = match w_probe w with Ret ip => ip | Exc _ => "127.0.0.1" end)
  ∧ (∀ w, Rich.get_local_ip w = Cli.get_local_ip w).
Proof.
  repeat apply conj.
  - intros w. rewrite get_local_ip_head. unfold spec_resolve.
    by destruct (filter _ _).
  - intros w. rewrite get_local_ip_head.
    destruct (filter _ _) as [|ip l] eqn:E; simpl; [by left|right].
    assert (Hin : ip ∈ filter (λ ip, usable ip = true) (enumerated (w_host w)))
      by (rewrite E; apply list_elem_of_here).
    apply list_elem_of_filter in Hin as [Hu Hin].
    apply andb_true_iff in Hu as [Ht Hs].
    split; [done|]. split; [by destruct ip|].
    by apply negb_true_iff.
  - intros a b c d Ha. apply startswith_127_octet, Ha.
  - apply sentinel_not_address.
  - done.
  - done.
Qed.

Lemma C4_witness :
  octet 127
  ∧ Py.startswith "127." (dotted_quad 127 0 0 1) = true
  ∧ Tui.get_local_ip home = "192.168.1.20"
  ∧ Tui.get_local_ip offline = Tui.sentinel.
Proof.
  split; [unfold octet; lia|].
  destruct C4_resolver as (Hspec & _ & Hq & _).
  split; [exact (Hq 127 0 0 1 ltac:(unfold octet; lia))|].
  split; [rewrite Hspec|rewrite Hspec]; vm_compute; reflexivity.
Defined.

Lemma C4_counterexample : ¬ spec_unknown_on_failure offline.
Proof.
  intros H. apply H; [by eexists|].
  exists 127, 0, 0, 1. unfold octet. repeat split; lia.
Qed.

(** *** Strings *)

Lemma endswith_unfold p s :
  Py.endswith p s
  = String.eqb s p
    || match s with
       | EmptyString => false
       | String _ r => Py.endswith p r
       end.
Proof. by destruct s. Qed.

Lemma endswith_spec p s : Py.endswith p s = true ↔ ∃ t, s = t +:+ p.
Proof.
  induction s as [|a s IH]; rewrite endswith_unfold.
  - rewrite orb_false_r, String.eqb_eq. split.
    + intros <-. by exists EmptyString.
    + intros ([|??] & Ht); simpl in Ht; [done | discriminate].
  - rewrite orb_true_iff, String.eqb_eq, IH. split.
    + intros [<- | (t & ->)]; [by exists EmptyString | by exists (String a t)].
    + intros ([|b t] & Ht); simpl in Ht; [by left|].
      injection Ht as -> ->. right. by exists t.
Qed.

Lemma truthy_spec s : Py.truthy s = true ↔ s ≠ EmptyString.
Proof. by destruct s. Qed.

Lemma app_cons_string a (s t : string) : String a s +:+ t = String a (s +:+ t).
Proof. reflexivity. Qed.

Lemma app_nil_r_string (s : string) : s +:+ EmptyString = s.
Proof. induction s as [|a s IH]; [done|]. by rewrite app_cons_string, IH. Qed.

Lemma app_assoc_string (a b c : string) : (a +:+ b) +:+ c = a +:+ (b +:+ c).
Proof.
  induction a as [|x a IH]; [done|]. by rewrite !app_cons_string, IH.
Qed.

Lemma write_chunks_concat cs acc :
  Recv.write_chunks cs acc = acc +:+ fold_right String.app EmptyString cs.
Proof.
  revert acc. induction cs as [|c cs IH]; intros acc; simpl.
  - by rewrite app_nil_r_string.
  - rewrite IH. destruct c; simpl; [done|]. by rewrite app_assoc_string.
Qed.

Lemma has_slash_basename p : Recv.has_slash (Recv.basename p) = false.
Proof.
  induction p as [|a p IH]; [done|].
  change (Recv.basename (String a p))
    with (if Recv.has_slash (String a p) then Recv.basename p else String a p).
  by destruct (Recv.has_slash (String a p)) eqn:E.
Qed.

Lemma ord_inj a b : Py.ord a = Py.ord b → a = b.
Proof.
  unfold Py.ord. intros H.
  rewrite <- (ascii_N_embedding a), <- (ascii_N_embedding b). f_equal. lia.
Qed.

Lemma basename_split p :
  ∃ head, p = head +:+ Recv.basename p
          ∧ (head = EmptyString ∨ Py.endswith "/" head = true).
Proof.
  induction p as [|a p IH]; [by exists EmptyString; auto|].
  change (Recv.basename (String a p))
    with (if Recv.has_slash (String a p) then Recv.basename p else String a p).
  destruct (Recv.has_slash (String a p)) eqn:E; [|by exists EmptyString; auto].
  destruct IH as (head & Hp & Hh). exists (String a head). split.
  - rewrite app_cons_string. by f_equal.
  - right. destruct Hh as [-> | Hh].
    + change (EmptyString +:+ Recv.basename p) with (Recv.basename p) in Hp.
      change (Recv.has_slash (String a p))
        with ((Py.ord a =? 47) || Recv.has_slash p) in E.
      rewrite Hp, has_slash_basename, orb_false_r in E.
      apply Z.eqb_eq in E. apply endswith_spec. exists EmptyString.
      change (EmptyString +:+ "/")%string with (String "/" EmptyString).
      f_equal. by apply ord_inj.
    + apply endswith_spec in Hh as (t & ->). apply endswith_spec.
      by exists (String a t).
Qed.

(** *** The listing *)

Lemma keep_files_omap anchors : Recv.keep_files anchors = omap kept anchors.
Proof.
  induction anchors as [|a l IH]; [done|].
  change (omap kept (a :: l))
    with (match kept a with Some e => e :: omap kept l | None => omap kept l end).
  rewrite <- IH. unfold kept. simpl.
  destruct (Recv.a_href a) as [href|]; [|done].
  by destruct (Py.truthy href && negb (Py.endswith "/" href)).
Qed.

Lemma kept_spec a name href :
  kept a = Some (name, href)
  ↔ Recv.a_href a = Some href ∧ href ≠ EmptyString
    ∧ (¬ ∃ t, href = t +:+ "/") ∧ name = Py.strip (Recv.a_text a).
Proof.
  unfold kept. destruct (Recv.a_href a) as [h|].
  2:{ split; [discriminate | by intros ([=] & _)]. }
  destruct (Py.truthy h) eqn:Ht; destruct (Py.endswith "/" h) eqn:He; simpl.
  - apply endswith_spec in He. split; [discriminate|].
    intros ([= ->] & _ & Hno & _). by destruct Hno.
  - apply truthy_spec in Ht. split.
    + intros [= <- <-]. repeat split; try done.
      intros Hex. apply endswith_spec in Hex. congruence.
    + by intros ([= ->] & _ & _ & ->).
  - destruct h; [|discriminate]. split; [discriminate|].
    by intros ([= <-] & Hne & _).
  - destruct h; [|discriminate]. split; [discriminate|].
    by intros ([= <-] & Hne & _).
Qed.

Section Receiver.

Variable find_all_a : string → list Recv.anchor.
Variable urljoin : string → string → string.
Variable url_path : string → string.

Lemma list_files_ok url s r :
  Recv.http s url = Some r → Recv.cut r = false →
  Recv.raise_for_status r = Ret tt →
  Recv.list_files find_all_a url s
  = (Ret (Recv.keep_files (find_all_a (Recv.text r))),
     {| Recv.http := Recv.http s; Recv.files := Recv.files s;
        Recv.unwritable := Recv.unwritable s; Recv.stdin := Recv.stdin s;
        Recv.out := Recv.out s; Recv.requests := Recv.requests s ++ [url] |}).
Proof.
  intros Hh Hc Hs. unfold Recv.list_files, Recv.get. rewrite Hh, Hc. simpl.
  by rewrite Hs.
Qed.

(** What a download leaves untouched, and the one request it makes. *)
Lemma download_file_frame base href dest s :
  let s' := snd (Recv.download_file urljoin url_path base href dest s) in
  Recv.requests s' = Recv.requests s ++ [urljoin base href]
  ∧ Recv.http s' = Recv.http s ∧ Recv.unwritable s' = Recv.unwritable s
  ∧ Recv.stdin s' = Recv.stdin s ∧ Recv.out s' = Recv.out s.
Proof.
  unfold Recv.download_file, Recv.get.
  destruct (Recv.http s (urljoin base href)) as [r|]; simpl; [|done].
  destruct (Recv.raise_for_status r); simpl; [|done].
  case_bool_decide; simpl; [done|]. by destruct (Recv.cut r).
Qed.

Lemma download_all_frame url sel s :
  let s' := Recv.download_all urljoin url_path url sel s in
  Recv.requests s' = Recv.requests s ++ map (λ e, urljoin url e.2) sel
  ∧ Recv.http s' = Recv.http s ∧ Recv.unwritable s' = Recv.unwritable s
  ∧ Recv.stdin s' = Recv.stdin s.
Proof.
  revert s. induction sel as [|[name href] sel IH]; intros s; simpl.
  - by rewrite app_nil_r.
  - pose proof (download_file_frame url href "."
                  (Recv.print ("Downloading " +:+ name +:+ "...") s))
      as (Hr & Hh & Hu & Hi & _).
    destruct (Recv.download_file _ _ _ _ _ _) as [[path|e] s2]; simpl in *.
    + destruct (IH (Recv.print ("Saved to " +:+ path) s2)) as (Hr' & Hh' & Hu' & Hi').
      simpl in *. rewrite Hr', Hh', Hu', Hi', Hr, Hh, Hu, Hi.
      by rewrite <- app_assoc.
    + destruct (IH (Recv.print ("Failed to download " +:+ name +:+ ": " +:+ e) s2))
        as (Hr' & Hh' & Hu' & Hi').
      simpl in *. rewrite Hr', Hh', Hu', Hi', Hr, Hh, Hu, Hi.
      by rewrite <- app_assoc.
Qed.

Lemma print_listing_spec i listed s :
  Recv.print_listing i listed s
  = {| Recv.http := Recv.http s; Recv.files := Recv.files s;
       Recv.unwritable := Recv.unwritable s; Recv.stdin := Recv.stdin s;
       Recv.out := Recv.out s ++ listing_lines i listed;
       Recv.requests := Recv.requests s |}.
Proof.
  revert i s. induction listed as [|[name href] l IH]; intros i s; simpl.
  - rewrite app_nil_r. by destruct s.
  - rewrite IH. simpl. by rewrite <- app_assoc.
Qed.

(** [main] up to the point where the selection is known. *)
Lemma main_selects s u c rest r :
  Recv.stdin s = u :: c :: rest →
  Py.truthy (Py.strip u) = true →
  Recv.http s (Py.strip u) = Some r → Recv.cut r = false →
  Recv.raise_for_status r = Ret tt →
  Recv.keep_files (find_all_a (Recv.text r)) ≠ [] →
  Recv.main find_all_a urljoin url_path s
  = (Ret tt,
     Recv.download_all urljoin url_path (Py.strip u)
       (Recv.to_download (Recv.keep_files (find_all_a (Recv.text r))) (Py.strip c))
       (ready s (Py.strip u) (Recv.keep_files (find_all_a (Recv.text r))) rest)).
Proof.
  intros Hin Hu Hh Hc Hs Hne. unfold Recv.main, Recv.input.
  cbn [Recv.print Recv.stdin]. rewrite Hin, Hu. cbn [negb].
  erewrite list_files_ok by (cbn; eassumption).
  destruct (Recv.keep_files (find_all_a (Recv.text r))) as [|e l] eqn:E; [done|].
  rewrite print_listing_spec. cbn. f_equal. f_equal. unfold ready. f_equal.
  rewrite <- !app_assoc. reflexivity.
Qed.

Lemma main_nothing_listed s u rest r :
  Recv.stdin s = u :: rest →
  Py.truthy (Py.strip u) = true →
  Recv.http s (Py.strip u) = Some r → Recv.cut r = false →
  Recv.raise_for_status r = Ret tt →
  Recv.keep_files (find_all_a (Recv.text r)) = [] →
  fst (Recv.main find_all_a urljoin url_path s) = Ret tt
  ∧ Recv.requests (snd (Recv.main find_all_a urljoin url_path s))
    = Recv.requests s ++ [Py.strip u].
Proof.
  intros Hin Hu Hh Hc Hs He. unfold Recv.main, Recv.input.
  cbn [Recv.print Recv.stdin]. rewrite Hin, Hu. cbn [negb].
  erewrite list_files_ok by (cbn; eassumption). by rewrite He.
Qed.

End Receiver.

(** *** The selection *)

Lemma parse_idxs_omap parts :
  Recv.parse_idxs parts = (λ n, n - 1) <$> omap Py.int parts.
Proof.
  induction parts as [|part parts IH]; [done|].
  change (omap Py.int (part :: parts))
    with (match Py.int part with
          | Some n => n :: omap Py.int parts
          | None => omap Py.int parts
          end).
  simpl. rewrite IH. by destruct (Py.int part).
Qed.

Lemma select_omap listed idxs :
  Recv.select listed idxs = omap (λ i, by_index listed (i + 1)) idxs.
Proof.
  induction idxs as [|i idxs IH]; [done|].
  change (omap (λ i, by_index listed (i + 1)) (i :: idxs))
    with (match by_index listed (i + 1) with
          | Some e => e :: omap (λ i, by_index listed (i + 1)) idxs
          | None => omap (λ i, by_index listed (i + 1)) idxs
          end).
  simpl. rewrite IH. unfold by_index.
  replace (i + 1 - 1) with i by lia.
  replace (1 <=? i + 1) with (0 <=? i) by (apply eq_true_iff_eq; rewrite !Z.leb_le; lia).
  replace (i + 1 <=? Z.of_nat (length listed)) with (i <? Z.of_nat (length listed))
    by (apply eq_true_iff_eq; rewrite Z.leb_le, Z.ltb_lt; lia).
  destruct ((0 <=? i) && (i <? Z.of_nat (length listed))); [|done].
  by destruct (listed !! Z.to_nat i).
Qed.

Lemma to_download_indices listed choice :
  Py.lower choice ≠ "all" →
  Recv.to_download listed choice
  = omap (by_index listed) (omap Py.int (Py.split choice)).
Proof.
  intros Hne. unfold Recv.to_download. rewrite bool_decide_eq_false_2 by done.
  rewrite select_omap, parse_idxs_omap.
  generalize (omap Py.int (Py.split choice)). intros l.
  induction l as [|n l IH]; [done|]. cbn [fmap list_fmap].
  change (omap ?f (?x :: ?l))
    with (match f x with Some e => e :: omap f l | None => omap f l end).
  rewrite IH. by replace (n - 1 + 1) with n by lia.
Qed.

Lemma by_index_in_range listed i :
  1 ≤ i ≤ Z.of_nat (length listed) → is_Some (by_index listed i).
Proof.
  intros Hi. unfold by_index.
  rewrite (proj2 (Z.leb_le 1 i)), (proj2 (Z.leb_le i _)) by lia. simpl.
  apply lookup_lt_is_Some. lia.
Qed.

(** C5 (as amended): when the page is fetched, [list_files] returns, in
    document order, one entry (stripped text, href) for every anchor
    whose href is there, is not empty and does not end in a slash, and for
    no other anchor; so the result is empty when no anchor qualifies. *)
Theorem C5_list_files :
  (∀ find_all_a url s r,
     Recv.http s url = Some r → Recv.cut r = false →
     Recv.raise_for_status r = Ret tt →
     fst (Recv.list_files find_all_a url s)
     = Ret (omap kept (find_all_a (Recv.text r))))
  ∧ (∀ a name href,
       kept a = Some (name, href)
       ↔ Recv.a_href a = Some href ∧ href ≠ EmptyString
         ∧ (¬ ∃ t, href = t +:+ "/") ∧ name = Py.strip (Recv.a_text a))
  ∧ Recv.keep_files (anchor_of <$> ["a.txt"; "sub/"; "b.png"])
    = [("a.txt", "a.txt"); ("b.png", "b.png")].
Proof.
  repeat apply conj.
  - intros find_all_a url s r Hh Hc Hs.
    by rewrite (list_files_ok find_all_a url s r Hh Hc Hs), keep_files_omap.
  - apply kept_spec.
  - reflexivity.
Qed.

Lemma C5_witness :
  fst (Recv.list_files (λ _, listing_page) share_base (receiver "all"))
  = Ret [("a.txt", "a.txt"); ("b.png", "b.png"); ("c.md", "c.md")].
Proof.
  destruct C5_list_files as (H & _).
  rewrite (H (λ _, listing_page) share_base (receiver "all")
             {| Recv.status := 200; Recv.chunks := ["<html>"]; Recv.cut := false |});
    reflexivity.
Defined.

Lemma C5_counterexample :
  fst (Recv.list_files (λ _, page_with_empty_href) share_base (receiver "all"))
  ≠ Ret (spec_keep_files page_with_empty_href).
Proof. vm_compute. discriminate. Qed.

Lemma to_download_nil choice : Recv.to_download [] choice = [].
Proof.
  unfold Recv.to_download. case_bool_decide; [done|].
  induction (Recv.parse_idxs (Py.split choice)) as [|i idxs IH]; [done|].
  cbn [Recv.select]. rewrite lookup_nil.
  by destruct ((0 <=? i) && (i <? Z.of_nat (length (@nil Recv.entry)))).
Qed.

(** C6: once the listing of n files is printed and the selection read,
    [main] requests exactly the selected files, one request each and in
    order, whatever the outcome of each download: all n files when the
    selection is "all" in any case of letters, and otherwise, for each
    token that is an integer i, the i-th file when 1 <= i <= n and
    nothing when i is out of range.  No exception leaves [main]. *)
Theorem C6_selection_attempts :
  ∀ find_all_a urljoin url_path s u c rest r,
    Recv.stdin s = u :: c :: rest →
    Py.truthy (Py.strip u) = true →
    Recv.http s (Py.strip u) = Some r → Recv.cut r = false →
    Recv.raise_for_status r = Ret tt →
    let url := Py.strip u in
    let listed := Recv.keep_files (find_all_a (Recv.text r)) in
    let sel := Recv.to_download listed (Py.strip c) in
    let done := Recv.main find_all_a urljoin url_path s in
    fst done = Ret tt
    ∧ Recv.requests (snd done)
      = Recv.requests s ++ url :: map (λ e, urljoin url e.2) sel
    ∧ (Py.lower (Py.strip c) = "all" → sel = listed)
    ∧ (Py.lower (Py.strip c) ≠ "all" →
       sel = omap (by_index listed) (omap Py.int (Py.split (Py.strip c))))
    ∧ (∀ i, 1 ≤ i ≤ Z.of_nat (length listed) →
            by_index listed i = listed !! Z.to_nat (i - 1)
            ∧ is_Some (by_index listed i))
    ∧ (∀ i, ¬ 1 ≤ i ≤ Z.of_nat (length listed) → by_index listed i = None).
Proof.
  intros find_all_a urljoin url_path s u c rest r Hin Hu Hh Hc Hs url listed sel done.
  assert (Hmain : fst done = Ret tt
                  ∧ Recv.requests (snd done)
                    = Recv.requests s ++ url :: map (λ e, urljoin url e.2) sel).
  { destruct (decide (listed = [])) as [He|Hne].
    - destruct (main_nothing_listed find_all_a urljoin url_path s u (c :: rest) r
                  Hin Hu Hh Hc Hs He) as (H1 & H2).
      split; [exact H1|]. unfold done. rewrite H2. unfold sel. rewrite He.
      by rewrite to_download_nil.
    - unfold done.
      rewrite (main_selects find_all_a urljoin url_path s u c rest r
                 Hin Hu Hh Hc Hs Hne).
      split; [done|]. cbn [snd].
      destruct (download_all_frame urljoin url_path url sel
                  (ready s url listed rest)) as (Hr & _).
      unfold sel, listed, url in Hr |- *. rewrite Hr.
      cbn [ready Recv.requests]. by rewrite <- app_assoc. }
  destruct Hmain as [Hm1 Hm2]. repeat split; try done.
  - intros Hall. unfold sel, Recv.to_download. by rewrite bool_decide_eq_true_2.
  - intros Hne. by apply to_download_indices.
  - unfold by_index.
    by rewrite (proj2 (Z.leb_le 1 i)), (proj2 (Z.leb_le i _)) by lia.
  - by apply by_index_in_range.
  - intros i Hi. unfold by_index.
    destruct (1 <=? i) eqn:E1; [|done].
    destruct (i <=? Z.of_nat (length listed)) eqn:E2; [|done].
    apply Z.leb_le in E1, E2. lia.
Qed.

(** From a 3-entry listing, "all" attempts the three downloads although
    the first fails, and "1 5" attempts one. *)
Lemma C6_witness :
  Recv.requests (snd (run_receiver listing_page "all"))
  = [share_base; "http://192.168.1.20:8000/a.txt";
     "http://192.168.1.20:8000/b.png"; "http://192.168.1.20:8000/c.md"]
  ∧ Recv.requests (snd (run_receiver listing_page "1 5"))
    = [share_base; "http://192.168.1.20:8000/a.txt"].
Proof.
  split.
  - destruct (C6_selection_attempts (λ _, listing_page) simple_urljoin
                simple_url_path (receiver "all") share_base "all" []
                {| Recv.status := 200; Recv.chunks := ["<html>"]; Recv.cut := false |})
      as (_ & H & _); [reflexivity ..|].
    unfold run_receiver. rewrite H. vm_compute. reflexivity.
  - destruct (C6_selection_attempts (λ _, listing_page) simple_urljoin
                simple_url_path (receiver "1 5") share_base "1 5" []
                {| Recv.status := 200; Recv.chunks := ["<html>"]; Recv.cut := false |})
      as (_ & H & _); [reflexivity ..|].
    unfold run_receiver. rewrite H. vm_compute. reflexivity.
Defined.

(** *** One download *)

(** C9: a download that succeeds returns [dest] joined with what follows
    the last slash of the path of the joined URL, and leaves there a file
    whose content is the response body; it succeeds whenever the request
    does and the path can be opened for writing.  A file that was at that
    path before makes no difference: the whole run, result and final
    state, is the same whatever its content was, and [download_file]
    prints nothing. *)
Theorem C9_download_target :
  ∀ urljoin url_path base href dest s,
    let path := Recv.join dest (Recv.basename (url_path (urljoin base href))) in
    let run := Recv.download_file urljoin url_path base href dest in
    (∀ p, fst (run s) = Ret p →
       p = path
       ∧ ∃ r, Recv.http s (urljoin base href) = Some r
              ∧ Recv.files (snd (run s)) = <[path := Recv.text r]> (Recv.files s))
    ∧ (∀ r, Recv.http s (urljoin base href) = Some r →
         Recv.raise_for_status r = Ret tt → Recv.cut r = false →
         path ∉ Recv.unwritable s → fst (run s) = Ret path)
    ∧ (∀ p old, fst (run s) = Ret p →
         run (Recv.with_files s (<[path := old]> (Recv.files s))) = run s)
    ∧ Recv.out (snd (run s)) = Recv.out s
    ∧ Recv.has_slash (Recv.basename (url_path (urljoin base href))) = false
    ∧ ∃ head, url_path (urljoin base href)
              = head +:+ Recv.basename (url_path (urljoin base href))
              ∧ (head = EmptyString ∨ Py.endswith "/" head = true).
Proof.
  intros urljoin url_path base href dest s path run. repeat apply conj.
  - intros p. unfold run, Recv.download_file, Recv.get. fold path.
    destruct (Recv.http s (urljoin base href)) as [r|]; [|discriminate].
    cbn [negb andb]. destruct (Recv.raise_for_status r); [|discriminate].
    cbn [Recv.unwritable]. case_bool_decide; [discriminate|].
    destruct (Recv.cut r); [discriminate|]. intros [= <-].
    split; [done|]. exists r. split; [done|]. cbn [snd Recv.with_files Recv.files].
    rewrite insert_insert_eq, write_chunks_concat. reflexivity.
  - intros r Hh Hs Hc Hw. unfold run, Recv.download_file, Recv.get. fold path.
    rewrite Hh. cbn [negb andb]. rewrite Hs. cbn [Recv.unwritable].
    rewrite bool_decide_eq_false_2 by done. by rewrite Hc.
  - intros p old. unfold run, Recv.download_file, Recv.get. fold path.
    cbn [Recv.http Recv.with_files].
    destruct (Recv.http s (urljoin base href)) as [r|]; [|discriminate].
    cbn [negb andb]. destruct (Recv.raise_for_status r); [|discriminate].
    cbn [Recv.unwritable]. case_bool_decide; [discriminate|].
    destruct (Recv.cut r); [discriminate|]. intros _.
    cbn [Recv.with_files Recv.files Recv.http Recv.unwritable Recv.stdin
         Recv.out Recv.requests].
    rewrite bool_decide_eq_false_2 by done.
    unfold Recv.with_files. cbn [Recv.http Recv.unwritable Recv.stdin Recv.out
                                 Recv.requests].
    by rewrite !insert_insert_eq.
  - apply (download_file_frame urljoin url_path base href dest s).
  - apply has_slash_basename.
  - apply basename_split.
Qed.

Lemma C9_witness :
  fst fetch_b_png = Ret "./b.png"
  ∧ Recv.files (receiver "2") !! "./b.png" = Some "old"
  ∧ Recv.files (snd fetch_b_png) !! "./b.png" = Some "PNGdata".
Proof.
  destruct (C9_download_target simple_urljoin simple_url_path
              share_base "b.png" "." (receiver "2")) as (Hret & Hok & _).
  assert (Hrun : fst fetch_b_png = Ret "./b.png").
  { apply (Hok {| Recv.status := 200; Recv.chunks := ["PNG"; EmptyString; "data"];
                  Recv.cut := false |}); try reflexivity.
    vm_compute. set_solver. }
  split; [exact Hrun|]. split; [vm_compute; reflexivity|].
  destruct (Hret _ Hrun) as (_ & r & Hr & Hf).
  unfold fetch_b_png. rewrite Hf, lookup_insert_eq. f_equal.
  vm_compute in Hr. by injection Hr as <-.
Defined.

(** *** Tokens that are not integers *)

Lemma omap_int_skip pre bad post :
  Py.int bad = None →
  omap Py.int (pre ++ bad :: post) = omap Py.int (pre ++ post).
Proof.
  intros Hb. rewrite !omap_app. f_equal.
  change (omap Py.int (bad :: post))
    with (match Py.int bad with
          | Some n => n :: omap Py.int post
          | None => omap Py.int post
          end).
  by rewrite Hb.
Qed.

(** C10: in the index branch of the selection, a token that [int]
    rejects adds no index and changes nothing else: the indices read,
    and with them the whole run of [main], result and final state, are
    those of the selection without the token; nothing is printed about
    it.  So "two 2" selects the second file only, and runs as "2" does. *)
Theorem C10_non_integer_tokens :
  (∀ pre bad post, Py.int bad = None →
     Recv.parse_idxs (pre ++ bad :: post) = Recv.parse_idxs (pre ++ post))
  ∧ (∀ find_all_a urljoin url_path s u c1 c2 rest r,
       Py.truthy (Py.strip u) = true →
       Recv.http s (Py.strip u) = Some r → Recv.cut r = false →
       Recv.raise_for_status r = Ret tt →
       Recv.keep_files (find_all_a (Recv.text r)) ≠ [] →
       Py.lower (Py.strip c1) ≠ "all" → Py.lower (Py.strip c2) ≠ "all" →
       omap Py.int (Py.split (Py.strip c1)) = omap Py.int (Py.split (Py.strip c2)) →
       Recv.main find_all_a urljoin url_path (Recv.with_stdin s (u :: c1 :: rest))
       = Recv.main find_all_a urljoin url_path (Recv.with_stdin s (u :: c2 :: rest)))
  ∧ Py.split "two 2" = ["two"; "2"]
  ∧ Py.int "two" = None
  ∧ (∀ listed e, listed !! 1%nat = Some e → Recv.to_download listed "two 2" = [e]).
Proof.
  repeat apply conj.
  - intros pre bad post Hb. by rewrite !parse_idxs_omap, omap_int_skip.
  - intros find_all_a urljoin url_path s u c1 c2 rest r Hu Hh Hc Hs Hne H1 H2 Heq.
    rewrite (main_selects find_all_a urljoin url_path
               (Recv.with_stdin s (u :: c1 :: rest)) u c1 rest r) by done.
    rewrite (main_selects find_all_a urljoin url_path
               (Recv.with_stdin s (u :: c2 :: rest)) u c2 rest r) by done.
    by rewrite !to_download_indices, Heq by done.
  - reflexivity.
  - reflexivity.
  - intros listed e He. rewrite to_download_indices by (vm_compute; discriminate).
    change (omap Py.int (Py.split "two 2")) with [2].
    change (omap (by_index listed) [2])
      with (match by_index listed 2 with Some x => [x] | None => [] end).
    assert (Hlen : (1 < length listed)%nat) by by eapply lookup_lt_Some.
    unfold by_index. rewrite (proj2 (Z.leb_le 2 _)) by lia.
    change (Z.to_nat (2 - 1)) with 1%nat. by rewrite He.
Qed.

Lemma C10_witness :
  run_receiver listing_page "two 2" = run_receiver listing_page "2"
  ∧ Recv.requests (snd (run_receiver listing_page "two 2"))
    = [share_base; "http://192.168.1.20:8000/b.png"].
Proof.
  destruct C10_non_integer_tokens as (_ & Hmain & _).
  split.
  - apply (Hmain (λ _, listing_page) simple_urljoin simple_url_path
             (receiver EmptyString) share_base "two 2" "2" []
             {| Recv.status := 200; Recv.chunks := ["<html>"]; Recv.cut := false |});
      try reflexivity; vm_compute; discriminate.
  - vm_compute. reflexivity.
Defined.

(** * Further properties of the code *)

(** *** Printing an integer and reading it back *)



















Lemma strip_no_space s : no_space s = true → Py.strip s = s.
Proof.
  intros H. unfold Py.strip.
  assert (Hl : Py.lstrip s = s).
  { destruct s as [|a r]; [done|]. simpl in *.
    by destruct (Py.isspace a). }
  rewrite Hl. clear Hl. induction s as [|a r IH]; [done|].
  simpl in H. apply andb_true_iff in H as [Ha Hr].
  cbn [Py.rstrip]. rewrite (IH Hr).
  destruct r; [|done]. by destruct (Py.isspace a).
Qed.

(** *** After a stop *)

Lemma no_handle_no_live v : consistent v → v_proc v = None → no_live (v_env v).
Proof.
  intros Hc Hp pid. destruct (is_alive (v_env v) pid) eqn:E; [|done].
  apply (only_live v Hc) in E. congruence.
Qed.

Lemma consistent_one_server v : consistent v → one_server v.
Proof.
  intros Hc pid Hal. pose proof (only_live v Hc pid Hal) as Hp.
  split; [done|]. apply is_alive_Some in Hal as (q & Hq & Ha).
  destruct (running_matches v Hc pid q Hp Hq Ha) as [Hd Hpo].
  rewrite Hq. f_equal. destruct q; simpl in *. congruence.
Qed.

(** X1: wherever a lifetime has led, stopping leaves no server process
    alive, no handle and no URL, and stopping again changes nothing of
    the controller or of the processes (the CLI prints "Server is not
    running" the second time). *)
Theorem X1_stop_leaves_nothing_running :
  (∀ dirs probe h cwd lines evs,
     let s := Cli.stop_server (Cli.run evs (Cli.init (boot dirs probe h) cwd lines)) in
     no_live (Cli.env s)
     ∧ Cli.proc (Cli.self s) = None ∧ Cli.url (Cli.self s) = EmptyString
     ∧ Cli.stop_server s = Cli.print (Text "Server is not running") s)
  ∧ (∀ (console : Console) dirs probe h cwd evs,
     let s := Rich.stop_server (Rich.run evs (Rich.init (boot dirs probe h) cwd)) in
     no_live (Rich.env s)
     ∧ Rich.server_proc (Rich.self s) = None ∧ Rich.url (Rich.self s) = EmptyString
     ∧ Rich.stop_server s = s)
  ∧ (∀ dirs probe h cwd evs,
     let s := Tui.action_stop_server (Tui.run evs (Tui.init (boot dirs probe h) cwd)) in
     no_live (Tui.env s) ∧ Tui.running s = false
     ∧ Tui.action_stop_server s = s).
Proof.
  repeat apply conj.
  - intros dirs probe h cwd lines evs s.
    assert (Hc : consistent (Cli.view s))
      by apply cli_stop_consistent, cli_run_consistent, cli_init_consistent.
    split; [by apply (no_handle_no_live (Cli.view s))|]. by repeat split.
  - intros console dirs probe h cwd evs s.
    assert (Hc : consistent (Rich.view s))
      by apply rich_stop_consistent, rich_run_consistent, rich_init_consistent.
    split; [by apply (no_handle_no_live (Rich.view s))|]. by repeat split.
  - intros dirs probe h cwd evs s.
    set (s0 := Tui.run evs (Tui.init (boot dirs probe h) cwd)) in *.
    assert (Hc0 : consistent (Tui.view s0))
      by apply tui_run_consistent, tui_init_consistent.
    assert (Hc : consistent (Tui.view s)) by by apply tui_stop_consistent.
    assert (Hr : Tui.running s = false).
    { change (v_running (Tui.view s) = false). unfold s.
      rewrite tui_view_stop. by destruct (Tui.running s0) eqn:E. }
    split; [|split; [done|]].
    + intros pid. by apply (not_running_no_live (Tui.view s)).
    + unfold Tui.action_stop_server. unfold Tui.running in Hr.
      destruct (Tui.server_process (Tui.self s)) as [pid|]; [|done].
      by rewrite Hr.
Qed.

(** X2: all along a lifetime of each front end at most one server
    process is alive; it is the one whose handle the controller stores,
    and it was launched with the directory and the port the controller
    now stores. *)
Theorem X2_one_server_matching_config :
  (∀ dirs probe h cwd lines evs,
     one_server (Cli.view (Cli.run evs (Cli.init (boot dirs probe h) cwd lines))))
  ∧ (∀ (console : Console) dirs probe h cwd evs,
     one_server (Rich.view (Rich.run evs (Rich.init (boot dirs probe h) cwd))))
  ∧ (∀ dirs probe h cwd evs,
     one_server (Tui.view (Tui.run evs (Tui.init (boot dirs probe h) cwd)))).
Proof.
  repeat apply conj; intros; apply consistent_one_server.
  - apply cli_run_consistent, cli_init_consistent.
  - apply rich_run_consistent, rich_init_consistent.
  - apply tui_run_consistent, tui_init_consistent.
Qed.

(** *** What brings a stopped controller to run *)

Lemma cli_stop_idle s :
  Cli.running s = false →
  Cli.env (Cli.stop_server s) = Cli.env s ∧ Cli.running (Cli.stop_server s) = false.
Proof.
  unfold Cli.running, Cli.stop_server. intros Hr.
  destruct (Cli.proc (Cli.self s)) as [pid|]; [|done]. by rewrite Hr.
Qed.

Lemma cli_cmd_dir_idle new s :
  Cli.running s = false →
  Cli.env (Cli.cmd_dir new s) = Cli.env s ∧ Cli.running (Cli.cmd_dir new s) = false.
Proof.
  intros Hr. unfold Cli.cmd_dir. destruct (isdir (Cli.env s) new); [|done].
  change (Cli.running (Cli.print _ (Cli.set_shared_dir new s))) with (Cli.running s).
  by rewrite Hr.
Qed.

Lemma cli_cmd_port_idle new s :
  Cli.running s = false →
  Cli.env (Cli.cmd_port new s) = Cli.env s ∧ Cli.running (Cli.cmd_port new s) = false.
Proof.
  intros Hr. unfold Cli.cmd_port. destruct (Py.int new) as [p|]; [|done].
  destruct (valid_port p); [|done].
  change (Cli.running (Cli.print _ (Cli.set_port p s))) with (Cli.running s).
  by rewrite Hr.
Qed.

Lemma cli_input_frame prompt s :
  Cli.env (Cli.input prompt s).2 = Cli.env s
  ∧ Cli.self (Cli.input prompt s).2 = Cli.self s.
Proof. unfold Cli.input. by destruct (Cli.stdin s). Qed.

Lemma cli_input_some prompt s line s1 :
  Cli.input prompt s = (Some line, s1) →
  ∃ rest, Cli.stdin s = line :: rest ∧ Cli.stdin s1 = rest.
Proof.
  unfold Cli.input. destruct (Cli.stdin s) as [|l rest]; [discriminate|].
  intros [= <- <-]. by exists rest.
Qed.

Lemma cli_input_none prompt s s1 :
  Cli.input prompt s = (None, s1) → Cli.stdin s = [] ∧ Cli.stdin s1 = [].
Proof.
  unfold Cli.input. destruct (Cli.stdin s) as [|l rest] eqn:E; [|discriminate].
  intros [= <-]. split; [done | exact E].
Qed.

Lemma cli_input_running prompt s :
  Cli.running (Cli.input prompt s).2 = Cli.running s.
Proof.
  unfold Cli.running. by destruct (cli_input_frame prompt s) as [-> ->].
Qed.

Lemma rich_stop_idle s :
  Rich.running s = false →
  Rich.env (Rich.stop_server s) = Rich.env s
  ∧ Rich.running (Rich.stop_server s) = false.
Proof. intros Hr. unfold Rich.stop_server. cbn [Rich.env]. by rewrite Hr. Qed.

(** X3: only a start brings a stopped controller to run.  While the
    controller is stopped, an iteration of the CLI loop whose command is
    not "start", a key of the Rich front end other than "s" and an event
    of the Textual application other than the start key (the OK and
    Cancel buttons of its dialogs included) spawn no process and leave
    the controller stopped; so do the directory and port commands,
    whatever they are given. *)
Theorem X3_only_start_starts :
  (∀ s, Cli.running s = false →
     (∀ line rest c0 args, Cli.stdin s = line :: rest →
        Py.split (Py.strip line) = c0 :: args → Py.lower c0 ≠ "start") →
     Cli.env (Cli.repl_step s).2 = Cli.env s
     ∧ Cli.running (Cli.repl_step s).2 = false)
  ∧ (∀ (console : Console) pressed typed s, Rich.running s = false →
       Py.lower (Py.strip pressed) ≠ "s" →
       Rich.env (Rich.on_key pressed typed s).2 = Rich.env s
       ∧ Rich.running (Rich.on_key pressed typed s).2 = false)
  ∧ (∀ e s, Tui.running s = false → e ≠ Tui.StartKey →
       (∀ ev, e ≠ Tui.Env ev) →
       Tui.env (Tui.step s e) = Tui.env s ∧ Tui.running (Tui.step s e) = false).
Proof.
  repeat apply conj.
  - intros s Hr Hcmd. unfold Cli.repl_step.
    pose proof (cli_input_frame "> " s) as [He Hs].
    pose proof (cli_input_running "> " s) as Hr1.
    destruct (Cli.input "> " s) as [[line|] s1] eqn:Hinp; cbn [fst snd] in *.
    2:{ rewrite <- He. apply (cli_stop_idle (Cli.print (Text EmptyString) s1)).
        change (Cli.running s1 = false). congruence. }
    apply cli_input_some in Hinp as (rest & Hin & _).
    rewrite <- Hr1 in Hr. rewrite <- He.
    destruct (Py.split (Py.strip line)) as [|c0 args] eqn:Hsp; [done|].
    specialize (Hcmd line rest c0 args Hin Hsp).
    repeat case_bool_decide; cbn [fst snd];
      try done; auto using cli_stop_idle.
    + destruct args as [|new ?]; cbn [snd]; [|by apply cli_cmd_dir_idle].
      match goal with |- context [Cli.input ?p s1] =>
        pose proof (cli_input_frame p s1) as [He2 Hs2];
        pose proof (cli_input_running p s1) as Hr2;
        destruct (Cli.input p s1) as [[new|] s2] end; cbn [fst snd] in *.
      * rewrite <- He2. apply cli_cmd_dir_idle. congruence.
      * split; [done | congruence].
    + destruct args as [|new ?]; cbn [snd]; [|by apply cli_cmd_port_idle].
      match goal with |- context [Cli.input ?p s1] =>
        pose proof (cli_input_frame p s1) as [He2 Hs2];
        pose proof (cli_input_running p s1) as Hr2;
        destruct (Cli.input p s1) as [[new|] s2] end; cbn [fst snd] in *.
      * rewrite <- He2. apply cli_cmd_port_idle. congruence.
      * split; [done | congruence].
  - intros console pressed typed s Hr Hk. unfold Rich.on_key.
    assert (Hprint : ∀ markup s0,
              Rich.env s0 = Rich.env s → Rich.running s0 = false →
              Rich.env (Rich.console_print markup s0).2 = Rich.env s
              ∧ Rich.running (Rich.console_print markup s0).2 = false).
    { intros markup s0 He Hr0. unfold Rich.console_print.
      by destruct (markup_error markup). }
    destruct (negb _); [done|].
    repeat case_bool_decide; rewrite ?rich_view_go_on; cbn [fst snd];
      try done; auto using rich_stop_idle.
    + unfold Rich.change_dir.
      destruct (isdir _ _); [|by apply Hprint].
      change (Rich.running (Rich.set_shared_dir _ (Rich.print _ s)))
        with (Rich.running s). by rewrite Hr.
    + unfold Rich.change_port.
      destruct (Py.int _) as [p|]; [|by apply Hprint].
      destruct (valid_port p); [|by apply Hprint].
      change (Rich.running (Rich.set_port _ (Rich.print _ s)))
        with (Rich.running s). by rewrite Hr.
  - intros e s Hr Hne Hnenv.
    assert (Hstop : Tui.action_stop_server s = s).
    { unfold Tui.action_stop_server. unfold Tui.running in Hr.
      destruct (Tui.server_process (Tui.self s)) as [pid|]; [|done].
      by rewrite Hr. }
    assert (Hdir : ∀ v, Tui.env (Tui.set_shared_dir v s) = Tui.env s
                        ∧ Tui.running (Tui.set_shared_dir v s) = false).
    { intros v. unfold Tui.set_shared_dir. destruct (decide _); [done|].
      unfold Tui.watch_shared_dir.
      match goal with |- context [if Tui.running ?x then _ else _] =>
        change (Tui.running x) with (Tui.running s) end.
      by rewrite Hr. }
    assert (Hport : ∀ v, Tui.env (Tui.set_port v s) = Tui.env s
                         ∧ Tui.running (Tui.set_port v s) = false).
    { intros v. unfold Tui.set_port. destruct (decide _); [done|].
      unfold Tui.watch_port.
      match goal with |- context [if Tui.running ?x then _ else _] =>
        change (Tui.running x) with (Tui.running s) end.
      by rewrite Hr. }
    destruct e as [| |path| |port_str| | |ev]; cbn [Tui.step];
      [done | by rewrite Hstop | | apply Hdir | | apply Hport
       | by rewrite Hstop | by destruct (Hnenv ev)].
    + unfold Tui.directory_ok. destruct (isdir _ _); [apply Hdir | done].
    + unfold Tui.port_ok. destruct (Py.int _) as [p|]; [|done].
      destruct (valid_port p); [apply Hport | done].
Qed.

(** X3, at a stopped CLI whose next line is a [dir] command. *)
Lemma X3_witness :
  Cli.running cli_stopped = false
  ∧ Cli.env (Cli.repl_step cli_stopped).2 = Cli.env cli_stopped
  ∧ Cli.running (Cli.repl_step cli_stopped).2 = false
  ∧ Cli.shared_dir (Cli.self (Cli.repl_step cli_stopped).2) = "/srv/share".
Proof.
  split; [vm_compute; reflexivity|].
  destruct X3_only_start_starts as (Hcli & _).
  destruct (Hcli cli_stopped) as [He Hr].
  - vm_compute; reflexivity.
  - intros line rest c0 args Hin Hsp. vm_compute in Hin.
    injection Hin as <- <-. vm_compute in Hsp. injection Hsp as <- <-.
    vm_compute. discriminate.
  - split; [exact He|]. split; [exact Hr|]. vm_compute. reflexivity.
Defined.

(** *** An invalid port *)

(** X4: a port that is not an integer for [int], or an integer outside
    [1024, 65535], is refused: the CLI and the Rich front end say which
    of the two it was and change neither the controller nor the
    processes (the Rich front end says it once [rich] has rendered the
    line), and the port dialog of the Textual application leaves the
    application as it was. *)
Theorem X4_invalid_port_rejected :
  (∀ new s, Py.int new = None →
     Cli.cmd_port new s = Cli.print (Text "Invalid port") s)
  ∧ (∀ new p s, Py.int new = Some p → ¬ (1024 ≤ p ≤ 65535) →
     Cli.cmd_port new s = Cli.print (Text "Port must be 1024-65535") s)
  ∧ (∀ (console : Console) typed s,
     Py.int (Py.or_else typed (Py.str (Rich.port (Rich.self s)))) = None →
     Rich.self (Rich.change_port typed s).2 = Rich.self s
     ∧ Rich.env (Rich.change_port typed s).2 = Rich.env s
     ∧ (markup_error "[red]Invalid port[/red]" = false →
          (Rich.change_port typed s).1 = Ret tt
          ∧ last (Rich.out (Rich.change_port typed s).2)
            = Some (Text "[red]Invalid port[/red]")))
  ∧ (∀ (console : Console) typed p s,
     Py.int (Py.or_else typed (Py.str (Rich.port (Rich.self s)))) = Some p →
     ¬ (1024 ≤ p ≤ 65535) →
     Rich.self (Rich.change_port typed s).2 = Rich.self s
     ∧ Rich.env (Rich.change_port typed s).2 = Rich.env s
     ∧ (markup_error "[red]Port must be 1024-65535[/red]" = false →
          (Rich.change_port typed s).1 = Ret tt
          ∧ last (Rich.out (Rich.change_port typed s).2)
            = Some (Text "[red]Port must be 1024-65535[/red]")))
  ∧ (∀ port_str s,
     (∀ p, Py.int port_str = Some p → ¬ (1024 ≤ p ≤ 65535)) →
     Tui.port_ok port_str s = s).
Proof.
  assert (Hv : ∀ p, ¬ (1024 ≤ p ≤ 65535) → valid_port p = false).
  { intros p Hp. unfold valid_port.
    destruct (1024 <=? p) eqn:E1; [|done].
    destruct (p <=? 65535) eqn:E2; [|done].
    apply Z.leb_le in E1, E2. lia. }
  assert (Hprint : ∀ (console : Console) markup s,
            Rich.self (Rich.console_print markup s).2 = Rich.self s
            ∧ Rich.env (Rich.console_print markup s).2 = Rich.env s
            ∧ (markup_error markup = false →
                 (Rich.console_print markup s).1 = Ret tt
                 ∧ last (Rich.out (Rich.console_print markup s).2)
                   = Some (Text markup))).
  { intros console markup s. unfold Rich.console_print.
    destruct (markup_error markup); cbn [fst snd]; [done|].
    refine (conj eq_refl (conj eq_refl _)). intros _. split; [done|].
    cbn [Rich.print Rich.out]. apply last_snoc. }
  repeat apply conj.
  - intros new s Hi. unfold Cli.cmd_port. by rewrite Hi.
  - intros new p s Hi Hp. unfold Cli.cmd_port. by rewrite Hi, (Hv p Hp).
  - intros console typed s Hi. unfold Rich.change_port. rewrite Hi.
    exact (Hprint console _ (Rich.print _ s)).
  - intros console typed p s Hi Hp. unfold Rich.change_port.
    rewrite Hi, (Hv p Hp). exact (Hprint console _ (Rich.print _ s)).
  - intros port_str s Hp. unfold Tui.port_ok.
    destruct (Py.int port_str) as [p|]; [|done].
    by rewrite (Hv p (Hp p eq_refl)).
Qed.

(** X4, at a port out of range, at a word, and at a number that follows
    the separator of code point 28, which [str.strip] would drop and
    [int] does not. *)
Lemma X4_witness :
  Py.int "70000" = Some 70000 ∧ Py.int "eighty" = None
  ∧ Py.int (String "028" "9000") = None
  ∧ Cli.cmd_port "70000" cli_up = Cli.print (Text "Port must be 1024-65535") cli_up
  ∧ Cli.cmd_port "eighty" cli_up = Cli.print (Text "Invalid port") cli_up
  ∧ Cli.cmd_port (String "028" "9000") cli_up
    = Cli.print (Text "Invalid port") cli_up.
Proof.
  destruct X4_invalid_port_rejected as (Hnone & Hout & _).
  split; [reflexivity|]. split; [reflexivity|]. split; [reflexivity|].
  split; [|split].
  - apply (Hout "70000" 70000 cli_up); [reflexivity | lia].
  - apply Hnone. reflexivity.
  - apply Hnone. reflexivity.
Defined.

(** *** The start/stop key of the Rich front end *)

(** X5: [toggle_server] always changes the run state: a running
    controller is stopped and a stopped one is started, whatever
    directory and port are stored. *)
Theorem X5_toggle_flips :
  ∀ s, Rich.running (Rich.toggle_server s) = negb (Rich.running s)
       ∧ Rich.toggle_server (Rich.toggle_server s)
         = (if Rich.running s then Rich.start_server (Rich.stop_server s)
            else Rich.stop_server (Rich.start_server s)).
Proof.
  intros s. unfold Rich.toggle_server at 1 3.
  destruct (Rich.running s) eqn:Hr; cbn [negb].
  - assert (H : Rich.running (Rich.stop_server s) = false) by done.
    split; [done|]. unfold Rich.toggle_server. by rewrite H.
  - pose proof (rich_start_running s) as H.
    split; [done|]. unfold Rich.toggle_server. by rewrite H.
Qed.

(** *** The commands of the CLI that only report *)

(** X6: an iteration of the CLI loop on a blank line, or on a line whose
    command is none of q, quit, exit, start, stop, dir and port (so: url,
    qr, help and every unknown word), goes on with the loop, reads that
    line only, and changes neither the controller nor the processes. *)
Theorem X6_reporting_commands_change_nothing :
  ∀ s line rest,
    Cli.stdin s = line :: rest →
    (∀ c0 args, Py.split (Py.strip line) = c0 :: args →
       Py.lower c0 ∉ cli_acting) →
    (Cli.repl_step s).1 = Cli.Continue
    ∧ Cli.self (Cli.repl_step s).2 = Cli.self s
    ∧ Cli.env (Cli.repl_step s).2 = Cli.env s
    ∧ Cli.stdin (Cli.repl_step s).2 = rest.
Proof.
  intros s line rest Hin Hcmd. unfold Cli.repl_step, Cli.input. rewrite Hin.
  destruct (Py.split (Py.strip line)) as [|c0 args]; [done|].
  specialize (Hcmd c0 args eq_refl). unfold cli_acting in Hcmd.
  rewrite !not_elem_of_cons in Hcmd.
  destruct Hcmd as (Hq & Hquit & Hexit & Hstart & Hstop & Hdir & Hport & _).
  rewrite (bool_decide_eq_false_2 (Py.lower c0 ∈ ["q"; "quit"; "exit"])).
  2:{ rewrite !not_elem_of_cons. repeat split; try done. apply not_elem_of_nil. }
  rewrite !(bool_decide_eq_false_2 (Py.lower c0 = _)) by done.
  repeat case_bool_decide; done.
Qed.

Lemma X6_witness :
  (Cli.repl_step (Cli.init home "/home/u" ["  QR  "; "stop"])).1 = Cli.Continue
  ∧ Cli.self (Cli.repl_step (Cli.init home "/home/u" ["  QR  "; "stop"])).2
    = Cli.self (Cli.init home "/home/u" ["  QR  "; "stop"])
  ∧ Cli.stdin (Cli.repl_step (Cli.init home "/home/u" ["  QR  "; "stop"])).2
    = ["stop"].
Proof.
  destruct (X6_reporting_commands_change_nothing
              (Cli.init home "/home/u" ["  QR  "; "stop"]) "  QR  " ["stop"])
    as (H1 & H2 & _ & H4).
  - reflexivity.
  - intros c0 args Hsp. vm_compute in Hsp. injection Hsp as <- <-.
    change (Py.lower "QR") with "qr". unfold cli_acting. intros H.
    repeat (apply elem_of_cons in H as [H|H]; [discriminate|]).
    by apply elem_of_nil in H.
  - by repeat split.
Defined.

(** *** The loop of the CLI ends *)

Lemma cli_stdin_start s : Cli.stdin (Cli.start_server s) = Cli.stdin s.
Proof. unfold Cli.start_server. by destruct (Cli.running s). Qed.

Lemma cli_stdin_stop s : Cli.stdin (Cli.stop_server s) = Cli.stdin s.
Proof.
  unfold Cli.stop_server. destruct (Cli.proc (Cli.self s)) as [pid|]; [|done].
  by destruct (is_alive (Cli.env s) pid).
Qed.

Lemma cli_stdin_cmd_dir new s : Cli.stdin (Cli.cmd_dir new s) = Cli.stdin s.
Proof.
  unfold Cli.cmd_dir. destruct (isdir _ _); [|done].
  destruct (Cli.running _); [|done].
  by rewrite cli_stdin_start, cli_stdin_stop.
Qed.

Lemma cli_stdin_cmd_port new s : Cli.stdin (Cli.cmd_port new s) = Cli.stdin s.
Proof.
  unfold Cli.cmd_port. destruct (Py.int new) as [p|]; [|done].
  destruct (valid_port p); [|done]. destruct (Cli.running _); [|done].
  by rewrite cli_stdin_start, cli_stdin_stop.
Qed.

Lemma cli_stop_clears s :
  Cli.proc (Cli.self (Cli.stop_server s)) = None
  ∧ Cli.url (Cli.self (Cli.stop_server s)) = EmptyString.
Proof. done. Qed.

Ltac close_step Hrest :=
  intros [= <- <-];
  rewrite ?cli_stdin_start, ?cli_stdin_stop, ?cli_stdin_cmd_dir,
    ?cli_stdin_cmd_port;
  cbn [Cli.print Cli.stdin]; rewrite ?Hrest;
  repeat split; try done; try (cbn [length]; lia).

Lemma repl_step_cases s fl s1 :
  Cli.repl_step s = (fl, s1) →
  (fl = Cli.Continue → (length (Cli.stdin s1) < length (Cli.stdin s))%nat)
  ∧ (fl = Cli.Break →
       Cli.proc (Cli.self s1) = None ∧ Cli.url (Cli.self s1) = EmptyString)
  ∧ (∀ exc, fl = Cli.Uncaught exc → exc = "EOFError" ∧ Cli.stdin s1 = []).
Proof.
  unfold Cli.repl_step.
  destruct (Cli.input "> " s) as [[line|] s0] eqn:Hinp.
  2:{ intros [= <- <-]. by repeat split. }
  apply cli_input_some in Hinp as (rest & Hin & Hrest). rewrite Hin.
  destruct (Py.split (Py.strip line)) as [|c0 args]; [close_step Hrest|].
  repeat case_bool_decide; try close_step Hrest.
  - destruct args as [|new ?]; [|close_step Hrest].
    match goal with |- context [Cli.input ?p s0] =>
      destruct (Cli.input p s0) as [[new|] s2] eqn:Hinp2 end.
    + apply cli_input_some in Hinp2 as (rest2 & Hin2 & Hrest2).
      rewrite Hrest in Hin2. rewrite Hin2. close_step Hrest2.
    + apply cli_input_none in Hinp2 as [_ Hn]. intros [= <- <-].
      repeat split; try done; congruence.
  - destruct args as [|new ?]; [|close_step Hrest].
    match goal with |- context [Cli.input ?p s0] =>
      destruct (Cli.input p s0) as [[new|] s2] eqn:Hinp2 end.
    + apply cli_input_some in Hinp2 as (rest2 & Hin2 & Hrest2).
      rewrite Hrest in Hin2. rewrite Hin2. close_step Hrest2.
    + apply cli_input_none in Hinp2 as [_ Hn]. intros [= <- <-].
      repeat split; try done; congruence.
Qed.

Lemma loop_ends fuel s :
  (length (Cli.stdin s) < fuel)%nat → consistent (Cli.view s) →
  ∃ fl s', CliLoop.loop fuel s = Some (fl, s')
           ∧ fl ≠ Cli.Continue
           ∧ consistent (Cli.view s')
           ∧ (fl = Cli.Break →
                Cli.proc (Cli.self s') = None
                ∧ Cli.url (Cli.self s') = EmptyString)
           ∧ (∀ exc, fl = Cli.Uncaught exc →
                exc = "EOFError" ∧ Cli.stdin s' = []).
Proof.
  revert s. induction fuel as [|k IH]; intros s Hlen Hc; [lia|].
  cbn [CliLoop.loop].
  pose proof (cli_repl_step_consistent s Hc) as Hc1.
  destruct (Cli.repl_step s) as [fl s1] eqn:Hstep.
  destruct (repl_step_cases s fl s1 Hstep) as (Hcont & Hbreak & Hunc).
  cbn [snd] in Hc1. destruct fl as [| |exc].
  - apply IH; [|done]. specialize (Hcont eq_refl). lia.
  - exists Cli.Break, s1.
    refine (conj eq_refl (conj _ (conj Hc1 (conj Hbreak Hunc)))). discriminate.
  - exists (Cli.Uncaught exc), s1.
    refine (conj eq_refl (conj _ (conj Hc1 (conj Hbreak Hunc)))). discriminate.
Qed.

(** X7: on every finite input, and with nothing happening around it
    meanwhile, the program of the CLI ends, within one iteration more
    than there are lines: either the loop is left (by a
    quit command or at the end of the input), and then no handle, no URL
    and no live server process remain, or the input ends at the prompt
    of a [dir] or [port] command and the [EOFError] is not caught. *)
Theorem X7_program_ends :
  ∀ dirs probe h cwd lines fuel,
    (length lines < fuel)%nat →
    ∃ fl s', CliLoop.program fuel (boot dirs probe h) cwd lines = Some (fl, s')
             ∧ fl ≠ Cli.Continue
             ∧ (fl = Cli.Break →
                  Cli.proc (Cli.self s') = None
                  ∧ Cli.url (Cli.self s') = EmptyString
                  ∧ no_live (Cli.env s'))
             ∧ (∀ exc, fl = Cli.Uncaught exc →
                  exc = "EOFError" ∧ Cli.stdin s' = []).
Proof.
  intros dirs probe h cwd lines fuel Hlen.
  unfold CliLoop.program, CliLoop.repl.
  set (s0 := Cli.print (Text CliLoop.banner) (Cli.init (boot dirs probe h) cwd lines)).
  assert (Hc : consistent (Cli.view s0)) by apply cli_init_consistent.
  assert (Hin : Cli.stdin s0 = lines).
  { unfold s0, Cli.init. cbn [Cli.print Cli.stdin]. by rewrite cli_stdin_start. }
  destruct (loop_ends fuel s0) as (fl & s' & Hl & Hne & Hc' & Hb & Hu);
    [by rewrite Hin | done |].
  exists fl, s'. refine (conj Hl (conj Hne (conj _ Hu))).
  intros Hfl. destruct (Hb Hfl) as [Hp Hurl].
  refine (conj Hp (conj Hurl _)).
  by apply (no_handle_no_live (Cli.view s')).
Qed.

Lemma X7_witness :
  ∃ s', CliLoop.program 4 home "/home/u" cli_session = Some (Cli.Break, s')
        ∧ Cli.proc (Cli.self s') = None ∧ no_live (Cli.env s').
Proof.
  destruct (X7_program_ends {["/home/u"; "/srv/share"]} (Ret "192.168.1.20") lan
              "/home/u" cli_session 4) as (fl & s' & Hp & _ & Hb & _).
  { cbn. lia. }
  assert (Hfl : fl = Cli.Break).
  { change (boot _ _ _) with home in Hp. vm_compute in Hp. by injection Hp as <- _. }
  subst fl. exists s'. destruct (Hb eq_refl) as (H1 & _ & H3). by repeat split.
Defined.

(** *** Reconfiguring the Textual application *)

Lemma tui_ip_stop s :
  Tui.get_local_ip (Tui.env (Tui.action_stop_server s))
  = Tui.get_local_ip (Tui.env s).
Proof.
  unfold Tui.action_stop_server.
  destruct (Tui.server_process (Tui.self s)) as [pid|]; [|done].
  destruct (is_alive (Tui.env s) pid); [|done].
  unfold Tui.set_server_process. cbn [Tui.self Tui.env].
  by destruct (decide _).
Qed.

Lemma tui_restart_view d p s s1 :
  consistent (Tui.view s) → (∀ q, p = Some q → valid_port q = true) →
  Tui.view s1 = snap_config d p (Tui.view s) → Tui.env s1 = Tui.env s →
  Tui.running s1 = true →
  Tui.view (Tui.action_start_server (Tui.action_stop_server s1))
  = snap_start (Tui.get_local_ip (Tui.env s))
      (snap_stop (snap_config d p (Tui.view s))).
Proof.
  intros Hc Hp Hv He Hr.
  assert (Hstop : Tui.view (Tui.action_stop_server s1)
                  = snap_stop (snap_config d p (Tui.view s)))
    by by rewrite tui_view_stop, Hr, Hv.
  rewrite tui_view_start.
  - by rewrite Hstop, tui_ip_stop, He.
  - rewrite Hstop. by apply consistent_stop.
Qed.

(** Assigning a new directory, or a new port, to a running application. *)
Lemma tui_set_shared_dir_running d s :
  consistent (Tui.view s) → Tui.running s = true →
  d ≠ Tui.shared_dir (Tui.self s) →
  Tui.view (Tui.set_shared_dir d s)
  = snap_start (Tui.get_local_ip (Tui.env s))
      (snap_stop (snap_config d (Tui.port (Tui.self s)) (Tui.view s)))
  ∧ Tui.dir_line (Tui.self (Tui.set_shared_dir d s))
    = "Serving: " +:+ Py.format_str d.
Proof.
  intros Hc Hr Hne. unfold Tui.set_shared_dir.
  destruct (decide _) as [Heq|_]; [by destruct Hne|].
  unfold Tui.watch_shared_dir.
  match goal with |- context [if Tui.running ?x then _ else _] =>
    change (Tui.running x) with (Tui.running s); rewrite Hr;
    set (s1 := x)
  end.
  split.
  - apply (tui_restart_view d (Tui.port (Tui.self s)) s s1); try done.
    apply Hc.
  - assert (Hwatch : ∀ v x, Tui.dir_line (Tui.self (Tui.set_server_process v x))
                            = Tui.dir_line (Tui.self x)).
    { intros v x. unfold Tui.set_server_process. destruct (decide _); [done|].
      unfold Tui.watch_server_process. cbn [Tui.self Tui.env].
      destruct v as [pid|]; [|done]. by destruct (is_alive (Tui.env x) pid). }
    assert (Hstart : ∀ x, Tui.dir_line (Tui.self (Tui.action_start_server x))
                          = Tui.dir_line (Tui.self x)).
    { intros x. unfold Tui.action_start_server. destruct (Tui.running x); [done|].
      unfold spawn. by rewrite Hwatch. }
    assert (Hstop : ∀ x, Tui.dir_line (Tui.self (Tui.action_stop_server x))
                         = Tui.dir_line (Tui.self x)).
    { intros x. unfold Tui.action_stop_server.
      destruct (Tui.server_process (Tui.self x)) as [pid|]; [|done].
      destruct (is_alive (Tui.env x) pid); [|done]. by rewrite Hwatch. }
    by rewrite Hstart, Hstop.
Qed.

Lemma tui_set_port_running p s :
  consistent (Tui.view s) → Tui.running s = true →
  (∀ q, p = Some q → valid_port q = true) →
  p ≠ Tui.port (Tui.self s) →
  Tui.view (Tui.set_port p s)
  = snap_start (Tui.get_local_ip (Tui.env s))
      (snap_stop (snap_config (Tui.shared_dir (Tui.self s)) p (Tui.view s))).
Proof.
  intros Hc Hr Hp Hne. unfold Tui.set_port.
  destruct (decide _) as [Heq|_]; [by destruct Hne|].
  unfold Tui.watch_port.
  match goal with |- context [if Tui.running ?x then _ else _] =>
    change (Tui.running x) with (Tui.running s); rewrite Hr;
    apply (tui_restart_view (Tui.shared_dir (Tui.self s)) p s x)
  end; done.
Qed.

(** X8: in the Textual application, along every lifetime, a new
    directory or a new port on a running controller restarts the server:
    afterwards the controller is running, its URL carries the port, and
    the one live process is a new one launched with the new
    configuration.  The Cancel button of a dialog does the same with
    [None]: the server is restarted with [None] as its directory, or as
    its port, and the directory line reads "Serving: None", the URL
    "http://<address>:None".  A value equal to the stored one restarts
    nothing and changes nothing. *)
Theorem X8_tui_reconfigure :
  (∀ dirs probe h cwd evs path,
     let s := Tui.run evs (Tui.init (boot dirs probe h) cwd) in
     Tui.running s = true → isdir (Tui.env s) path = true →
     Some path ≠ Tui.shared_dir (Tui.self s) →
     let s' := Tui.directory_ok path s in
     Tui.running s' = true
     ∧ Tui.shared_dir (Tui.self s') = Some path
     ∧ Tui.port (Tui.self s') = Tui.port (Tui.self s)
     ∧ Tui.url (Tui.self s')
       = share_url_of (Tui.get_local_ip (Tui.env s)) (Tui.port (Tui.self s))
     ∧ ∃ pid, Tui.server_process (Tui.self s') = Some pid
              ∧ serving_args (Tui.env s') pid (Some path) (Tui.port (Tui.self s)))
  ∧ (∀ dirs probe h cwd evs port_str p,
     let s := Tui.run evs (Tui.init (boot dirs probe h) cwd) in
     Tui.running s = true → Py.int port_str = Some p → valid_port p = true →
     Some p ≠ Tui.port (Tui.self s) →
     let s' := Tui.port_ok port_str s in
     Tui.running s' = true
     ∧ Tui.shared_dir (Tui.self s') = Tui.shared_dir (Tui.self s)
     ∧ Tui.port (Tui.self s') = Some p
     ∧ Tui.url (Tui.self s') = share_url (Tui.get_local_ip (Tui.env s)) p
     ∧ ∃ pid, Tui.server_process (Tui.self s') = Some pid
              ∧ serving_args (Tui.env s') pid (Tui.shared_dir (Tui.self s)) (Some p))
  ∧ (∀ dirs probe h cwd evs,
     let s := Tui.run evs (Tui.init (boot dirs probe h) cwd) in
     Tui.running s = true → Tui.shared_dir (Tui.self s) ≠ None →
     let s' := Tui.directory_cancel s in
     Tui.running s' = true
     ∧ Tui.shared_dir (Tui.self s') = None
     ∧ Tui.port (Tui.self s') = Tui.port (Tui.self s)
     ∧ Tui.dir_line (Tui.self s') = "Serving: None"
     ∧ ∃ pid, Tui.server_process (Tui.self s') = Some pid
              ∧ serving_args (Tui.env s') pid None (Tui.port (Tui.self s)))
  ∧ (∀ dirs probe h cwd evs,
     let s := Tui.run evs (Tui.init (boot dirs probe h) cwd) in
     Tui.running s = true → Tui.port (Tui.self s) ≠ None →
     let s' := Tui.port_cancel s in
     Tui.running s' = true
     ∧ Tui.shared_dir (Tui.self s') = Tui.shared_dir (Tui.self s)
     ∧ Tui.port (Tui.self s') = None
     ∧ Tui.url (Tui.self s')
       = "http://" +:+ Tui.get_local_ip (Tui.env s) +:+ ":None"
     ∧ ∃ pid, Tui.server_process (Tui.self s') = Some pid
              ∧ serving_args (Tui.env s') pid (Tui.shared_dir (Tui.self s)) None)
  ∧ (∀ s path, Tui.shared_dir (Tui.self s) = Some path →
       Tui.directory_ok path s = s)
  ∧ (∀ s port_str p, Py.int port_str = Some p → Tui.port (Tui.self s) = Some p →
       Tui.port_ok port_str s = s)
  ∧ (∀ s, Tui.shared_dir (Tui.self s) = None → Tui.directory_cancel s = s)
  ∧ (∀ s, Tui.port (Tui.self s) = None → Tui.port_cancel s = s).
Proof.
  repeat apply conj.
  - intros dirs probe h cwd evs path s Hr Hd Hne s'.
    assert (Hc : consistent (Tui.view s))
      by apply tui_run_consistent, tui_init_consistent.
    destruct (restart_serving (Tui.get_local_ip (Tui.env s)) (Some path)
                (Tui.port (Tui.self s)) (Tui.view s) Hc (port_in_range _ Hc))
      as (H1 & H2 & H3 & H4 & H5).
    assert (Hv : Tui.view s' = snap_start (Tui.get_local_ip (Tui.env s))
              (snap_stop (snap_config (Some path) (Tui.port (Tui.self s))
                            (Tui.view s)))).
    { unfold s', Tui.directory_ok. rewrite Hd.
      by apply tui_set_shared_dir_running. }
    rewrite <- Hv in H1, H2, H3, H4, H5. auto 10.
  - intros dirs probe h cwd evs port_str p s Hr Hi Hp Hne s'.
    assert (Hc : consistent (Tui.view s))
      by apply tui_run_consistent, tui_init_consistent.
    destruct (restart_serving (Tui.get_local_ip (Tui.env s))
                (Tui.shared_dir (Tui.self s)) (Some p) (Tui.view s) Hc
                (valid_some p Hp))
      as (H1 & H2 & H3 & H4 & H5).
    assert (Hv : Tui.view s' = snap_start (Tui.get_local_ip (Tui.env s))
              (snap_stop (snap_config (Tui.shared_dir (Tui.self s)) (Some p)
                            (Tui.view s)))).
    { unfold s', Tui.port_ok. rewrite Hi, Hp.
      apply tui_set_port_running; [done | done | by apply valid_some | done]. }
    rewrite <- Hv in H1, H2, H3, H4, H5. auto 10.
  - intros dirs probe h cwd evs s Hr Hne s'.
    assert (Hc : consistent (Tui.view s))
      by apply tui_run_consistent, tui_init_consistent.
    destruct (restart_serving (Tui.get_local_ip (Tui.env s)) None
                (Tui.port (Tui.self s)) (Tui.view s) Hc (port_in_range _ Hc))
      as (H1 & H2 & H3 & H4 & H5).
    destruct (tui_set_shared_dir_running None s Hc Hr) as [Hv Hline];
      [congruence|].
    fold (Tui.directory_cancel s) in Hv, Hline. fold s' in Hv, Hline.
    rewrite <- Hv in H1, H2, H3, H4, H5. auto 10.
  - intros dirs probe h cwd evs s Hr Hne s'.
    assert (Hc : consistent (Tui.view s))
      by apply tui_run_consistent, tui_init_consistent.
    destruct (restart_serving (Tui.get_local_ip (Tui.env s))
                (Tui.shared_dir (Tui.self s)) None (Tui.view s) Hc)
      as (H1 & H2 & H3 & H4 & H5); [done|].
    assert (Hv : Tui.view s' = snap_start (Tui.get_local_ip (Tui.env s))
              (snap_stop (snap_config (Tui.shared_dir (Tui.self s)) None
                            (Tui.view s)))).
    { apply tui_set_port_running; [done | done | done | congruence]. }
    rewrite <- Hv in H1, H2, H3, H4, H5. auto 10.
  - intros s path Hd. unfold Tui.directory_ok, Tui.set_shared_dir.
    destruct (isdir _ _); [|done]. by destruct (decide _).
  - intros s port_str p Hi Hp. unfold Tui.port_ok, Tui.set_port. rewrite Hi.
    destruct (valid_port _); [|done]. by destruct (decide _).
  - intros s Hd. unfold Tui.directory_cancel, Tui.set_shared_dir.
    by destruct (decide _).
  - intros s Hp. unfold Tui.port_cancel, Tui.set_port. by destruct (decide _).
Qed.

(** X8, at a running application given another directory; and the
    Cancel button of the port dialog on it. *)
Lemma X8_witness :
  Tui.running tui_up = true
  ∧ isdir (Tui.env tui_up) "/srv/share" = true
  ∧ Tui.running (Tui.directory_ok "/srv/share" tui_up) = true
  ∧ (∃ pid, Tui.server_process (Tui.self (Tui.directory_ok "/srv/share" tui_up))
            = Some pid
            ∧ serving (Tui.env (Tui.directory_ok "/srv/share" tui_up)) pid
                "/srv/share" 8000)
  ∧ Tui.url (Tui.self (Tui.port_cancel tui_up)) = "http://192.168.1.20:None"
  ∧ w_procs (Tui.env (Tui.port_cancel tui_up))
    = [{| p_dir := Some "/home/u"; p_port := Some 8000; p_alive := false |};
       {| p_dir := Some "/home/u"; p_port := None; p_alive := true |}].
Proof.
  split; [vm_compute; reflexivity|]. split; [vm_compute; reflexivity|].
  destruct X8_tui_reconfigure as (Hdir & _ & _ & Hcancel & _).
  destruct (Hdir {["/home/u"; "/srv/share"]} (Ret "192.168.1.20") lan
              "/home/u" [Tui.StartKey] "/srv/share")
    as (Hr & _ & _ & _ & Hs);
    [vm_compute; reflexivity | vm_compute; reflexivity | discriminate |].
  split; [exact Hr|]. split; [exact Hs|].
  destruct (Hcancel {["/home/u"; "/srv/share"]} (Ret "192.168.1.20") lan
              "/home/u" [Tui.StartKey])
    as (_ & _ & _ & Hu & _); [vm_compute; reflexivity | discriminate |].
  split; [exact Hu|]. vm_compute. reflexivity.
Defined.

(** *** The widgets of the Textual application *)

Lemma widgets_watch v s :
  Tui.dir_line (Tui.self s)
  = "Serving: " +:+ Py.format_str (Tui.shared_dir (Tui.self s)) →
  widgets_show (Tui.self (Tui.watch_server_process v s)).
Proof.
  intros Hd. unfold Tui.watch_server_process.
  destruct (match v with Some pid => is_alive (Tui.env s) pid | None => false end);
    cbn [Tui.self]; unfold widgets_show;
    cbn [Tui.dir_line Tui.shared_dir Tui.qr_box Tui.url Tui.url_line
         Tui.status_line]; repeat split; try done.
Qed.

Lemma widgets_set_process v s :
  widgets_show (Tui.self s) →
  widgets_show (Tui.self (Tui.set_server_process v s)).
Proof.
  intros Hw. unfold Tui.set_server_process. destruct (decide _); [done|].
  apply widgets_watch. apply Hw.
Qed.

Lemma widgets_start s :
  widgets_show (Tui.self s) → widgets_show (Tui.self (Tui.action_start_server s)).
Proof.
  intros Hw. unfold Tui.action_start_server. destruct (Tui.running s); [done|].
  by apply widgets_set_process.
Qed.

Lemma widgets_stop s :
  widgets_show (Tui.self s) → widgets_show (Tui.self (Tui.action_stop_server s)).
Proof.
  intros Hw. unfold Tui.action_stop_server.
  destruct (Tui.server_process (Tui.self s)) as [pid|]; [|done].
  destruct (is_alive (Tui.env s) pid); [|done]. by apply widgets_set_process.
Qed.

Lemma widgets_restart s :
  widgets_show (Tui.self s) →
  widgets_show (Tui.self
    (if Tui.running s then Tui.action_start_server (Tui.action_stop_server s)
     else s)).
Proof.
  intros Hw. destruct (Tui.running s); [|done].
  by apply widgets_start, widgets_stop.
Qed.

Lemma widgets_set_shared_dir v s :
  widgets_show (Tui.self s) → widgets_show (Tui.self (Tui.set_shared_dir v s)).
Proof.
  intros Hw. unfold Tui.set_shared_dir. destruct (decide _); [done|].
  unfold Tui.watch_shared_dir. apply widgets_restart.
  destruct Hw as (_ & Hq & Hu1 & Hu2).
  exact (conj eq_refl (conj Hq (conj Hu1 Hu2))).
Qed.

Lemma widgets_set_port v s :
  widgets_show (Tui.self s) → widgets_show (Tui.self (Tui.set_port v s)).
Proof.
  intros Hw. unfold Tui.set_port. destruct (decide _); [done|].
  unfold Tui.watch_port. apply widgets_restart.
  destruct Hw as (Hd & Hq & Hu1 & Hu2).
  exact (conj Hd (conj Hq (conj Hu1 Hu2))).
Qed.

Lemma widgets_step s e :
  widgets_show (Tui.self s) → widgets_show (Tui.self (Tui.step s e)).
Proof.
  intros Hw. destruct e as [| |path| |port_str| | |ev]; cbn [Tui.step];
    auto using widgets_start, widgets_stop.
  - unfold Tui.directory_ok. destruct (isdir _ _); [|done].
    by apply widgets_set_shared_dir.
  - by apply widgets_set_shared_dir.
  - unfold Tui.port_ok. destruct (Py.int port_str) as [p|]; [|done].
    destruct (valid_port p); [|done]. by apply widgets_set_port.
  - by apply widgets_set_port.
Qed.

(** X9: all along a lifetime of the Textual application, from the
    moment it is mounted, its widgets show its attributes: the directory
    line names the stored directory ("None" once the directory dialog
    was cancelled), the QR box is the rendering of the stored URL (the
    placeholder when there is none), and the URL and status lines say
    "stopped" exactly when the stored URL is empty. *)
Theorem X9_widgets_show_attributes :
  ∀ dirs probe h cwd evs,
    widgets_show (Tui.self (Tui.run evs (Tui.init (boot dirs probe h) cwd))).
Proof.
  intros dirs probe h cwd evs.
  assert (H0 : widgets_show (Tui.self (Tui.init (boot dirs probe h) cwd))).
  { unfold widgets_show, Tui.init. cbn. repeat split; try done. }
  revert H0. generalize (Tui.init (boot dirs probe h) cwd).
  induction evs as [|e evs IH]; intros s Hs; [done|].
  cbn [Tui.run fold_left]. apply IH. by apply widgets_step.
Qed.

(** The widgets of the mounted application, before any key; calling the
    watchers before [on_mount] mounts the same application. *)
Example tui_mounted :
  Tui.self (Tui.init home "/home/u")
  = {| Tui.server_process := None; Tui.shared_dir := Some "/home/u";
       Tui.port := Some 8000; Tui.url := EmptyString;
       Tui.status_line := "Status: [b red]Stopped[/b red]";
       Tui.url_line := "URL: (stopped)";
       Tui.dir_line := "Serving: /home/u";
       Tui.qr_box := Text "Server is stopped. Start it to see the QR code." |}.
Proof. reflexivity. Qed.

Example tui_mount_order w cwd :
  let s := {| Tui.env := w; Tui.self := Tui.compose cwd |} in
  Tui.on_mount
    (Tui.watch_port (Some 8000)
       (Tui.watch_shared_dir (Some cwd) (Tui.watch_server_process None s)))
  = Tui.init w cwd.
Proof. reflexivity. Qed.

(** *** Pressing Enter at a prompt of the Rich front end *)




(** *** The receiver when there is nothing to fetch *)

Lemma list_files_fails find_all_a url s :
  (Recv.http s url = None
   ∨ ∃ r, Recv.http s url = Some r
          ∧ (Recv.cut r = true ∨ 400 ≤ Recv.status r < 600)) →
  ∃ e, Recv.list_files find_all_a url s
       = (Exc e,
          {| Recv.http := Recv.http s; Recv.files := Recv.files s;
             Recv.unwritable := Recv.unwritable s; Recv.stdin := Recv.stdin s;
             Recv.out := Recv.out s; Recv.requests := Recv.requests s ++ [url] |}).
Proof.
  unfold Recv.list_files, Recv.get. intros [Hn | (r & Hr & Hbad)].
  - rewrite Hn. by eexists.
  - rewrite Hr. cbn [negb andb]. destruct (Recv.cut r) eqn:Hc; [by eexists|].
    destruct Hbad as [[=] | [H1 H2]]. unfold Recv.raise_for_status.
    rewrite (proj2 (Z.leb_le 400 _) H1), (proj2 (Z.ltb_lt _ 600) H2).
    by eexists.
Qed.

(** X11: when the listing cannot be fetched (the request fails, the body
    breaks off, or the status is a 4xx or 5xx), [main] says so and
    returns normally: it has made that one request, asked for no
    selection, downloaded nothing and written no file. *)
Theorem X11_listing_failure :
  ∀ find_all_a urljoin url_path s u rest,
    Recv.stdin s = u :: rest →
    Py.truthy (Py.strip u) = true →
    (Recv.http s (Py.strip u) = None
     ∨ ∃ r, Recv.http s (Py.strip u) = Some r
            ∧ (Recv.cut r = true ∨ 400 ≤ Recv.status r < 600)) →
    let done := Recv.main find_all_a urljoin url_path s in
    done.1 = Ret tt
    ∧ Recv.requests done.2 = Recv.requests s ++ [Py.strip u]
    ∧ Recv.files done.2 = Recv.files s
    ∧ Recv.stdin done.2 = rest
    ∧ ∃ e, last (Recv.out done.2) = Some ("Failed to list files: " +:+ e).
Proof.
  intros find_all_a urljoin url_path s u rest Hin Hu Hbad done.
  unfold done, Recv.main, Recv.input. cbn [Recv.print Recv.stdin].
  rewrite Hin, Hu. cbn [negb].
  match goal with |- context [Recv.list_files _ _ ?x] =>
    destruct (list_files_fails find_all_a (Py.strip u) x Hbad) as (e & ->) end.
  cbn. repeat split. exists e. apply last_snoc.
Qed.

Lemma X11_witness :
  (run_offline "all").1 = Ret tt
  ∧ Recv.requests (run_offline "all").2 = [share_base]
  ∧ Recv.files (run_offline "all").2 = Recv.files (receiver_offline "all").
Proof.
  destruct (X11_listing_failure (λ _, listing_page) simple_urljoin simple_url_path
              (receiver_offline "all") share_base ["all"])
    as (H1 & H2 & H3 & _); [reflexivity | reflexivity | by left |].
  split; [exact H1|]. split; [exact H2 | exact H3].
Defined.

(** X12: [main] makes no request and writes no file when it is given no
    URL: a blank line ends it normally, the end of the input at the
    first prompt ends it with an [EOFError].  When the page is fetched
    but lists no file, it says so after that one request, and reads no
    selection. *)
Theorem X12_nothing_to_do :
  (∀ find_all_a urljoin url_path s,
     Recv.stdin s = [] →
     let done := Recv.main find_all_a urljoin url_path s in
     done.1 = Exc "EOFError"
     ∧ Recv.requests done.2 = Recv.requests s ∧ Recv.files done.2 = Recv.files s)
  ∧ (∀ find_all_a urljoin url_path s u rest,
     Recv.stdin s = u :: rest → Py.strip u = EmptyString →
     let done := Recv.main find_all_a urljoin url_path s in
     done.1 = Ret tt
     ∧ Recv.requests done.2 = Recv.requests s ∧ Recv.files done.2 = Recv.files s
     ∧ Recv.stdin done.2 = rest)
  ∧ (∀ find_all_a urljoin url_path s u rest r,
     Recv.stdin s = u :: rest → Py.truthy (Py.strip u) = true →
     Recv.http s (Py.strip u) = Some r → Recv.cut r = false →
     Recv.raise_for_status r = Ret tt →
     Recv.keep_files (find_all_a (Recv.text r)) = [] →
     let done := Recv.main find_all_a urljoin url_path s in
     done.1 = Ret tt
     ∧ Recv.requests done.2 = Recv.requests s ++ [Py.strip u]
     ∧ Recv.files done.2 = Recv.files s
     ∧ Recv.stdin done.2 = rest
     ∧ last (Recv.out done.2) = Some "No files found at the URL").
Proof.
  repeat apply conj.
  - intros find_all_a urljoin url_path s Hin done.
    unfold done, Recv.main, Recv.input. cbn [Recv.print Recv.stdin].
    by rewrite Hin.
  - intros find_all_a urljoin url_path s u rest Hin Hu done.
    unfold done, Recv.main, Recv.input. cbn [Recv.print Recv.stdin].
    by rewrite Hin, Hu.
  - intros find_all_a urljoin url_path s u rest r Hin Hu Hh Hc Hs He done.
    unfold done, Recv.main, Recv.input. cbn [Recv.print Recv.stdin].
    rewrite Hin, Hu. cbn [negb].
    erewrite list_files_ok by (cbn; eassumption). rewrite He.
    cbn. repeat split. apply last_snoc.
Qed.

Lemma X12_witness :
  (Recv.main (λ _, listing_page) simple_urljoin simple_url_path
     (Recv.with_stdin (receiver "all") ["   "; "all"])).1 = Ret tt
  ∧ Recv.requests
      (Recv.main (λ _, listing_page) simple_urljoin simple_url_path
         (Recv.with_stdin (receiver "all") ["   "; "all"])).2 = [].
Proof.
  destruct X12_nothing_to_do as (_ & Hblank & _).
  destruct (Hblank (λ _, listing_page) simple_urljoin simple_url_path
              (Recv.with_stdin (receiver "all") ["   "; "all"]) "   " ["all"])
    as (H1 & H2 & _); [reflexivity | reflexivity |].
  split; [exact H1 | exact H2].
Defined.

(** *** A download that fails *)

Lemma status_error r :
  400 ≤ Recv.status r < 600 → Recv.raise_for_status r = Exc "HTTPError".
Proof.
  intros [H1 H2]. unfold Recv.raise_for_status.
  by rewrite (proj2 (Z.leb_le 400 _) H1), (proj2 (Z.ltb_lt _ 600) H2).
Qed.

Lemma download_file_others urljoin url_path base href dest s p :
  p ≠ Recv.join dest (Recv.basename (url_path (urljoin base href))) →
  Recv.files (Recv.download_file urljoin url_path base href dest s).2 !! p
  = Recv.files s !! p.
Proof.
  intros Hne. unfold Recv.download_file, Recv.get.
  destruct (Recv.http s (urljoin base href)) as [r|]; [|done].
  cbn [negb andb]. destruct (Recv.raise_for_status r); [|done].
  case_bool_decide; [done|].
  destruct (Recv.cut r); cbn [snd Recv.with_files Recv.files];
    by rewrite !lookup_insert_ne.
Qed.

(** X13: how [download_file] fails.  A request that fails, a 4xx or 5xx
    status, or a path that cannot be opened raise before anything is
    written, and the files are as before.  A transfer that breaks off
    raises after the file was opened: the file then holds exactly the
    chunks received, and what was there before is lost.  In every case
    no other file is touched. *)
Theorem X13_download_failures :
  ∀ urljoin url_path base href dest s,
    let path := Recv.join dest (Recv.basename (url_path (urljoin base href))) in
    let run := Recv.download_file urljoin url_path base href dest s in
    (Recv.http s (urljoin base href) = None →
       run.1 = Exc "ConnectionError" ∧ Recv.files run.2 = Recv.files s)
    ∧ (∀ r, Recv.http s (urljoin base href) = Some r →
         400 ≤ Recv.status r < 600 →
         run.1 = Exc "HTTPError" ∧ Recv.files run.2 = Recv.files s)
    ∧ (∀ r, Recv.http s (urljoin base href) = Some r →
         Recv.raise_for_status r = Ret tt → path ∈ Recv.unwritable s →
         run.1 = Exc "OSError" ∧ Recv.files run.2 = Recv.files s)
    ∧ (∀ r, Recv.http s (urljoin base href) = Some r →
         Recv.raise_for_status r = Ret tt → path ∉ Recv.unwritable s →
         Recv.cut r = true →
         run.1 = Exc "ChunkedEncodingError"
         ∧ Recv.files run.2 = <[path := Recv.text r]> (Recv.files s))
    ∧ (∀ p, p ≠ path → Recv.files run.2 !! p = Recv.files s !! p).
Proof.
  intros urljoin url_path base href dest s path run.
  unfold run, Recv.download_file, Recv.get. fold path. repeat apply conj.
  - by intros ->.
  - intros r -> Hs. cbn [negb andb]. by rewrite (status_error r Hs).
  - intros r -> Hs Hw. cbn [negb andb]. rewrite Hs. cbn [Recv.unwritable].
    by rewrite bool_decide_eq_true_2.
  - intros r -> Hs Hw Hc. cbn [negb andb]. rewrite Hs. cbn [Recv.unwritable].
    rewrite bool_decide_eq_false_2 by done. rewrite Hc.
    split; [done|]. cbn [snd Recv.with_files Recv.files].
    by rewrite insert_insert_eq, write_chunks_concat.
  - intros p Hp. by apply download_file_others.
Qed.

Lemma X13_witness :
  (Recv.download_file simple_urljoin simple_url_path share_base "b.png" "."
     receiver_broken).1 = Exc "ChunkedEncodingError"
  ∧ Recv.files
      (Recv.download_file simple_urljoin simple_url_path share_base "b.png" "."
         receiver_broken).2 !! "./b.png" = Some "PNG".
Proof.
  destruct (X13_download_failures simple_urljoin simple_url_path share_base
              "b.png" "." receiver_broken) as (_ & _ & _ & Hcut & _).
  destruct (Hcut {| Recv.status := 200; Recv.chunks := ["PNG"]; Recv.cut := true |})
    as [H1 H2]; [reflexivity | reflexivity | | reflexivity |].
  { vm_compute. discriminate. }
  split; [exact H1|]. rewrite H2. apply lookup_insert_eq.
Defined.

(** *** What the receiver asks for and what it writes *)

Lemma select_listed listed idxs e :
  e ∈ Recv.select listed idxs → e ∈ listed.
Proof.
  induction idxs as [|i idxs IH]; cbn [Recv.select]; [by intros ?%elem_of_nil|].
  destruct ((0 <=? i) && (i <? Z.of_nat (length listed))); [|done].
  destruct (listed !! Z.to_nat i) as [f|] eqn:Hf; [|done].
  intros [-> | Hin]%elem_of_cons; [|by apply IH].
  by eapply list_elem_of_lookup_2.
Qed.

Lemma to_download_listed listed choice e :
  e ∈ Recv.to_download listed choice → e ∈ listed.
Proof.
  unfold Recv.to_download. case_bool_decide; [done|]. apply select_listed.
Qed.

Lemma download_all_others urljoin url_path url sel s p :
  p ∉ target urljoin url_path url <$> sel →
  Recv.files (Recv.download_all urljoin url_path url sel s) !! p
  = Recv.files s !! p.
Proof.
  revert s. induction sel as [|[name href] sel IH]; intros s Hp; [done|].
  rewrite fmap_cons, not_elem_of_cons in Hp. destruct Hp as [Hne Hp].
  cbn [Recv.download_all].
  pose proof (download_file_others urljoin url_path url href "."
                (Recv.print ("Downloading " +:+ name +:+ "...") s) p Hne) as Hf.
  destruct (Recv.download_file _ _ _ _ _ _) as [[path|e] s2];
    cbn [snd] in Hf; by rewrite IH.
Qed.

(** X14: [main] asks the share for listed files only, and writes only
    where they are saved: once the listing is fetched, every request
    after the one for the page is for the href of a listed entry, joined
    to the URL, and every file other than the targets of the listed
    entries is as it was, whatever is selected and whatever each
    download does. *)
Theorem X14_only_listed_files :
  (∀ listed choice e, e ∈ Recv.to_download listed choice → e ∈ listed)
  ∧ (∀ find_all_a urljoin url_path s u c rest r,
       Recv.stdin s = u :: c :: rest →
       Py.truthy (Py.strip u) = true →
       Recv.http s (Py.strip u) = Some r → Recv.cut r = false →
       Recv.raise_for_status r = Ret tt →
       let url := Py.strip u in
       let listed := Recv.keep_files (find_all_a (Recv.text r)) in
       let done := Recv.main find_all_a urljoin url_path s in
       (∀ q, q ∈ Recv.requests done.2 →
          q ∈ Recv.requests s ∨ q = url
          ∨ ∃ e, e ∈ listed ∧ q = urljoin url e.2)
       ∧ (∀ p, p ∉ target urljoin url_path url <$> listed →
            Recv.files done.2 !! p = Recv.files s !! p)).
Proof.
  split; [exact to_download_listed|].
  intros find_all_a urljoin url_path s u c rest r Hin Hu Hh Hc Hs url listed done.
  destruct (decide (listed = [])) as [He|Hne].
  - assert (Hdone : Recv.requests done.2 = Recv.requests s ++ [url]
                    ∧ Recv.files done.2 = Recv.files s).
    { unfold done, Recv.main, Recv.input. cbn [Recv.print Recv.stdin].
      rewrite Hin, Hu. cbn [negb].
      erewrite list_files_ok by (cbn; eassumption). fold listed. by rewrite He. }
    destruct Hdone as [Hreq Hf]. split.
    + intros q. rewrite Hreq, elem_of_app, list_elem_of_singleton. tauto.
    + intros p _. by rewrite Hf.
  - unfold done.
    rewrite (main_selects find_all_a urljoin url_path s u c rest r
               Hin Hu Hh Hc Hs Hne). cbn [snd]. fold url listed.
    set (sel := Recv.to_download listed (Py.strip c)).
    destruct (download_all_frame urljoin url_path url sel
                (ready s url listed rest)) as (Hreq & _). split.
    + intros q. rewrite Hreq. cbn [ready Recv.requests].
      rewrite !elem_of_app, list_elem_of_singleton, list_elem_of_fmap.
      intros [[Hq | Hq] | (e & -> & He)]; [by left | by right; left |].
      right; right. exists e. split; [|done]. by eapply to_download_listed.
    + intros p Hp. rewrite download_all_others; [done|].
      intros (e & -> & He)%list_elem_of_fmap. apply Hp.
      apply list_elem_of_fmap. exists e. split; [done|].
      by eapply to_download_listed.
Qed.

Lemma X14_witness :
  Recv.files (run_receiver listing_page "all").2 !! "./notes.txt"
  = Recv.files (receiver "all") !! "./notes.txt".
Proof.
  destruct X14_only_listed_files as (_ & Hmain).
  destruct (Hmain (λ _, listing_page) simple_urljoin simple_url_path
              (receiver "all") share_base "all" []
              {| Recv.status := 200; Recv.chunks := ["<html>"]; Recv.cut := false |})
    as (_ & Hf); [reflexivity ..|].
  apply Hf.
  change (target simple_urljoin simple_url_path (Py.strip share_base)
            <$> Recv.keep_files listing_page)
    with ["./a.txt"; "./b.png"; "./c.md"].
  intros H. repeat (apply elem_of_cons in H as [H|H]; [discriminate|]).
  by apply elem_of_nil in H.
Defined.

(** *** What the front ends display *)

Lemma share_url_not_placeholder addr p : share_url_of addr p ≠ "(stopped)".
Proof. discriminate. Qed.

Lemma or_else_placeholder v :
  consistent v →
  (Py.or_else (v_url v) "(stopped)" = "(stopped)" ↔ v_proc v = None)
  ∧ (v_running v = true →
       ∃ addr, Py.or_else (v_url v) "(stopped)" = share_url_of addr (v_port v)).
Proof.
  intros Hc. destruct (consistent_url_tracks v Hc) as [Hrun Hiff]. split.
  - destruct (v_proc v) as [pid|] eqn:Hp.
    + destruct (url_form v Hc pid Hp) as (addr & q & _ & ->).
      split; [|done]. intros H. by destruct (share_url_not_placeholder addr (p_port q)).
    + rewrite (proj2 Hiff eq_refl). done.
  - intros Hr. destruct (Hrun Hr) as (addr & ->). by exists addr.
Qed.

(** X15: what is displayed follows the controller along every lifetime.
    The URL row of the Rich front end and the answer of the CLI to "url"
    are "(stopped)" exactly when no process handle is stored, and the QR
    code is the placeholder in that case only; whenever the status row
    says "Running", the URL shown is http://<address>:<port> for the
    stored port. *)
Theorem X15_display_follows_controller :
  (∀ (console : Console) dirs probe h cwd evs,
     let s := Rich.run evs (Rich.init (boot dirs probe h) cwd) in
     (Rich.render_url s = "(stopped)" ↔ Rich.server_proc (Rich.self s) = None)
     ∧ (Rich.render_status s = "Running" →
          ∃ addr, Rich.render_url s = share_url addr (Rich.port (Rich.self s)))
     ∧ (Rich.generate_qr_ascii (Rich.url (Rich.self s))
        = Text "Server is stopped. Start it to see the QR code."
        ↔ Rich.server_proc (Rich.self s) = None))
  ∧ (∀ dirs probe h cwd lines evs rest,
     let s := Cli.run evs (Cli.init (boot dirs probe h) cwd lines) in
     Cli.stdin s = "url" :: rest →
     (last (Cli.out (Cli.repl_step s).2) = Some (Text "(stopped)")
      ↔ Cli.proc (Cli.self s) = None)
     ∧ (Cli.running s = true →
          ∃ addr, last (Cli.out (Cli.repl_step s).2)
                  = Some (Text (share_url addr (Cli.port (Cli.self s)))))).
Proof.
  split.
  - intros console dirs probe h cwd evs s.
    assert (Hc : consistent (Rich.view s))
      by apply rich_run_consistent, rich_init_consistent.
    destruct (or_else_placeholder _ Hc) as [Hiff Hrun]. split; [exact Hiff|].
    split.
    + unfold Rich.render_status.
      change (Rich.running s) with (v_running (Rich.view s)).
      destruct (v_running (Rich.view s)); [|discriminate]. intros _. by apply Hrun.
    + unfold Rich.generate_qr_ascii.
      destruct (url_iff_handle _ Hc) as [H1 H2]. cbn [Rich.view v_url v_proc] in *.
      destruct (Rich.url (Rich.self s)) as [|a r] eqn:Hu; cbn [Py.truthy].
      * split; [by intros _; apply H1 | done].
      * split; [discriminate|]. intros Hn. by specialize (H2 Hn).
  - intros dirs probe h cwd lines evs rest s Hin.
    assert (Hc : consistent (Cli.view s))
      by apply cli_run_consistent, cli_init_consistent.
    destruct (or_else_placeholder _ Hc) as [Hiff Hrun].
    assert (Hout : last (Cli.out (Cli.repl_step s).2)
                   = Some (Text (Py.or_else (Cli.url (Cli.self s)) "(stopped)"))).
    { unfold Cli.repl_step, Cli.input. rewrite Hin. cbn. apply last_snoc. }
    rewrite Hout. split.
    + rewrite <- Hiff. cbn [Cli.view v_url]. split; [by intros [= ->] | by intros ->].
    + intros Hr. destruct (Hrun Hr) as (addr & Ha). exists addr.
      cbn [Cli.view v_url v_port] in Ha. by rewrite Ha.
Qed.

Lemma X15_witness :
  last (Cli.out (Cli.repl_step (Cli.init home "/home/u" ["url"])).2)
  = Some (Text "http://192.168.1.20:8000").
Proof.
  destruct X15_display_follows_controller as (_ & Hcli).
  destruct (Hcli {["/home/u"; "/srv/share"]} (Ret "192.168.1.20") lan "/home/u"
              ["url"] [] []) as (_ & Hrun); [reflexivity|].
  destruct Hrun as (addr & Ha); [vm_compute; reflexivity|].
  pose proof Ha as Hv. vm_compute in Hv.
  refine (eq_trans Ha _). vm_compute. symmetry. exact Hv.
Defined.

(** *** A directory named on the command line *)

Lemma no_space_rev_app a b :
  no_space (String.rev_app a b) = no_space a && no_space b.
Proof.
  revert b. induction a as [|c a IH]; intros b; [done|].
  cbn [String.rev_app no_space]. rewrite IH. cbn [no_space].
  by destruct (Py.isspace c), (no_space a), (no_space b).
Qed.

Lemma rev_app_nonempty x y :
  y ≠ EmptyString → String.rev_app x y ≠ EmptyString.
Proof.
  revert y. induction x as [|c x IH]; intros y Hy; [done|]. by apply IH.
Qed.

Lemma rev_word c cur :
  no_space (String c cur) = true →
  no_space (String.rev (String c cur)) = true
  ∧ String.rev (String c cur) ≠ EmptyString.
Proof.
  intros H. unfold String.rev. split.
  - by rewrite no_space_rev_app, H.
  - cbn [String.rev_app]. by apply rev_app_nonempty.
Qed.

Lemma split_go_words cur s t :
  no_space cur = true → t ∈ Py.split_go cur s →
  no_space t = true ∧ t ≠ EmptyString.
Proof.
  revert cur. induction s as [|a s IH]; intros cur Hcur; cbn [Py.split_go].
  - destruct cur as [|c cur]; [by intros ?%elem_of_nil|].
    intros ->%list_elem_of_singleton. by apply rev_word.
  - destruct (Py.isspace a) eqn:Ha.
    + destruct cur as [|c cur]; [by apply IH|].
      intros [-> | Hin]%elem_of_cons; [by apply rev_word | by apply (IH EmptyString)].
    + apply IH. cbn [no_space]. by rewrite Ha, Hcur.
Qed.

Lemma split_words s t : t ∈ Py.split s → no_space t = true ∧ t ≠ EmptyString.
Proof. by apply split_go_words. Qed.

(** X16: on the line of a [dir] or [port] command the CLI takes the first
    word after the command as the argument and ignores the rest of the
    line; a word is never empty and holds no whitespace, so a directory
    whose name contains a blank cannot be named on the command line.  With
    no word after the command, the next line of input is the argument,
    as it is typed. *)
Theorem X16_first_word_is_the_argument :
  (∀ line t, t ∈ Py.split (Py.strip line) →
     no_space t = true ∧ t ≠ EmptyString)
  ∧ (∀ s line rest c0 new more,
     Cli.stdin s = line :: rest →
     Py.split (Py.strip line) = c0 :: new :: more →
     (Py.lower c0 = "dir" →
        Cli.repl_step s = (Cli.Continue, Cli.cmd_dir new (Cli.input "> " s).2))
     ∧ (Py.lower c0 = "port" →
        Cli.repl_step s = (Cli.Continue, Cli.cmd_port new (Cli.input "> " s).2)))
  ∧ (∀ s line typed rest c0,
     Cli.stdin s = line :: typed :: rest →
     Py.split (Py.strip line) = [c0] → Py.lower c0 = "dir" →
     ∃ s2, Cli.repl_step s = (Cli.Continue, Cli.cmd_dir typed s2)
           ∧ Cli.self s2 = Cli.self s ∧ Cli.env s2 = Cli.env s
           ∧ Cli.stdin s2 = rest).
Proof.
  repeat apply conj.
  - intros line t. apply split_words.
  - intros s line rest c0 new more Hin Hsp. unfold Cli.repl_step, Cli.input.
    rewrite Hin, Hsp. split; intros ->; reflexivity.
  - intros s line typed rest c0 Hin Hsp Hdir. unfold Cli.repl_step, Cli.input.
    rewrite Hin, Hsp, Hdir. cbn. eexists. split; [reflexivity|]. done.
Qed.

Lemma X16_witness :
  Cli.shared_dir
    (Cli.self (Cli.repl_step (Cli.init home "/home/u" ["dir /srv/share and more"])).2)
  = "/srv/share".
Proof.
  destruct X16_first_word_is_the_argument as (_ & Hword & _).
  destruct (Hword (Cli.init home "/home/u" ["dir /srv/share and more"])
              "dir /srv/share and more" [] "dir" "/srv/share" ["and"; "more"])
    as [Hdir _]; [reflexivity | reflexivity |].
  rewrite Hdir by reflexivity. vm_compute. reflexivity.
Defined.

(** *** Where a download is saved *)

Lemma no_slash_not_absolute name :
  Recv.has_slash name = false → Py.startswith "/" name = false.
Proof.
  destruct name as [|b r]; [done|]. cbn [Recv.has_slash Py.startswith].
  intros [Hb _]%orb_false_iff. rewrite andb_true_r.
  destruct (Ascii.eqb "/" b) eqn:E; [|done].
  apply Ascii.eqb_eq in E as <-. discriminate.
Qed.

Lemma join_no_slash dest name :
  Recv.has_slash name = false →
  Recv.join dest name
  = if negb (Py.truthy dest) || Py.endswith "/" dest
    then dest +:+ name else dest +:+ "/" +:+ name.
Proof.
  intros H. unfold Recv.join. by rewrite (no_slash_not_absolute name H).
Qed.

(** X17: a download is saved directly in the destination directory.  The
    name of the local file is what follows the last slash of the path of
    the URL, so it holds no slash, and the path written is the
    destination, a slash unless the destination is empty or ends in one,
    and that name; [main], whose destination is ".", writes to "./name"
    only. *)
Theorem X17_saved_under_destination :
  ∀ urljoin url_path base href dest,
    let name := Recv.basename (url_path (urljoin base href)) in
    Recv.has_slash name = false
    ∧ (∀ s p, (Recv.download_file urljoin url_path base href dest s).1 = Ret p →
         p = if negb (Py.truthy dest) || Py.endswith "/" dest
             then dest +:+ name else dest +:+ "/" +:+ name)
    ∧ (∀ name0, target urljoin url_path base (name0, href) = "./" +:+ name).
Proof.
  intros urljoin url_path base href dest name.
  pose proof (has_slash_basename (url_path (urljoin base href))) as Hn.
  fold name in Hn. repeat apply conj; [done | |].
  - intros s p. rewrite <- (join_no_slash dest name Hn).
    unfold Recv.download_file, Recv.get. fold name.
    destruct (Recv.http s (urljoin base href)) as [r|]; [|discriminate].
    cbn [negb andb]. destruct (Recv.raise_for_status r); [|discriminate].
    case_bool_decide; [discriminate|].
    destruct (Recv.cut r); [discriminate|]. by intros [= <-].
  - intros name0. unfold target. cbn [snd]. fold name.
    by rewrite (join_no_slash "." name Hn).
Qed.

Lemma X17_witness :
  fetch_b_png.1 = Ret "./b.png".
Proof.
  destruct (X17_saved_under_destination simple_urljoin simple_url_path
              share_base "b.png" ".") as (_ & Hp & _).
  assert (H : ∃ p, fetch_b_png.1 = Ret p) by (eexists; vm_compute; reflexivity).
  destruct H as (p & H). rewrite H. f_equal.
  rewrite (Hp (receiver "2") p H). vm_compute. reflexivity.
Defined.
